(** * freqtrade_api_bot: a shallow embedding of [freqtrade_api_bot.py]

    The script polls a freqtrade REST server for the profit and daily
    summaries, derives a few percentages, optionally posts them as a status
    update and appends them to a local SQLite table, sleeps and starts over.

    The embedding follows the Python source function by function:
    - Python values ([None], [bool], [int], [float], [str], [list], [dict])
      are the inductive type [pyval]; a [float] is an IEEE 754 binary64 value,
      given by the Standard Library's [spec_float] with [prec = 53] and
      [emax = 1024], whose operations round to nearest, ties to even;
    - an exception is a value of [exn]; a pure computation that may raise
      returns a [result];
    - code with effects (printing, logging, HTTP requests, the status update,
      SQLite, the clock, sleeping) is a function from a [world] to the list of
      [event]s it performs, how it ends and the next [world]; it ends by
      returning, by raising, or by [SystemExit] (out of [sys.exit]), which is
      kept apart because [except Exception] does not catch it; what the
      outside answers (HTTP responses, failures of the providers, the time)
      is read from the immutable [env]. *)

From Stdlib Require Import ZArith NArith QArith Qabs List String Ascii Bool Lia.
From Stdlib Require Import SpecFloat Decimal DecimalString DecimalN DecimalPos.
Import ListNotations.

Open Scope string_scope.
Open Scope Z_scope.

(** ** Characters and strings *)

Definition newline : ascii := ascii_of_nat 10.
Definition nl : string := String newline "".
Definition tab : string := String (ascii_of_nat 9) "".
Definition dquote : string := String (ascii_of_nat 34) "".

(** [sep.join(parts)]. *)
Fixpoint join (sep : string) (parts : list string) : string :=
  match parts with
  | [] => ""
  | [p] => p
  | p :: rest => p ++ sep ++ join sep rest
  end.

(** [c in s] for a one-character [c]. *)
Fixpoint contains_char (c : ascii) (s : string) : bool :=
  match s with
  | "" => false
  | String a r => Ascii.eqb a c || contains_char c r
  end.

(** [s.split(c)] for a one-character separator: the pieces between the
    occurrences of [c], in order; never the empty list. *)
Fixpoint split_char (c : ascii) (s : string) : list string :=
  match s with
  | "" => [""]
  | String a r =>
      if Ascii.eqb a c then "" :: split_char c r
      else match split_char c r with
           | [] => [String a ""]
           | p :: ps => String a p :: ps
           end
  end.

(** [s.upper()] on ASCII text: the letters a..z become A..Z, every other
    character below 128 stays. (On characters above 127 Python's [upper]
    follows Unicode; statements that use [upper] say where they rely on the
    text being ASCII.) *)
Definition upper_ascii (a : ascii) : ascii :=
  let n := nat_of_ascii a in
  if (Nat.leb 97 n && Nat.leb n 122)%bool then ascii_of_nat (n - 32) else a.

Fixpoint upper (s : string) : string :=
  match s with
  | "" => ""
  | String a r => String (upper_ascii a) (upper r)
  end.

Definition is_ascii_char (a : ascii) : bool := Nat.ltb (nat_of_ascii a) 128.

Fixpoint is_ascii (s : string) : bool :=
  match s with
  | "" => true
  | String a r => is_ascii_char a && is_ascii r
  end.

(** ** Floats: IEEE 754 binary64 *)

Module PyFloat.

Definition prec : Z := 53.
Definition emax : Z := 1024.

Definition mul : spec_float -> spec_float -> spec_float := SFmul prec emax.
Definition div : spec_float -> spec_float -> spec_float := SFdiv prec emax.
Definition add : spec_float -> spec_float -> spec_float := SFadd prec emax.

(** The float nearest to an integer (ties to even); an infinity when the
    integer is out of range. *)
Definition of_Z (z : Z) : spec_float := binary_normalize prec emax z 0 false.

(** [x == 0.0]: both zeros compare equal to zero, nothing else does. *)
Definition is_zero (x : spec_float) : bool :=
  match x with
  | S754_zero _ => true
  | _ => false
  end.

Definition is_finite (x : spec_float) : bool :=
  match x with
  | S754_zero _ | S754_finite _ _ _ => true
  | _ => false
  end.

Definition is_nan (x : spec_float) : bool :=
  match x with
  | S754_nan => true
  | _ => false
  end.

(** [x < 0.0]. *)
Definition is_negative (x : spec_float) : bool :=
  match x with
  | S754_infinity true | S754_finite true _ _ => true
  | _ => false
  end.

(** *** ["%.2f" % x]

    CPython formats a float with a correctly rounded conversion: the result
    is the decimal with two fractional digits nearest to the exact binary
    value, ties to even; the sign is kept also when the digits are all zero;
    infinities and NaN print as [inf], [-inf] and [nan]. *)

(** [num / den] rounded to the nearest integer, ties to even
    ([0 <= num], [0 < den]). *)
Definition round_half_even (num den : Z) : Z :=
  let q := num / den in
  let r := num mod den in
  match 2 * r ?= den with
  | Lt => q
  | Gt => q + 1
  | Eq => if Z.even q then q else q + 1
  end.

(** The magnitude [m * 2^e] in hundredths, rounded to an integer. *)
Definition hundredths (m : positive) (e : Z) : Z :=
  match e with
  | Zneg p => round_half_even (100 * Zpos m) (2 ^ Zpos p)
  | _ => 100 * Zpos m * 2 ^ e
  end.

Definition digit_char (d : Z) : ascii := ascii_of_nat (48 + Z.to_nat d).

(** A natural number in decimal, [0] as ["0"]. *)
Definition decimal (n : Z) : string :=
  NilZero.string_of_uint (N.to_uint (Z.to_N n)).

Definition two_digits (n : Z) : string :=
  String (digit_char (n / 10)) (String (digit_char (n mod 10)) "").

(** Sign, integer part, a point and exactly two fractional digits, for a
    magnitude of [n] hundredths. *)
Definition fixed2 (s : bool) (n : Z) : string :=
  (if s then "-" else "") ++ decimal (n / 100) ++ "." ++ two_digits (n mod 100).

Definition format_2f (x : spec_float) : string :=
  match x with
  | S754_nan => "nan"
  | S754_infinity s => if s then "-inf" else "inf"
  | S754_zero s => fixed2 s 0
  | S754_finite s m e => fixed2 s (hundredths m e)
  end.

(** *** Reading a two-decimal string back

    [parse_fixed2] accepts exactly the strings [-]digits.dd and returns the
    sign and the magnitude in hundredths; it is the inverse that states what
    "a string with exactly two decimal places" denotes. *)

Definition digit_value (a : ascii) : option Z :=
  let n := nat_of_ascii a in
  if (Nat.leb 48 n && Nat.leb n 57)%bool then Some (Z.of_nat (n - 48)) else None.

Definition is_digit (a : ascii) : bool :=
  match digit_value a with
  | Some _ => true
  | None => false
  end.

Fixpoint all_digits (s : string) : bool :=
  match s with
  | "" => true
  | String a r => is_digit a && all_digits r
  end.

Fixpoint split_at_dot (s : string) : option (string * string) :=
  match s with
  | "" => None
  | String a r =>
      if Ascii.eqb a "."%char then Some ("", r)
      else match split_at_dot r with
           | Some (p, q) => Some (String a p, q)
           | None => None
           end
  end.

Definition parse_magnitude (body : string) : option Z :=
  match split_at_dot body with
  | Some (ip, String d1 (String d2 "")) =>
      match NilZero.uint_of_string ip, digit_value d1, digit_value d2 with
      | Some u, Some a, Some b => Some (100 * Z.of_N (N.of_uint u) + 10 * a + b)
      | _, _, _ => None
      end
  | _ => None
  end.

Definition parse_fixed2 (s : string) : option (bool * Z) :=
  match s with
  | String "-"%char body => option_map (pair true) (parse_magnitude body)
  | _ => option_map (pair false) (parse_magnitude s)
  end.

(** The exact magnitude [m * 2^e] of a finite float, as a rational. *)
Definition magnitude (m : positive) (e : Z) : Q :=
  match e with
  | Zneg p => Zpos m # (2 ^ p)
  | _ => inject_Z (Zpos m * 2 ^ e)
  end.

End PyFloat.

(** ** Python values, exceptions and results *)

#[warnings="-register-all"]
Inductive pyval : Type :=
| PNone
| PBool (b : bool)
| PInt (z : Z)
| PFloat (f : spec_float)
| PStr (s : string)
| PList (l : list pyval)
| PDict (d : list (string * pyval)).

(** The exception classes the script can meet; all of them derive from
    [Exception]. [LibraryError] stands for the exceptions of the libraries
    the script calls (requests other than its [ConnectionError], the JSON
    decoder, tweepy, sqlite3), by class name. *)
Inductive exn_class : Type :=
| ValueError
| TypeError
| KeyError
| IndexError
| ZeroDivisionError
| OverflowError
| AttributeError
| ConnectionError
| LibraryError (name : string).

(** An exception: its class and [str(e)]. The texts given to exceptions the
    interpreter raises are CPython's; they vary between versions and no
    statement below depends on them. *)
Record exn : Type := mk_exn { exn_cls : exn_class; exn_msg : string }.

(** The outcome of a pure computation: a value or an exception. *)
Inductive result (A : Type) : Type :=
| Ok (a : A)
| Raise (e : exn).

Arguments Ok {A} a.
Arguments Raise {A} e.

Definition rbind {A B : Type} (r : result A) (k : A -> result B) : result B :=
  match r with
  | Ok a => k a
  | Raise e => Raise e
  end.

Definition rmap {A B : Type} (f : A -> B) (r : result A) : result B :=
  rbind r (fun a => Ok (f a)).

Declare Scope result_scope.
Delimit Scope result_scope with result.
Notation "x <- r ;; k" := (rbind r (fun x => k))
  (at level 61, r at next level, right associativity) : result_scope.

Definition raise {A : Type} (c : exn_class) (m : string) : result A :=
  Raise (mk_exn c m).

(** [type(v).__name__]. *)
Definition type_name (v : pyval) : string :=
  match v with
  | PNone => "NoneType"
  | PBool _ => "bool"
  | PInt _ => "int"
  | PFloat _ => "float"
  | PStr _ => "str"
  | PList _ => "list"
  | PDict _ => "dict"
  end.

(** [bool(v)]: what [if v:] tests. *)
Definition truthy (v : pyval) : bool :=
  match v with
  | PNone => false
  | PBool b => b
  | PInt z => negb (z =? 0)
  | PFloat f => negb (PyFloat.is_zero f)
  | PStr s => negb (String.eqb s "")
  | PList l => match l with [] => false | _ => true end
  | PDict d => match d with [] => false | _ => true end
  end.

(** [d.get(k)] on the contents of a dict, kept as an association list with
    one entry per key. *)
Fixpoint lookup (k : string) (d : list (string * pyval)) : option pyval :=
  match d with
  | [] => None
  | (k', v) :: rest => if String.eqb k k' then Some v else lookup k rest
  end.

Definition not_subscriptable {A : Type} (v : pyval) : result A :=
  raise TypeError ("'" ++ type_name v ++ "' object is not subscriptable").

(** [v[k]] for a string key [k]. *)
Definition getitem_key (v : pyval) (k : string) : result pyval :=
  match v with
  | PDict d =>
      match lookup k d with
      | Some x => Ok x
      | None => raise KeyError ("'" ++ k ++ "'")
      end
  | PList _ => raise TypeError "list indices must be integers or slices, not str"
  | PStr _ => raise TypeError "string indices must be integers"
  | _ => not_subscriptable v
  end.

(** [v[0]]. The keys of a dict that came out of JSON are strings, so [0] is
    never one of them. *)
Definition getitem_first (v : pyval) : result pyval :=
  match v with
  | PList (x :: _) => Ok x
  | PList [] => raise IndexError "list index out of range"
  | PStr (String a _) => Ok (PStr (String a ""))
  | PStr "" => raise IndexError "string index out of range"
  | PDict _ => raise KeyError "0"
  | _ => not_subscriptable v
  end.

(** [d.get(k, default)] as an attribute call: only a dict has the method. *)
Definition dict_get (v : pyval) (k : string) (default : pyval) : result pyval :=
  match v with
  | PDict d =>
      match lookup k d with
      | Some x => Ok x
      | None => Ok default
      end
  | _ => raise AttributeError ("'" ++ type_name v ++ "' object has no attribute 'get'")
  end.

(** A signed integer in decimal. *)
Definition int_str (z : Z) : string :=
  match z with
  | Zneg p => "-" ++ PyFloat.decimal (Zpos p)
  | _ => PyFloat.decimal z
  end.

(** ** Effects: events, the environment and the world *)

(** What the script does to the outside, in program order. An event records
    the call, made with these arguments, whether or not it then fails. *)
Inductive event : Type :=
| EvPrint (text : string)
| EvWarning (text : string)
| EvRequest (method url : string) (headers : list (string * string)) (body : string)
| EvUpdateStatus (text : string)
| EvSqlConnect (path : string)
| EvSqlExecute (sql : string) (params : list pyval)
| EvSqlCommit
| EvSleep (seconds : pyval).

(** The type affinity of a column of an SQLite table: how a value is
    converted when it is stored in the column. *)
Inductive affinity : Type :=
| AffText
| AffNumeric
| AffInteger
| AffReal
| AffBlob.

(** A number as SQLite reads it out of a text. *)
Inductive sql_number : Type :=
| SqlInteger (z : Z)
| SqlReal (f : spec_float).

(** What the HTTP session meets on one request: the decoded JSON body of
    the response, or an exception out of [session.request] or [resp.json()]. *)
Inductive http_outcome : Type :=
| Response (json : pyval)
| HttpRaises (e : exn).

(** What [Path(configfile)] holds. *)
Inductive config_source : Type :=
| NoSuchFile
| Unreadable (e : exn)
| Loaded (contents : pyval).

(** The outside world's answers, fixed for a run: the outcome of the n-th
    HTTP request, whether building the tweepy handler raises for given
    credentials, whether the n-th status update raises, whether the n-th
    call into sqlite3 raises, the n-th reading of the clock, and the files;
    and two conversions of the SQLite library: the number it reads a text
    as when the text goes into a numeric column (an integer literal that
    fits 64 bits is that INTEGER, another numeric literal is a REAL, any
    other text is no number), and the text it writes for a REAL that goes
    into a text column. *)
Record env : Type := {
  http : nat -> http_outcome;
  tweepy_setup : pyval -> pyval -> pyval -> pyval -> option exn;
  status_update : nat -> option exn;
  sqlite_fault : nat -> option exn;
  clock : nat -> spec_float;
  files : string -> config_source;
  sqlite_number : string -> option sql_number;
  sqlite_real_text : spec_float -> string
}.

(** The table [trades] of [history.db]: its columns, each with its name
    and the affinity of its declared type, and its rows, oldest first; a
    row holds the values stored in it, in column order, as Python reads
    them back (NULL as [None], an INTEGER as an int, a REAL as a float, a
    TEXT as a str). *)
Record table : Type := {
  columns : list (string * affinity);
  rows : list (list pyval)
}.

(** The mutable state a run threads: how many requests, status updates,
    sqlite calls and clock readings were made so far, and the table
    ([None]: no such table yet). *)
Record world : Type := {
  requests_made : nat;
  updates_made : nat;
  sqlite_calls : nat;
  clock_reads : nat;
  db : option table
}.

Definition initial_world (t : option table) : world :=
  {| requests_made := 0; updates_made := 0; sqlite_calls := 0; clock_reads := 0; db := t |}.

(** How a command ends: it returns a value, raises an exception of class
    [Exception], or raises [SystemExit] with the status of the process. *)
Inductive ending (A : Type) : Type :=
| Returned (a : A)
| Raised (e : exn)
| Exited (status : Z).

Arguments Returned {A} a.
Arguments Raised {A} e.
Arguments Exited {A} status.

Record run (A : Type) : Type := mk_run {
  events : list event;
  outcome : ending A;
  after : world
}.

Arguments mk_run {A} events outcome after.
Arguments events {A} r.
Arguments outcome {A} r.
Arguments after {A} r.

Definition cmd (A : Type) : Type := world -> run A.

Definition ret {A : Type} (a : A) : cmd A := fun w => mk_run [] (Returned a) w.

Definition ending_of {A : Type} (r : result A) : ending A :=
  match r with
  | Ok a => Returned a
  | Raise e => Raised e
  end.

(** A pure computation as a command. *)
Definition lift {A : Type} (r : result A) : cmd A := fun w => mk_run [] (ending_of r) w.

Definition bind {A B : Type} (m : cmd A) (k : A -> cmd B) : cmd B :=
  fun w =>
    let r := m w in
    match outcome r with
    | Returned a => let r' := k a (after r) in
                    mk_run (events r ++ events r') (outcome r') (after r')
    | Raised e => mk_run (events r) (Raised e) (after r)
    | Exited c => mk_run (events r) (Exited c) (after r)
    end.

Declare Scope cmd_scope.
Delimit Scope cmd_scope with cmd.
Notation "x <- m ;; k" := (bind m (fun x => k))
  (at level 61, m at next level, right associativity) : cmd_scope.
Notation "m ;; k" := (bind m (fun _ => k))
  (at level 61, right associativity) : cmd_scope.

Definition emit (e : event) : cmd unit := fun w => mk_run [e] (Returned tt) w.

Definition print (text : string) : cmd unit := emit (EvPrint text).

Definition logger_warning (text : string) : cmd unit := emit (EvWarning text).

(** [sys.exit(status)]. *)
Definition sys_exit {A : Type} (status : Z) : cmd A :=
  fun w => mk_run [] (Exited status) w.

(** [try: body  except Exception as e: handler(e)  finally: cleanup]:
    the handler runs on an exception of class [Exception] only, the cleanup
    always; an exception or exit out of the cleanup replaces what was
    pending, otherwise what was pending goes on. *)
Definition try_except_finally
    (body : cmd unit) (handler : exn -> cmd unit) (cleanup : cmd unit) : cmd unit :=
  fun w =>
    let r1 := body w in
    let r2 :=
      match outcome r1 with
      | Raised e => handler e (after r1)
      | other => mk_run [] other (after r1)
      end in
    let r3 := cleanup (after r2) in
    mk_run (events r1 ++ events r2 ++ events r3)
           (match outcome r3 with
            | Returned _ => outcome r2
            | other => other
            end)
           (after r3).

(** ** The command line and the configuration *)

(** What [add_arguments] returns: the parsed command line. *)
Record Args : Type := {
  arg_command : option string;
  arg_show : bool;
  arg_config : string;
  arg_command_arguments : list string
}.

(** The module-level names the script binds at start-up (lines 415-424). *)
Record globals : Type := {
  config : pyval;
  url : pyval;
  port : pyval;
  username : pyval;
  password : pyval;
  save_to_db : pyval;
  send_tweet : pyval;
  starting_capital : pyval;
  position_size : pyval;
  run_interval : pyval
}.

(** The six components [urlparse] returns and [urlunparse] takes. *)
Record url_parts : Type := {
  url_scheme : string;
  url_netloc : string;
  url_path : string;
  url_params : string;
  url_query : string;
  url_fragment : string
}.

(** ** Sample data

    The payloads of the specification's worked example, and one concrete
    choice for each function of the interpreter the model leaves open; the
    closed examples further down are run on them. *)

Module Sample.

(** A profit summary and a daily summary with the given amounts. *)
Definition profit_of (closed all best_rate : Z) : pyval :=
  PDict [ ("profit_closed_coin", PInt closed); ("profit_all_coin", PInt all);
          ("best_rate", PInt best_rate); ("best_pair", PStr "ETH/BTC");
          ("trade_count", PInt 10); ("closed_trade_count", PInt 8);
          ("latest_trade_date", PStr "2024-01-01"); ("avg_duration", PStr "2:30") ].

Definition daily_of (abs_profit : Z) : pyval :=
  PDict [ ("date", PStr "2024-01-01"); ("abs_profit", PInt abs_profit);
          ("trade_count", PInt 2) ].

Definition profit_summary : pyval := profit_of 100 150 20.

Definition daily_summary : pyval := daily_of 10.

Definition daily_response : pyval := PDict [ ("data", PList [daily_summary]) ].

(** A profit summary that reports the whole starting capital of 1000 lost. *)
Definition wiped_out : pyval := profit_of (-1000) (-1000) 0.

Definition api_server (show_tweets save_rows : bool) : pyval :=
  PDict [ ("api_server",
           PDict [ ("server_url", PStr "localhost"); ("listen_port", PInt 8080);
                   ("username", PStr "freqtrader"); ("password", PStr "secret");
                   ("save_to_db", PBool save_rows); ("send_tweet", PBool show_tweets);
                   ("starting_capital", PInt 1000); ("position_size", PInt 50);
                   ("run_interval", PInt 600) ]) ].

Definition repr (v : pyval) : string :=
  match v with
  | PStr s => "'" ++ s ++ "'"
  | _ => "..."
  end.

Definition float_of_string (s : string) : option spec_float := None.

Definition urlencode (v : pyval) : result string :=
  match v with
  | PDict [(k, PInt z)] => Ok (k ++ "=" ++ int_str z)
  | PDict [(k, PStr x)] => Ok (k ++ "=" ++ x)
  | _ => Ok ""
  end.

Definition json_dumps (v : pyval) : result string :=
  match v with
  | PNone => Ok "null"
  | _ => Ok "{}"
  end.

Definition urlparse (u : string) : result url_parts :=
  Ok {| url_scheme := ""; url_netloc := ""; url_path := u;
        url_params := ""; url_query := ""; url_fragment := "" |}.

Definition urlunparse (p : url_parts) : string :=
  match url_query p with
  | "" => url_path p
  | q => url_path p ++ "?" ++ q
  end.

Definition path_str (p : string) : string := p.

(** SQLite's reading of a text as a number, on the texts the examples
    store: digits with an optional minus sign are that integer (a REAL
    beyond 64 bits), a text [-]digits.dd is the double nearest to it, and
    any other text of the examples is no number. The examples store no
    float in a text column. *)
Definition read_digits (negative : bool) (s : string) : option sql_number :=
  match s with
  | "" => None
  | _ =>
      if PyFloat.all_digits s
      then match NilZero.uint_of_string s with
           | Some u =>
               let n := Z.of_N (N.of_uint u) in
               let z := if negative then - n else n in
               Some (if (- 2 ^ 63 <=? z) && (z <? 2 ^ 63) then SqlInteger z
                     else SqlReal (PyFloat.of_Z z))
           | None => None
           end
      else None
  end.

Definition read_number (s : string) : option sql_number :=
  match PyFloat.parse_fixed2 s with
  | Some (negative, n) =>
      Some (SqlReal (PyFloat.div (PyFloat.of_Z (if negative then - n else n))
                                 (PyFloat.of_Z 100)))
  | None =>
      match s with
      | String "-"%char digits => read_digits true digits
      | _ => read_digits false s
      end
  end.

Definition real_text (f : spec_float) : string := "...".

Definition connection_refused : exn := mk_exn ConnectionError "Connection refused".

(** A server that answers the two fetches of the first cycle and is
    unreachable from then on; providers that never fail; a configuration
    file at [config.json] only. *)
Definition world_of (config : pyval) (answers : nat -> http_outcome) : env :=
  {| http := answers;
     tweepy_setup := fun _ _ _ _ => None;
     status_update := fun _ => None;
     sqlite_fault := fun _ => None;
     clock := fun _ => PyFloat.of_Z 1700000000;
     files := fun p => if String.eqb p "config.json" then Loaded config else NoSuchFile;
     sqlite_number := read_number;
     sqlite_real_text := real_text |}.

Definition up_then_down (n : nat) : http_outcome :=
  match n with
  | O => Response profit_summary
  | S O => Response daily_response
  | _ => HttpRaises connection_refused
  end.

Definition always_down (n : nat) : http_outcome := HttpRaises connection_refused.

Definition always_up (n : nat) : http_outcome :=
  if Nat.even n then Response profit_summary else Response daily_response.

Definition args (show : bool) (config_path : string) : Args :=
  {| arg_command := None; arg_show := show; arg_config := config_path;
     arg_command_arguments := [] |}.

End Sample.

Section Bot.

(** What the interpreter and its libraries compute and the script only
    passes along: [repr] of a float (its shortest decimal that reads back)
    and of a list or dict, [float(s)] of a string ([None] when the string is
    no number), [urllib.parse.urlencode], [json.dumps], [urlparse] and
    [urlunparse], and [str(Path(p))]. Every statement below holds for all
    of them. *)
Variable repr : pyval -> string.
Variable float_of_string : string -> option spec_float.
Variable urlencode : pyval -> result string.
Variable json_dumps : pyval -> result string.
Variable urlparse : string -> result url_parts.
Variable urlunparse : url_parts -> string.
Variable path_str : string -> string.

(** The outside world of the run. *)
Variable E : env.

(** [str(v)], which is what an f-string field [{v}] inserts. *)
Definition py_str (v : pyval) : string :=
  match v with
  | PNone => "None"
  | PBool true => "True"
  | PBool false => "False"
  | PInt z => int_str z
  | PStr s => s
  | PFloat _ | PList _ | PDict _ => repr v
  end.

Definition float_of_int (z : Z) : result spec_float :=
  let f := PyFloat.of_Z z in
  if PyFloat.is_finite f then Ok f
  else raise OverflowError "int too large to convert to float".

(** [float(v)]. *)
Definition py_float (v : pyval) : result spec_float :=
  match v with
  | PFloat f => Ok f
  | PInt z => float_of_int z
  | PBool b => Ok (PyFloat.of_Z (if b then 1 else 0))
  | PStr s =>
      match float_of_string s with
      | Some f => Ok f
      | None => raise ValueError ("could not convert string to float: " ++ repr v)
      end
  | _ =>
      raise TypeError
        ("float() argument must be a string or a number, not '" ++ type_name v ++ "'")
  end.

(** [a + b] for a float [b]. *)
Definition add_float (a : pyval) (b : spec_float) : result spec_float :=
  match a with
  | PFloat f => Ok (PyFloat.add f b)
  | PInt z => rmap (fun f => PyFloat.add f b) (float_of_int z)
  | PBool c => Ok (PyFloat.add (PyFloat.of_Z (if c then 1 else 0)) b)
  | _ =>
      raise TypeError
        ("unsupported operand type(s) for +: '" ++ type_name a ++ "' and 'float'")
  end.

(** [a / n] for a positive integer literal [n] (true division). The quotient
    of two integers is rounded once, from the exact integers. *)
Definition int_as_exact (z : Z) : spec_float :=
  match z with
  | Z0 => S754_zero false
  | Zpos p => S754_finite false p 0
  | Zneg p => S754_finite true p 0
  end.

Definition div_int (a : pyval) (n : Z) : result spec_float :=
  let int_div z :=
    let q := PyFloat.div (int_as_exact z) (int_as_exact n) in
    if PyFloat.is_finite q then Ok q
    else raise OverflowError "integer division result too large for a float" in
  match a with
  | PFloat f => Ok (PyFloat.div f (PyFloat.of_Z n))
  | PInt z => int_div z
  | PBool c => int_div (if c then 1 else 0)
  | _ =>
      raise TypeError
        ("unsupported operand type(s) for /: '" ++ type_name a ++ "' and 'int'")
  end.

(** ** The metrics calculator *)

(** Source lines 262-263:
<<
def percentage(part, whole):
    return "%.2f" % (100 * float(part) / float(whole))
>>
    [100 * float(part)] is evaluated before [float(whole)]; the float
    division raises [ZeroDivisionError] on a zero divisor, whatever the
    dividend; the multiplication and the division do not raise on overflow,
    they return an infinity. *)
Definition percentage (part whole : pyval) : result string :=
  (p <- py_float part ;;
   let scaled := PyFloat.mul (PyFloat.of_Z 100) p in
   w <- py_float whole ;;
   if PyFloat.is_zero w then raise ZeroDivisionError "float division by zero"
   else Ok (PyFloat.format_2f (PyFloat.div scaled w)))%result.



(** ** The clock *)

(** [time.time()]. *)
Definition time_time : cmd spec_float :=
  fun w =>
    mk_run [] (Returned (clock E (clock_reads w)))
           {| requests_made := requests_made w; updates_made := updates_made w;
              sqlite_calls := sqlite_calls w; clock_reads := S (clock_reads w);
              db := db w |}.

Definition int64_max : Z := 2 ^ 63 - 1.

(** Whether a float number of nanoseconds fits the interpreter's 64-bit
    time type. *)
Definition fits_time (ns : spec_float) : bool :=
  SFleb (PyFloat.of_Z (- 2 ^ 63)) ns && SFltb ns (PyFloat.of_Z (2 ^ 63)).

(** What [time.sleep(v)] raises instead of sleeping: a value that is no
    number is a [TypeError], NaN and negative lengths are [ValueError]s,
    lengths beyond the time type are [OverflowError]s. *)
Definition sleep_error (v : pyval) : option exn :=
  let of_int z :=
    if negb ((- 2 ^ 63 <=? z * 10 ^ 9) && (z * 10 ^ 9 <=? int64_max))
    then Some (mk_exn OverflowError "timestamp too large to convert to C _PyTime_t")
    else if z <? 0 then Some (mk_exn ValueError "sleep length must be non-negative")
    else None in
  match v with
  | PInt z => of_int z
  | PBool b => of_int (if b then 1 else 0)
  | PFloat f =>
      if PyFloat.is_nan f
      then Some (mk_exn ValueError "Invalid value NaN (not a number)")
      else if negb (fits_time (PyFloat.mul f (PyFloat.of_Z (10 ^ 9))))
      then Some (mk_exn OverflowError "timestamp too large to convert to C _PyTime_t")
      else if PyFloat.is_negative f
      then Some (mk_exn ValueError "sleep length must be non-negative")
      else None
  | _ =>
      Some (mk_exn TypeError
              ("'" ++ type_name v ++ "' object cannot be interpreted as an integer"))
  end.

(** [time.sleep(v)]. *)
Definition time_sleep (v : pyval) : cmd unit :=
  match sleep_error v with
  | Some e => lift (Raise e)
  | None => emit (EvSleep v)
  end.

(** ** The REST command client (source lines 30-199) *)

(** [FtRestClient.__init__] stores the server URL and the credentials of
    the session; building the session contacts nobody. *)
Record FtRestClient : Type := {
  _serverurl : pyval;
  _auth : pyval * pyval
}.

Definition new_client (serverurl username password : pyval) : FtRestClient :=
  {| _serverurl := serverurl; _auth := (username, password) |}.

Definition valid_methods : list string := ["GET"; "POST"; "PUT"; "DELETE"].

Definition in_tuple (s : string) (t : list string) : bool :=
  existsb (String.eqb s) t.

Definition hd_json : list (string * string) :=
  [("Accept", "application/json"); ("Content-Type", "application/json")].

(** Source lines 39-50: the check of the verb, and the URL with its query.
    Nothing here touches the network. *)
Definition target_url (self : FtRestClient) (method apipath : string) (params : pyval)
    : result string :=
  if negb (in_tuple (upper method) valid_methods)
  then raise ValueError ("invalid method <" ++ method ++ ">")
  else
    (let basepath := py_str (_serverurl self) ++ "/api/v1/" ++ apipath in
     parts <- urlparse basepath ;;
     query <- (if truthy params then urlencode params else Ok "") ;;
     Ok (urlunparse
           {| url_scheme := url_scheme parts; url_netloc := url_netloc parts;
              url_path := url_path parts; url_params := url_params parts;
              url_query := query; url_fragment := url_fragment parts |}))%result.

(** [self._session.request(method, url, headers=hd, data=body)] followed
    by [resp.json()]: the next outcome the environment holds. *)
Definition session_request (method url : string) (headers : list (string * string))
    (body : string) : cmd pyval :=
  fun w =>
    mk_run [EvRequest method url headers body]
           (match http E (requests_made w) with
            | Response v => Returned v
            | HttpRaises e => Raised e
            end)
           {| requests_made := S (requests_made w); updates_made := updates_made w;
              sqlite_calls := sqlite_calls w; clock_reads := clock_reads w;
              db := db w |}.

Definition is_connection_error (e : exn) : bool :=
  match exn_cls e with
  | ConnectionError => true
  | _ => false
  end.

(** [try: body  except ConnectionError: handler]. *)
Definition try_except_connection {A : Type} (body : cmd A) (handler : cmd A) : cmd A :=
  fun w =>
    let r := body w in
    match outcome r with
    | Raised e =>
        if is_connection_error e
        then let r' := handler (after r) in
             mk_run (events r ++ events r') (outcome r') (after r')
        else r
    | _ => r
    end.

(** Source lines 37-57, [FtRestClient._call]. The argument
    [json.dumps(data)] is evaluated inside the [try], before the request.
    After the warning the function falls off its end, which returns
    [None]. *)
Definition _call (self : FtRestClient) (method apipath : string)
    (params data : pyval) : cmd pyval :=
  (url <- lift (target_url self method apipath params) ;;
   try_except_connection
     (body <- lift (json_dumps data) ;;
      session_request method url hd_json body)
     (logger_warning "Connection error" ;; ret PNone))%cmd.

Definition _get (self : FtRestClient) (apipath : string) (params : pyval) : cmd pyval :=
  _call self "GET" apipath params PNone.

Definition _post (self : FtRestClient) (apipath : string) (params data : pyval) : cmd pyval :=
  _call self "POST" apipath params data.

(** Source lines 121-126. *)
Definition profit (self : FtRestClient) : cmd pyval := _get self "profit" PNone.

(** Source lines 107-112:
    [self._get("daily", params={"timescale": days} if days else None)]. *)
Definition daily_params (days : pyval) : pyval :=
  if truthy days then PDict [("timescale", days)] else PNone.

Definition daily (self : FtRestClient) (days : pyval) : cmd pyval :=
  _get self "daily" (daily_params days).

Definition arity_error {A : Type} (name : string) (takes : string) (given : nat) : cmd A :=
  lift (raise TypeError
          (name ++ "() takes " ++ takes ++ " but "
                ++ PyFloat.decimal (Z.of_nat (S given)) ++ " were given")).

(** [getattr(client, "profit")] applied to the unpacked command arguments:
    [profit] takes none. *)
Definition call_profit (self : FtRestClient) (args : list pyval) : cmd pyval :=
  match args with
  | [] => profit self
  | _ => arity_error "profit" "1 positional argument" (List.length args)
  end.

(** [getattr(client, "daily")] applied to the unpacked command arguments:
    [days] defaults to [None]. *)
Definition call_daily (self : FtRestClient) (args : list pyval) : cmd pyval :=
  match args with
  | [] => daily self PNone
  | [days] => daily self days
  | _ => arity_error "daily" "from 1 to 2 positional arguments" (List.length args)
  end.

(** ** The help listing (source lines 250-259) *)

(** A docstring, given by its lines as they stand between the triple quotes
    in the source file. *)
Definition docstring (lines : list string) : string := join nl lines.

Definition indent : string := "        ".

Definition doc_returning (summary : string) (params : list string) (returns : string) : string :=
  docstring ([summary; ""] ++ map (append indent) params
               ++ [indent ++ ":return: " ++ returns; indent]).

(** What [inspect.getmembers(client)] yields once the names that start
    with an underscore are dropped: the eighteen public methods, sorted by
    name, each with its [__doc__]. *)
Definition public_members : list (string * string) :=
  [ ("balance", doc_returning "Get the account balance." [] "json object");
    ("blacklist",
     doc_returning "Show the current blacklist."
       [":param add: List of coins to add (example: " ++ dquote ++ "BNB/BTC" ++ dquote ++ ")"]
       "json object");
    ("count", doc_returning "Return the amount of open trades." [] "json object");
    ("daily", doc_returning "Return the amount of open trades." [] "json object");
    ("edge", doc_returning "Return information about edge." [] "json object");
    ("forcebuy",
     doc_returning "Buy an asset."
       [":param pair: Pair to buy (ETH/BTC)"; ":param price: Optional - price to buy"]
       "json object of the trade");
    ("forcesell",
     doc_returning "Force-sell a trade."
       [":param tradeid: Id of the trade (can be received via status command)"]
       "json object");
    ("performance",
     doc_returning "Return the performance of the different coins." [] "json object");
    ("profit", doc_returning "Return the profit summary." [] "json object");
    ("reload_conf", doc_returning "Reload configuration." [] "json object");
    ("show_config",
     docstring [""; indent ++ "Returns part of the configuration, relevant for trading operations.";
                indent ++ ":return: json object containing the version"; indent]);
    ("start", doc_returning "Start the bot if it's in the stopped state." [] "json object");
    ("status", doc_returning "Get the status of open trades." [] "json object");
    ("stop", doc_returning "Stop the bot. Use `start` to restart." [] "json object");
    ("stopbuy",
     doc_returning "Stop buying (but handle sells gracefully). Use `reload_conf` to reset."
       [] "json object");
    ("trades",
     doc_returning "Return trades history."
       [":param limit: Limits trades to the X last trades. No limit to get all the trades."]
       "json object");
    ("version",
     doc_returning "Return the version of the bot." [] "json object containing the version");
    ("whitelist", doc_returning "Show the current whitelist." [] "json object") ].

Definition is_newline (a : ascii) : bool := Ascii.eqb a newline.

(** [re.sub(":return:.*", "", s, flags=re.MULTILINE)]: every [:return:] goes
    with the rest of its line; the newline that ends the line stays.
    [skipping] says that the scan is inside a match. *)
Fixpoint sub_return (skipping : bool) (s : string) : string :=
  match s with
  | "" => ""
  | String a r =>
      if skipping then
        if is_newline a then String a (sub_return false r) else sub_return true r
      else if prefix ":return:" s then sub_return true r
      else String a (sub_return false r)
  end.

(** The characters [str.rstrip()] removes that can occur in the docstrings:
    tab, newline, vertical tab, form feed, carriage return, the four
    separators 28..31 and the space. *)
Definition is_space (a : ascii) : bool :=
  let n := nat_of_ascii a in
  (Nat.leb 9 n && Nat.leb n 13) || (Nat.leb 28 n && Nat.leb n 32).

Fixpoint rstrip (s : string) : string :=
  match s with
  | "" => ""
  | String a r =>
      match rstrip r with
      | "" => if is_space a then "" else String a ""
      | r' => String a r'
      end
  end.

Definition command_help (member : string * string) : string :=
  let '(x, doc) := member in
  x ++ nl ++ tab ++ rstrip (sub_return false doc) ++ nl.

Fixpoint print_each (lines : list string) : cmd unit :=
  match lines with
  | [] => ret tt
  | l :: rest => (print l ;; print_each rest)%cmd
  end.

(** [print_commands()]. The client it builds, [FtRestClient(None)], is only
    inspected. *)
Definition commands_heading : string := "Possible commands:" ++ nl.

Definition print_commands : cmd unit :=
  (print commands_heading ;;
   print_each (map command_help public_members))%cmd.

(** ** The derived metrics and the report (source lines 266-375) *)

(** The five percentages both publishers compute. The source rebinds its
    parameter [position_size] to the fourth of them. *)
Record metrics : Type := {
  closed_profit_today : string;
  closed_profit_percentage_total : string;
  open_profit_percentage_total : string;
  position_size_percentage : string;
  best_pair_profit_percentage : string
}.

(** Source lines 281-292 in [tweet], and again, word for word, lines
    319-330 in [db_save]. *)
Definition derived_metrics (output_profit output_daily_data : pyval)
    (starting_capital position_size : pyval) : result metrics :=
  (abs_profit <- getitem_key output_daily_data "abs_profit" ;;
   closed_today <- percentage abs_profit starting_capital ;;
   profit_closed <- getitem_key output_profit "profit_closed_coin" ;;
   closed_total <- percentage profit_closed starting_capital ;;
   profit_all <- getitem_key output_profit "profit_all_coin" ;;
   open_total <- percentage profit_all starting_capital ;;
   profit_closed' <- getitem_key output_profit "profit_closed_coin" ;;
   closed_float <- py_float profit_closed' ;;
   current_capital <- add_float starting_capital closed_float ;;
   position <- percentage position_size (PFloat current_capital) ;;
   best_rate <- getitem_key output_profit "best_rate" ;;
   best <- percentage best_rate starting_capital ;;
   Ok {| closed_profit_today := closed_today;
         closed_profit_percentage_total := closed_total;
         open_profit_percentage_total := open_total;
         position_size_percentage := position;
         best_pair_profit_percentage := best |})%result.

(** Source lines 294-310: the list [composed]. *)
Definition composed_lines (output_profit output_daily_data : pyval) (m : metrics)
    : result (list string) :=
  (date <- getitem_key output_daily_data "date" ;;
   trades_today <- getitem_key output_daily_data "trade_count" ;;
   best_pair <- getitem_key output_profit "best_pair" ;;
   trade_count <- getitem_key output_profit "trade_count" ;;
   closed_trade_count <- getitem_key output_profit "closed_trade_count" ;;
   latest_trade_date <- getitem_key output_profit "latest_trade_date" ;;
   avg_duration <- getitem_key output_profit "avg_duration" ;;
   Ok [ "Closed profit today (" ++ py_str date ++ "): " ++ closed_profit_today m ++ "%";
        "Trades today: " ++ py_str trades_today;
        "Open/closed total profit: " ++ open_profit_percentage_total m ++ "%/"
          ++ closed_profit_percentage_total m ++ "%";
        "Position size: " ++ position_size_percentage m ++ "%";
        "Best: " ++ py_str best_pair ++ " (" ++ best_pair_profit_percentage m ++ "%)";
        "All trades/closed: " ++ py_str trade_count ++ "/" ++ py_str closed_trade_count;
        "Last action: " ++ py_str latest_trade_date;
        "Average trade duration: " ++ py_str avg_duration ])%result.

(** Source lines 277-312: the text [to_tweet]. *)
Definition report_text (output_profit output_daily_data : pyval)
    (starting_capital position_size : pyval) : result string :=
  (m <- derived_metrics output_profit output_daily_data starting_capital position_size ;;
   composed <- composed_lines output_profit output_daily_data m ;;
   Ok (join nl composed))%result.

(** [config.get("api_server", {}).get(key)]. *)
Definition api_server_get (config : pyval) (key : string) : result pyval :=
  (section <- dict_get config "api_server" (PDict []) ;;
   dict_get section key PNone)%result.

(** [tweepy.OAuthHandler(...)], [auth.set_access_token(...)] and
    [tweepy.API(auth)]: no request is made; whether one of them rejects the
    credentials is the provider's affair. *)
Definition tweepy_api (api_key api_secret_key access_token access_token_secret : pyval)
    : cmd unit :=
  match tweepy_setup E api_key api_secret_key access_token access_token_secret with
  | Some e => lift (Raise e)
  | None => ret tt
  end.

(** [api.update_status(text)]. *)
Definition update_status (text : string) : cmd unit :=
  fun w =>
    mk_run [EvUpdateStatus text]
           (match status_update E (updates_made w) with
            | Some e => Raised e
            | None => Returned tt
            end)
           {| requests_made := requests_made w; updates_made := S (updates_made w);
              sqlite_calls := sqlite_calls w; clock_reads := clock_reads w;
              db := db w |}.

(** Source lines 266-314. *)
Definition tweet (config output_profit output_daily_data : pyval)
    (starting_capital position_size : pyval) : cmd unit :=
  (print "Tweeting..." ;;
   api_key <- lift (api_server_get config "api_key") ;;
   api_secret_key <- lift (api_server_get config "api_secret_key") ;;
   access_token <- lift (api_server_get config "access_token") ;;
   access_token_secret <- lift (api_server_get config "access_token_secret") ;;
   tweepy_api api_key api_secret_key access_token access_token_secret ;;
   to_tweet <- lift (report_text output_profit output_daily_data
                                 starting_capital position_size) ;;
   print to_tweet ;;
   update_status to_tweet)%cmd.

(** *** The record store *)

Definition SQL_CREATE : string :=
  "CREATE TABLE IF NOT EXISTS trades ( "
  ++ "`timestamp` NUMERIC,"
  ++ " `day` TEXT, "
  ++ "`closed_profit_today` NUMERIC, "
  ++ "`trades_today` NUMERIC, "
  ++ "`closed_profit_percentage_total` NUMERIC, "
  ++ "`open_profit_percentage_total` NUMERIC, "
  ++ "`position_size` NUMERIC, "
  ++ "`best_pair` TEXT, "
  ++ "`best_pair_profit_percentage` TEXT, "
  ++ "`all_trades` NUMERIC, "
  ++ "`closed_trades` NUMERIC, "
  ++ "`last_action` TEXT, "
  ++ "`average_duration` TEXT "
  ++ ")".

Definition SQL_INSERT : string := "INSERT INTO trades VALUES (?,?,?,?,?,?,?,?,?,?,?,?,?)".

(** The columns [SQL_CREATE] declares, in its order. *)
Definition trades_columns : list string :=
  [ "timestamp"; "day"; "closed_profit_today"; "trades_today";
    "closed_profit_percentage_total"; "open_profit_percentage_total";
    "position_size"; "best_pair"; "best_pair_profit_percentage";
    "all_trades"; "closed_trades"; "last_action"; "average_duration" ].

(** The affinities of the types [SQL_CREATE] declares: [NUMERIC] and
    [TEXT]. *)
Definition trades_affinities : list affinity :=
  [ AffNumeric; AffText; AffNumeric; AffNumeric; AffNumeric; AffNumeric; AffNumeric;
    AffText; AffText; AffNumeric; AffNumeric; AffText; AffText ].

Definition trades_schema : list (string * affinity) :=
  combine trades_columns trades_affinities.

Definition sqlite_error {A : Type} (class message : string) : result A :=
  raise (LibraryError ("sqlite3." ++ class)) message.

(** One call into sqlite3: it fails when the environment says so, else it
    changes the table as [effect] tells. *)
Definition sqlite_call (ev : event) (effect : option table -> result (option table))
    : cmd unit :=
  fun w =>
    let next t :=
      {| requests_made := requests_made w; updates_made := updates_made w;
         sqlite_calls := S (sqlite_calls w); clock_reads := clock_reads w;
         db := t |} in
    match sqlite_fault E (sqlite_calls w) with
    | Some e => mk_run [ev] (Raised e) (next (db w))
    | None =>
        match effect (db w) with
        | Ok t => mk_run [ev] (Returned tt) (next t)
        | Raise e => mk_run [ev] (Raised e) (next (db w))
        end
    end.

(** [CREATE TABLE IF NOT EXISTS]: a table that exists is left as it is. *)
Definition create_if_absent (t : option table) : result (option table) :=
  match t with
  | Some _ => Ok t
  | None => Ok (Some {| columns := trades_schema; rows := [] |})
  end.

(** What sqlite3 refuses to bind to a [?]. *)
Definition bind_error (v : pyval) : option exn :=
  match v with
  | PList _ | PDict _ =>
      Some (mk_exn (LibraryError "sqlite3.InterfaceError")
                   "Error binding parameter - probably unsupported type.")
  | PInt z =>
      if (- 2 ^ 63 <=? z) && (z <=? int64_max) then None
      else Some (mk_exn OverflowError "Python int too large to convert to SQLite INTEGER")
  | _ => None
  end.

Fixpoint first_bind_error (params : list pyval) : option exn :=
  match params with
  | [] => None
  | v :: rest =>
      match bind_error v with
      | Some e => Some e
      | None => first_bind_error rest
      end
  end.

(** The value sqlite3 binds for a Python value: [None] is NULL, a bool is
    the INTEGER 1 or 0, an int an INTEGER, a float a REAL (NaN is bound as
    NULL), a str a TEXT. *)
Definition bound_value (v : pyval) : pyval :=
  match v with
  | PBool b => PInt (if b then 1 else 0)
  | PFloat f => if PyFloat.is_nan f then PNone else v
  | _ => v
  end.

(** The integer a REAL is stored as in a numeric column: the REAL must be
    a whole number strictly between [-2^63] and [2^63]. *)
Definition real_as_integer (f : spec_float) : option Z :=
  match f with
  | S754_zero _ => Some 0
  | S754_finite s m e =>
      let whole :=
        match e with
        | Zneg p => if Zpos m mod 2 ^ Zpos p =? 0 then Some (Zpos m / 2 ^ Zpos p) else None
        | _ => Some (Zpos m * 2 ^ e)
        end in
      match whole with
      | Some n =>
          let z := if s then - n else n in
          if (- 2 ^ 63 <? z) && (z <? 2 ^ 63) then Some z else None
      | None => None
      end
  | _ => None
  end.

Definition integer_if_exact (f : spec_float) : pyval :=
  match real_as_integer f with
  | Some z => PInt z
  | None => PFloat f
  end.

(** NUMERIC (and INTEGER) affinity: a text that reads as a number is
    stored as that number, and a REAL that is a whole number as an
    INTEGER. *)
Definition numeric_affinity (v : pyval) : pyval :=
  match v with
  | PFloat f => integer_if_exact f
  | PStr s =>
      match sqlite_number E s with
      | Some (SqlInteger z) => PInt z
      | Some (SqlReal f) => integer_if_exact f
      | None => v
      end
  | _ => v
  end.

(** TEXT affinity: a number is stored as its text. *)
Definition text_affinity (v : pyval) : pyval :=
  match v with
  | PInt z => PStr (int_str z)
  | PFloat f => PStr (sqlite_real_text E f)
  | _ => v
  end.

(** REAL affinity: as NUMERIC, and an INTEGER reads back as a float. *)
Definition real_affinity (v : pyval) : pyval :=
  match numeric_affinity v with
  | PInt z => PFloat (PyFloat.of_Z z)
  | other => other
  end.

(** What a column of the given affinity holds once [v] was bound to it. *)
Definition stored_value (a : affinity) (v : pyval) : pyval :=
  match a with
  | AffText => text_affinity (bound_value v)
  | AffNumeric | AffInteger => numeric_affinity (bound_value v)
  | AffReal => real_affinity (bound_value v)
  | AffBlob => bound_value v
  end.

Fixpoint stored_row (cols : list (string * affinity)) (params : list pyval) : list pyval :=
  match cols, params with
  | (_, a) :: cols', v :: params' => stored_value a v :: stored_row cols' params'
  | _, _ => []
  end.

(** [INSERT INTO trades VALUES (?,...)]: one value per column, by position,
    each stored under the affinity of its column; the row goes after the
    rows already there. *)
Definition insert_row (params : list pyval) (t : option table) : result (option table) :=
  match t with
  | None => sqlite_error "OperationalError" "no such table: trades"
  | Some tb =>
      if negb (Nat.eqb (List.length (columns tb)) (List.length params))
      then sqlite_error "OperationalError" "table trades has a different number of columns"
      else match first_bind_error params with
           | Some e => Raise e
           | None =>
               Ok (Some {| columns := columns tb;
                           rows := rows tb ++ [stored_row (columns tb) params] |})
           end
  end.

(** Source lines 359-373: the tuple of values handed to the INSERT. *)
Definition insert_params (timestamp : spec_float) (output_profit output_daily_data : pyval)
    (m : metrics) : result (list pyval) :=
  (date <- getitem_key output_daily_data "date" ;;
   trades_today <- getitem_key output_daily_data "trade_count" ;;
   best_pair <- getitem_key output_profit "best_pair" ;;
   trade_count <- getitem_key output_profit "trade_count" ;;
   closed_trade_count <- getitem_key output_profit "closed_trade_count" ;;
   latest_trade_date <- getitem_key output_profit "latest_trade_date" ;;
   avg_duration <- getitem_key output_profit "avg_duration" ;;
   Ok [ PFloat timestamp;
        date;
        PStr (closed_profit_today m);
        trades_today;
        PStr (closed_profit_percentage_total m);
        PStr (open_profit_percentage_total m);
        PStr (position_size_percentage m);
        PStr (best_pair_profit_percentage m);
        best_pair;
        trade_count;
        closed_trade_count;
        latest_trade_date;
        avg_duration ])%result.

(** Source lines 317-375. ([connection.cursor()] makes a cursor nobody
    uses; it is left out.) *)
Definition db_save (config output_profit output_daily_data : pyval)
    (starting_capital position_size : pyval) : cmd unit :=
  (print "Saving to database..." ;;
   m <- lift (derived_metrics output_profit output_daily_data
                              starting_capital position_size) ;;
   timestamp <- time_time ;;
   sqlite_call (EvSqlConnect "history.db") (fun t => Ok t) ;;
   sqlite_call (EvSqlExecute SQL_CREATE []) create_if_absent ;;
   sqlite_call EvSqlCommit (fun t => Ok t) ;;
   params <- lift (insert_params timestamp output_profit output_daily_data m) ;;
   sqlite_call (EvSqlExecute SQL_INSERT params) (insert_row params) ;;
   sqlite_call EvSqlCommit (fun t => Ok t))%cmd.

(** The value a row holds in the column named [col]. *)
Fixpoint field (cols : list string) (row : list pyval) (col : string) : option pyval :=
  match cols, row with
  | c :: cols', v :: row' => if String.eqb c col then Some v else field cols' row' col
  | _, _ => None
  end.

(** ** The poll scheduler (source lines 378-436) *)

(** Source lines 378-409. [sys.exit()] without an argument ends the process
    with status 0. *)
Definition main (g : globals) (args : Args) : cmd unit :=
  if arg_show args then (print_commands ;; sys_exit 0)%cmd
  else
    (let server_url := PStr ("http://" ++ py_str (url g) ++ ":" ++ py_str (port g)) in
     let client := new_client server_url (username g) (password g) in
     let command_arguments := map PStr (arg_command_arguments args) in
     output_profit <- call_profit client command_arguments ;;
     output_daily <- call_daily client command_arguments ;;
     output_daily_data <- lift (data <- getitem_key output_daily "data" ;;
                                getitem_first data)%result ;;
     (if truthy (send_tweet g)
      then tweet (config g) output_profit output_daily_data
                 (starting_capital g) (position_size g)
      else ret tt) ;;
     (if truthy (save_to_db g)
      then db_save (config g) output_profit output_daily_data
                   (starting_capital g) (position_size g)
      else ret tt))%cmd.

(** The body of the [try] (lines 431-432). *)
Definition cycle_body (g : globals) (args : Args) : cmd unit :=
  (main g args ;;
   minutes <- lift (div_int (run_interval g) 60) ;;
   print ("Sleeping for " ++ py_str (PFloat minutes) ++ " minutes"))%cmd.

(** One turn of the [while True] loop (lines 430-436). *)
Definition cycle (g : globals) (args : Args) : cmd unit :=
  try_except_finally
    (cycle_body g args)
    (fun e => print ("An error occurred: " ++ exn_msg e ++ ", skipping run"))
    (time_sleep (run_interval g)).

(** The first [n] turns of the loop. [Returned tt] says that the loop is
    still running after them; the loop itself has no exit. *)
Fixpoint poll_loop (n : nat) (g : globals) (args : Args) : cmd unit :=
  match n with
  | O => ret tt
  | S k => (cycle g args ;; poll_loop k g args)%cmd
  end.

(** Source lines 239-247. *)
Definition load_config (configfile : string) : cmd pyval :=
  match files E configfile with
  | Loaded contents => ret contents
  | Unreadable e => lift (Raise e)
  | NoSuchFile =>
      (logger_warning ("Could not load config file " ++ path_str configfile ++ ".") ;;
       sys_exit 1)%cmd
  end.

(** Source lines 415-427: the configuration is read once. *)
Definition startup (args : Args) : cmd globals :=
  (config <- load_config (arg_config args) ;;
   url <- lift (api_server_get config "server_url") ;;
   port <- lift (api_server_get config "listen_port") ;;
   username <- lift (api_server_get config "username") ;;
   password <- lift (api_server_get config "password") ;;
   save_to_db <- lift (api_server_get config "save_to_db") ;;
   send_tweet <- lift (api_server_get config "send_tweet") ;;
   starting_capital <- lift (api_server_get config "starting_capital") ;;
   position_size <- lift (api_server_get config "position_size") ;;
   run_interval <- lift (api_server_get config "run_interval") ;;
   print ("Database saving configured to " ++ py_str save_to_db) ;;
   print ("Tweeting configured to " ++ py_str send_tweet) ;;
   ret {| config := config; url := url; port := port; username := username;
          password := password; save_to_db := save_to_db; send_tweet := send_tweet;
          starting_capital := starting_capital; position_size := position_size;
          run_interval := run_interval |})%cmd.

(** The script run as a program (lines 412-436), cut after [n] turns of
    its loop. *)
Definition script (n : nat) (args : Args) : cmd unit :=
  (g <- startup args ;; poll_loop n g args)%cmd.

(** The status the process ends with: an exit carries its own, an
    exception nobody catches ends the interpreter with status 1; [None]
    while the program is still running. *)
Definition exit_status (r : ending unit) : option Z :=
  match r with
  | Returned _ => None
  | Raised _ => Some 1
  | Exited c => Some c
  end.

(** *** Observations on a trace *)

(** The calls that reach another machine: an HTTP request and a status
    update. *)
Definition is_network (e : event) : bool :=
  match e with
  | EvRequest _ _ _ _ | EvUpdateStatus _ => true
  | _ => false
  end.

(** The publish side effects: the status update and every call into the
    record store. *)
Definition is_publish (e : event) : bool :=
  match e with
  | EvUpdateStatus _ | EvSqlConnect _ | EvSqlExecute _ _ | EvSqlCommit => true
  | _ => false
  end.

Definition is_sleep (e : event) : bool :=
  match e with
  | EvSleep _ => true
  | _ => false
  end.

Definition printed (tr : list event) : list string :=
  flat_map (fun e => match e with EvPrint t => [t] | _ => [] end) tr.

(** A fetch that "yields no data": the client returns [None], because the
    connection failed or because the body was the JSON [null]. *)
Definition no_data (o : http_outcome) : bool :=
  match o with
  | Response PNone => true
  | Response _ => false
  | HttpRaises e => is_connection_error e
  end.

(** A run that publishes nothing: no publish event, the table and the
    count of status updates as before. *)
Definition no_publish (tr : list event) : Prop :=
  forallb (fun e => negb (is_publish e)) tr = true.

Definition quiet_at {A : Type} (m : cmd A) (w : world) : Prop :=
  no_publish (events (m w))
  /\ db (after (m w)) = db w
  /\ updates_made (after (m w)) = updates_made w.

(** A run that does not end in [SystemExit]. *)
Definition stays_at {A : Type} (m : cmd A) (w : world) : Prop :=
  forall c, outcome (m w) <> Exited c.

(** ** The other commands of the client (source lines 65-199) *)

(** Source lines 65-70. *)
Definition start (self : FtRestClient) : cmd pyval := _post self "start" PNone PNone.

(** Source lines 72-77. *)
Definition stop (self : FtRestClient) : cmd pyval := _post self "stop" PNone PNone.

(** Source lines 79-84. *)
Definition stopbuy (self : FtRestClient) : cmd pyval := _post self "stopbuy" PNone PNone.

(** Source lines 86-91. *)
Definition reload_conf (self : FtRestClient) : cmd pyval :=
  _post self "reload_conf" PNone PNone.

(** Source lines 93-98. *)
Definition balance (self : FtRestClient) : cmd pyval := _get self "balance" PNone.

(** Source lines 100-105. *)
Definition count (self : FtRestClient) : cmd pyval := _get self "count" PNone.

(** Source lines 114-119. *)
Definition edge (self : FtRestClient) : cmd pyval := _get self "edge" PNone.

(** Source lines 128-133. *)
Definition performance (self : FtRestClient) : cmd pyval := _get self "performance" PNone.

(** Source lines 135-140. *)
Definition status (self : FtRestClient) : cmd pyval := _get self "status" PNone.

(** Source lines 142-147. *)
Definition version (self : FtRestClient) : cmd pyval := _get self "version" PNone.

(** Source lines 149-154. *)
Definition show_config (self : FtRestClient) : cmd pyval := _get self "show_config" PNone.

(** Source lines 156-162:
    [self._get("trades", params={"limit": limit} if limit else 0)]. Without
    a limit the parameters are the integer [0], not [None]. *)
Definition trades_params (limit : pyval) : pyval :=
  if truthy limit then PDict [("limit", limit)] else PInt 0.

Definition trades (self : FtRestClient) (limit : pyval) : cmd pyval :=
  _get self "trades" (trades_params limit).

(** Source lines 164-169. *)
Definition whitelist (self : FtRestClient) : cmd pyval := _get self "whitelist" PNone.

(** Source lines 171-180. The arguments arrive as a tuple; [json.dumps]
    writes a tuple as it writes a list, so the tuple is kept as a list. *)
Definition blacklist (self : FtRestClient) (args : list pyval) : cmd pyval :=
  match args with
  | [] => _get self "blacklist" PNone
  | _ => _post self "blacklist" PNone (PDict [("blacklist", PList args)])
  end.

(** Source lines 182-190. [price] is [None] when it is not given. *)
Definition forcebuy (self : FtRestClient) (pair price : pyval) : cmd pyval :=
  let data := PDict [("pair", pair); ("price", price)] in
  _post self "forcebuy" PNone data.

(** Source lines 192-199. *)
Definition forcesell (self : FtRestClient) (tradeid : pyval) : cmd pyval :=
  _post self "forcesell" PNone (PDict [("tradeid", tradeid)]).

(** One call of a public method of the client, with its arguments. *)
Inductive invocation : Type :=
| Start
| Stop
| Stopbuy
| ReloadConf
| Balance
| Count
| Daily (days : pyval)
| Edge
| Profit
| Performance
| Status
| Version
| ShowConfig
| Trades (limit : pyval)
| Whitelist
| Blacklist (args : list pyval)
| Forcebuy (pair price : pyval)
| Forcesell (tradeid : pyval).

Definition invoke (self : FtRestClient) (i : invocation) : cmd pyval :=
  match i with
  | Start => start self
  | Stop => stop self
  | Stopbuy => stopbuy self
  | ReloadConf => reload_conf self
  | Balance => balance self
  | Count => count self
  | Daily days => daily self days
  | Edge => edge self
  | Profit => profit self
  | Performance => performance self
  | Status => status self
  | Version => version self
  | ShowConfig => show_config self
  | Trades limit => trades self limit
  | Whitelist => whitelist self
  | Blacklist args => blacklist self args
  | Forcebuy traded price => forcebuy self traded price
  | Forcesell tradeid => forcesell self tradeid
  end.

(** The name of the method an invocation calls. *)
Definition method_name (i : invocation) : string :=
  match i with
  | Start => "start"
  | Stop => "stop"
  | Stopbuy => "stopbuy"
  | ReloadConf => "reload_conf"
  | Balance => "balance"
  | Count => "count"
  | Daily _ => "daily"
  | Edge => "edge"
  | Profit => "profit"
  | Performance => "performance"
  | Status => "status"
  | Version => "version"
  | ShowConfig => "show_config"
  | Trades _ => "trades"
  | Whitelist => "whitelist"
  | Blacklist _ => "blacklist"
  | Forcebuy _ _ => "forcebuy"
  | Forcesell _ => "forcesell"
  end.

(** *** More observations on a trace *)

Definition is_request (e : event) : bool :=
  match e with
  | EvRequest _ _ _ _ => true
  | _ => false
  end.

Definition is_sqlite (e : event) : bool :=
  match e with
  | EvSqlConnect _ | EvSqlExecute _ _ | EvSqlCommit => true
  | _ => false
  end.

Definition is_status_update (e : event) : bool :=
  match e with
  | EvUpdateStatus _ => true
  | _ => false
  end.

(** A run in which no event satisfies [p]. *)
Definition avoids {A : Type} (p : event -> bool) (m : cmd A) (w : world) : Prop :=
  filter p (events (m w)) = [].

(** The table may only grow: once it exists it keeps its columns, and its
    rows are the old rows followed by new ones. *)
Definition grown (old new : option table) : Prop :=
  match old, new with
  | None, _ => True
  | Some o, Some n => columns n = columns o /\ exists extra, rows n = (rows o ++ extra)%list
  | Some _, None => False
  end.

(** [needle in text]. *)
Fixpoint occurs (needle text : string) : bool :=
  match text with
  | "" => prefix needle ""
  | String _ rest => prefix needle text || occurs needle rest
  end.

(** The string ends in a character [str.rstrip()] removes. *)
Fixpoint ends_in_space (s : string) : bool :=
  match s with
  | "" => false
  | String a "" => is_space a
  | String _ rest => ends_in_space rest
  end.

(** A run that leaves the component [f] of the world as it was. *)
Definition keeps {A X : Type} (f : world -> X) (m : cmd A) (w : world) : Prop :=
  f (after (m w)) = f w.

(** The table [CREATE TABLE IF NOT EXISTS] leaves behind. *)
Definition table_after_create (t : option table) : table :=
  match t with
  | Some tb => tb
  | None => {| columns := trades_schema; rows := [] |}
  end.

(** The world after one more request. *)
Definition one_more_request (w : world) : world :=
  {| requests_made := S (requests_made w); updates_made := updates_made w;
     sqlite_calls := sqlite_calls w; clock_reads := clock_reads w; db := db w |}.

(** The world after one more status update, one more call into sqlite3
    that leaves the table [t], and one more reading of the clock. *)
Definition one_more_update (w : world) : world :=
  {| requests_made := requests_made w; updates_made := S (updates_made w);
     sqlite_calls := sqlite_calls w; clock_reads := clock_reads w; db := db w |}.

Definition one_more_sqlite_call (w : world) (t : option table) : world :=
  {| requests_made := requests_made w; updates_made := updates_made w;
     sqlite_calls := S (sqlite_calls w); clock_reads := clock_reads w; db := t |}.

Definition one_more_clock_read (w : world) : world :=
  {| requests_made := requests_made w; updates_made := updates_made w;
     sqlite_calls := sqlite_calls w; clock_reads := S (clock_reads w); db := db w |}.

(** A run after which the table has only grown. *)
Definition grows {A : Type} (m : cmd A) (w : world) : Prop :=
  grown (db w) (db (after (m w))).

(** The names start-up binds when the configuration has no section
    [api_server]: every [.get] returns [None]. *)
Definition unconfigured (contents : pyval) : globals :=
  {| config := contents; url := PNone; port := PNone; username := PNone; password := PNone;
     save_to_db := PNone; send_tweet := PNone; starting_capital := PNone;
     position_size := PNone; run_interval := PNone |}.

(** * Properties *)

Set Default Proof Using "Type".

(** ** Formatting to two decimals *)

Lemma round_half_even_near num den :
  0 <= num -> 0 < den ->
  0 <= PyFloat.round_half_even num den
  /\ Z.abs (2 * num - 2 * PyFloat.round_half_even num den * den) <= den.
Proof.
  intros Hn Hd. unfold PyFloat.round_half_even.
  pose proof (Z.div_mod num den ltac:(lia)) as Hdm.
  pose proof (Z.mod_pos_bound num den Hd) as B.
  pose proof (Z.div_pos num den Hn Hd) as Q.
  set (q := num / den) in *. set (r := num mod den) in *.
  cbv zeta.
  destruct (Z.compare_spec (2 * r) den) as [H|H|H].
  - destruct (Z.even q); split; nia.
  - split; nia.
  - split; nia.
Qed.

(** On a tie the even neighbour is taken. *)
Lemma round_half_even_tie num den :
  2 * (num mod den) = den -> Z.even (PyFloat.round_half_even num den) = true.
Proof.
  intros T. unfold PyFloat.round_half_even. rewrite T, Z.compare_refl.
  destruct (Z.even (num / den)) eqn:Ev; [exact Ev|].
  rewrite Z.even_add, Ev. reflexivity.
Qed.

Lemma hundredths_nonneg m e : 0 <= PyFloat.hundredths m e.
Proof.
  unfold PyFloat.hundredths. destruct e.
  - lia.
  - pose proof (Z.pow_nonneg 2 (Z.pos p)). nia.
  - apply round_half_even_near; [lia|]. apply Z.pow_pos_nonneg; lia.
Qed.

(** The hundredths the formatting prints are within half a hundredth of
    the exact binary value. *)
Lemma hundredths_nearest m e :
  (Qabs ((PyFloat.hundredths m e # 100) - PyFloat.magnitude m e) <= 1 # 200)%Q.
Proof.
  apply Qabs_Qle_condition.
  unfold PyFloat.hundredths, PyFloat.magnitude. destruct e as [|p|p].
  - unfold Qle, Qminus, Qplus, Qopp, inject_Z; cbn [Qnum Qden]. lia.
  - unfold Qle, Qminus, Qplus, Qopp, inject_Z; cbn [Qnum Qden].
    pose proof (Z.pow_pos_nonneg 2 (Z.pos p) ltac:(lia) ltac:(lia)). nia.
  - destruct (round_half_even_near (100 * Z.pos m) (2 ^ Z.pos p) ltac:(lia)
                 ltac:(apply Z.pow_pos_nonneg; lia)) as [N A].
    set (n := PyFloat.round_half_even (100 * Z.pos m) (2 ^ Z.pos p)) in *.
    unfold Qle, Qminus, Qplus, Qopp; cbn [Qnum Qden].
    rewrite !Pos2Z.inj_mul, Pos2Z.inj_pow.
    set (d := Z.pos 2 ^ Z.pos p) in *.
    assert (0 < d) by (apply Z.pow_pos_nonneg; lia).
    apply Z.abs_le in A. nia.
Qed.

Lemma string_of_uint_digits d : PyFloat.all_digits (NilEmpty.string_of_uint d) = true.
Proof. induction d; simpl; auto. Qed.

Lemma decimal_digits n : PyFloat.all_digits (PyFloat.decimal n) = true.
Proof.
  unfold PyFloat.decimal, NilZero.string_of_uint.
  destruct (N.to_uint (Z.to_N n)) eqn:Hu; try reflexivity;
    rewrite <- Hu; apply string_of_uint_digits.
Qed.

Lemma decimal_parse n :
  0 <= n ->
  option_map (fun u => Z.of_N (N.of_uint u)) (NilZero.uint_of_string (PyFloat.decimal n))
  = Some n.
Proof.
  intros H. unfold PyFloat.decimal. rewrite NilZero.usu.
  - simpl. rewrite DecimalN.Unsigned.of_to. f_equal. lia.
  - destruct (Z.to_N n); simpl; [discriminate|]. apply Unsigned.to_uint_nonnil.
Qed.

Lemma decimal_head n :
  exists a r, PyFloat.decimal n = String a r /\ PyFloat.is_digit a = true.
Proof.
  pose proof (decimal_digits n) as D.
  destruct (PyFloat.decimal n) as [|a r] eqn:Hd.
  - unfold PyFloat.decimal, NilZero.string_of_uint in Hd.
    destruct (N.to_uint (Z.to_N n)); discriminate.
  - exists a, r. split; [reflexivity|]. simpl in D. apply andb_prop in D. exact (proj1 D).
Qed.

Lemma split_at_dot_app a b :
  PyFloat.all_digits a = true ->
  PyFloat.split_at_dot (a ++ String "."%char b) = Some (a, b).
Proof.
  induction a as [|c a IH]; simpl; intros H; [reflexivity|].
  apply andb_prop in H. destruct H as [Hc Ha].
  destruct (Ascii.eqb c ".") eqn:Hc0.
  - apply Ascii.eqb_eq in Hc0. subst c. discriminate.
  - rewrite (IH Ha). reflexivity.
Qed.

Lemma digit_value_char d : 0 <= d <= 9 -> PyFloat.digit_value (PyFloat.digit_char d) = Some d.
Proof.
  intros H.
  assert (d = 0 \/ d = 1 \/ d = 2 \/ d = 3 \/ d = 4 \/ d = 5 \/ d = 6 \/ d = 7
          \/ d = 8 \/ d = 9) by lia.
  intuition (subst; reflexivity).
Qed.

Lemma parse_magnitude_fixed n :
  0 <= n ->
  PyFloat.parse_magnitude
    (PyFloat.decimal (n / 100) ++ "." ++ PyFloat.two_digits (n mod 100)) = Some n.
Proof.
  intros H. unfold PyFloat.parse_magnitude.
  change ("." ++ PyFloat.two_digits (n mod 100))
    with (String "."%char (PyFloat.two_digits (n mod 100))).
  rewrite split_at_dot_app by apply decimal_digits.
  unfold PyFloat.two_digits.
  pose proof (Z.mod_pos_bound n 100 ltac:(lia)) as B.
  pose proof (decimal_parse (n / 100) ltac:(apply Z.div_pos; lia)) as P.
  destruct (NilZero.uint_of_string (PyFloat.decimal (n / 100))) as [u|]; [|discriminate].
  simpl in P. injection P as P.
  rewrite !digit_value_char.
  - f_equal. rewrite P.
    pose proof (Z.div_mod n 100 ltac:(lia)).
    pose proof (Z.div_mod (n mod 100) 10 ltac:(lia)). lia.
  - pose proof (Z.mod_pos_bound (n mod 100) 10 ltac:(lia)). lia.
  - split; [apply Z.div_pos; lia |].
    assert (n mod 100 / 10 < 10) by (apply Z.div_lt_upper_bound; lia). lia.
Qed.

(** Reading back what [fixed2] wrote gives the sign and the hundredths. *)
Lemma parse_fixed2_fixed2 s n :
  0 <= n -> PyFloat.parse_fixed2 (PyFloat.fixed2 s n) = Some (s, n).
Proof.
  intros H. unfold PyFloat.fixed2. destruct s.
  - simpl. rewrite parse_magnitude_fixed by assumption. reflexivity.
  - change ("" ++ ?x) with x. cbn [append].
    pose proof (parse_magnitude_fixed n H) as P.
    destruct (decimal_head (n / 100)) as (a & r & Hd & Da).
    rewrite Hd in P |- *. cbn [append] in P |- *.
    unfold PyFloat.parse_fixed2.
    destruct a as [[] [] [] [] [] [] [] []];
      try (rewrite P; reflexivity); discriminate Da.
Qed.

(** ** The percentage *)

Lemma percentage_zero part whole p w :
  py_float part = Ok p -> py_float whole = Ok w -> PyFloat.is_zero w = true ->
  percentage part whole = Raise (mk_exn ZeroDivisionError "float division by zero").
Proof.
  intros Hp Hw Hz. unfold percentage. rewrite Hp. simpl. rewrite Hw. simpl.
  rewrite Hz. reflexivity.
Qed.

Lemma percentage_nonzero part whole p w :
  py_float part = Ok p -> py_float whole = Ok w -> PyFloat.is_zero w = false ->
  percentage part whole
  = Ok (PyFloat.format_2f (PyFloat.div (PyFloat.mul (PyFloat.of_Z 100) p) w)).
Proof.
  intros Hp Hw Hz. unfold percentage. rewrite Hp. simpl. rewrite Hw. simpl.
  rewrite Hz. reflexivity.
Qed.

(** C3 (amended). For all numeric [part] and [whole]: when [float(whole)]
    is zero, [percentage] raises [ZeroDivisionError]; otherwise it returns
    the ["%.2f"] text of the binary64 quotient [100 * float(part) /
    float(whole)]. When that quotient is finite and not zero, the text is a
    sign, digits, a point and exactly two digits, it reads back as [n]
    hundredths, and [n / 100] is within half a hundredth of the quotient's
    exact value; a zero quotient prints as [0.00] or [-0.00]; a quotient that
    overflowed prints as [inf] or [-inf], an undefined one as [nan]. *)
Theorem percentage_two_decimals (part whole : pyval) (p w : spec_float) :
  py_float part = Ok p ->
  py_float whole = Ok w ->
  let q := PyFloat.div (PyFloat.mul (PyFloat.of_Z 100) p) w in
  (PyFloat.is_zero w = true ->
   percentage part whole = Raise (mk_exn ZeroDivisionError "float division by zero"))
  /\ (PyFloat.is_zero w = false ->
      percentage part whole = Ok (PyFloat.format_2f q)
      /\ match q with
         | S754_finite s m e =>
             exists n,
               PyFloat.format_2f q = PyFloat.fixed2 s n
               /\ PyFloat.parse_fixed2 (PyFloat.format_2f q) = Some (s, n)
               /\ (Qabs ((n # 100) - PyFloat.magnitude m e) <= 1 # 200)%Q
         | S754_zero s => PyFloat.format_2f q = if s then "-0.00" else "0.00"
         | S754_infinity s => PyFloat.format_2f q = if s then "-inf" else "inf"
         | S754_nan => PyFloat.format_2f q = "nan"
         end).
Proof.
  intros Hp Hw q. split; intros Hz.
  - exact (percentage_zero part whole p w Hp Hw Hz).
  - split; [exact (percentage_nonzero part whole p w Hp Hw Hz)|].
    destruct q as [s|s| |s m e]; try reflexivity.
    + destruct s; reflexivity.
    + exists (PyFloat.hundredths m e). cbn [PyFloat.format_2f].
      split; [reflexivity|]. split.
      * apply parse_fixed2_fixed2, hundredths_nonneg.
      * apply hundredths_nearest.
Qed.

(** ** The derived metrics *)

Ltac bind_ok H :=
  match type of H with
  | rbind ?r _ = Ok _ =>
      let x := fresh "x" in
      let Hx := fresh "Hx" in
      destruct r as [x|] eqn:Hx; [cbn [rbind] in H | discriminate H]
  end.

(** C4. Whenever the metrics are computed, the position size percentage is
    [position_size] over [starting_capital + float(profit_closed_coin)],
    and the four other percentages are over [starting_capital]; on the
    worked example (closed profit 100, total profit 150, best rate 20,
    today's profit 10, starting capital 1000, position size 50) they are
    1.00, 10.00, 15.00, 4.55 and 2.00. *)
Theorem position_size_over_current_capital :
  (forall op od sc ps m,
      derived_metrics op od sc ps = Ok m ->
      exists abs_profit closed all best closed_float current_capital,
        getitem_key od "abs_profit" = Ok abs_profit
        /\ getitem_key op "profit_closed_coin" = Ok closed
        /\ getitem_key op "profit_all_coin" = Ok all
        /\ getitem_key op "best_rate" = Ok best
        /\ py_float closed = Ok closed_float
        /\ add_float sc closed_float = Ok current_capital
        /\ percentage abs_profit sc = Ok (closed_profit_today m)
        /\ percentage closed sc = Ok (closed_profit_percentage_total m)
        /\ percentage all sc = Ok (open_profit_percentage_total m)
        /\ percentage ps (PFloat current_capital) = Ok (position_size_percentage m)
        /\ percentage best sc = Ok (best_pair_profit_percentage m))
  /\ derived_metrics Sample.profit_summary Sample.daily_summary (PInt 1000) (PInt 50)
     = Ok {| closed_profit_today := "1.00";
             closed_profit_percentage_total := "10.00";
             open_profit_percentage_total := "15.00";
             position_size_percentage := "4.55";
             best_pair_profit_percentage := "2.00" |}.
Proof.
  split; [|reflexivity].
  intros op od sc ps m H. unfold derived_metrics in H.
  repeat bind_ok H.
  injection H as <-. cbn [closed_profit_today closed_profit_percentage_total
    open_profit_percentage_total position_size_percentage best_pair_profit_percentage].
  eexists _, _, _, _, _, _. repeat split; eassumption.
Qed.

(** ** The report *)














(** ** Commands: what is published and how a run ends *)

Lemma no_publish_app tr1 tr2 : no_publish tr1 -> no_publish tr2 -> no_publish (tr1 ++ tr2).
Proof.
  unfold no_publish. intros H1 H2. rewrite forallb_app, H1, H2. reflexivity.
Qed.

Lemma quiet_bind {A B : Type} (m : cmd A) (k : A -> cmd B) w :
  quiet_at m w ->
  (forall a, outcome (m w) = Returned a -> quiet_at (k a) (after (m w))) ->
  quiet_at (bind m k) w.
Proof.
  intros (Hm1 & Hm2 & Hm3) Hk. unfold quiet_at, bind.
  destruct (outcome (m w)) as [a| |] eqn:Ho; cbn [events after]; auto.
  destruct (Hk a eq_refl) as (Hk1 & Hk2 & Hk3).
  split; [apply no_publish_app; assumption|]. split; congruence.
Qed.

Lemma stays_bind {A B : Type} (m : cmd A) (k : A -> cmd B) w :
  stays_at m w ->
  (forall a, outcome (m w) = Returned a -> stays_at (k a) (after (m w))) ->
  stays_at (bind m k) w.
Proof.
  intros Hm Hk c. unfold bind.
  destruct (outcome (m w)) as [a|e|c'] eqn:Ho; cbn [outcome].
  - apply (Hk a eq_refl).
  - discriminate.
  - exfalso. exact (Hm c' Ho).
Qed.

Lemma bind_lift {A B : Type} (r : result A) (k : A -> cmd B) w :
  bind (lift r) k w
  = match r with
    | Ok a => mk_run (events (k a w)) (outcome (k a w)) (after (k a w))
    | Raise e => mk_run [] (Raised e) w
    end.
Proof. destruct r; reflexivity. Qed.

Lemma quiet_ret {A : Type} (a : A) w : quiet_at (ret a) w.
Proof. repeat split. Qed.

Lemma quiet_lift {A : Type} (r : result A) w : quiet_at (lift r) w.
Proof. repeat split. Qed.

Lemma quiet_print text w : quiet_at (print text) w.
Proof. repeat split. Qed.

Lemma quiet_warning text w : quiet_at (logger_warning text) w.
Proof. repeat split. Qed.

Lemma quiet_exit {A : Type} c w : quiet_at (@sys_exit A c) w.
Proof. repeat split. Qed.

Lemma quiet_time w : quiet_at time_time w.
Proof. repeat split. Qed.

Lemma quiet_sleep v w : quiet_at (time_sleep v) w.
Proof. unfold time_sleep. destruct (sleep_error v); repeat split. Qed.

Lemma quiet_tweepy_api a b c d w : quiet_at (tweepy_api a b c d) w.
Proof. unfold tweepy_api. destruct (tweepy_setup E a b c d); repeat split. Qed.

Lemma stays_ret {A : Type} (a : A) w : stays_at (ret a) w.
Proof. intros c; discriminate. Qed.

Lemma stays_lift {A : Type} (r : result A) w : stays_at (lift r) w.
Proof. intros c. destruct r; discriminate. Qed.

Lemma stays_print text w : stays_at (print text) w.
Proof. intros c; discriminate. Qed.

Lemma stays_time w : stays_at time_time w.
Proof. intros c; discriminate. Qed.

Lemma stays_tweepy_api a b c d w : stays_at (tweepy_api a b c d) w.
Proof. unfold tweepy_api. intros x. destruct (tweepy_setup E a b c d); discriminate. Qed.

Lemma stays_update_status text w : stays_at (update_status text) w.
Proof.
  intros c. unfold update_status. cbn [outcome].
  destruct (status_update E (updates_made w)); discriminate.
Qed.

Lemma stays_sqlite_call ev effect w : stays_at (sqlite_call ev effect) w.
Proof.
  intros c. unfold sqlite_call.
  destruct (sqlite_fault E (sqlite_calls w)); [discriminate|].
  destruct (effect (db w)); discriminate.
Qed.

(** *** The client *)

(** What the [try] of [_call] does, by what [json.dumps] and the request
    do. *)
Lemma attempt_run method url data w :
  try_except_connection
    (body <- lift (json_dumps data) ;; session_request method url hd_json body)%cmd
    (logger_warning "Connection error" ;; ret PNone)%cmd w
  = match json_dumps data with
    | Raise e =>
        if is_connection_error e
        then mk_run [EvWarning "Connection error"] (Returned PNone) w
        else mk_run [] (Raised e) w
    | Ok body =>
        let w' := {| requests_made := S (requests_made w);
                     updates_made := updates_made w;
                     sqlite_calls := sqlite_calls w; clock_reads := clock_reads w;
                     db := db w |} in
        match http E (requests_made w) with
        | Response v => mk_run [EvRequest method url hd_json body] (Returned v) w'
        | HttpRaises e =>
            if is_connection_error e
            then mk_run [EvRequest method url hd_json body; EvWarning "Connection error"]
                        (Returned PNone) w'
            else mk_run [EvRequest method url hd_json body] (Raised e) w'
        end
    end.
Proof.
  unfold try_except_connection, bind, lift, session_request.
  destruct (json_dumps data) as [body|e]; cbn [ending_of outcome events after].
  - destruct (http E (requests_made w)) as [v|e]; [reflexivity|].
    destruct (is_connection_error e); reflexivity.
  - destruct (is_connection_error e); reflexivity.
Qed.

(** The whole call, case by case. *)
Lemma call_run self method apipath params data w :
  _call self method apipath params data w
  = match target_url self method apipath params with
    | Raise e => mk_run [] (Raised e) w
    | Ok url =>
        match json_dumps data with
        | Raise e =>
            if is_connection_error e
            then mk_run [EvWarning "Connection error"] (Returned PNone) w
            else mk_run [] (Raised e) w
        | Ok body =>
            let w' := {| requests_made := S (requests_made w);
                         updates_made := updates_made w;
                         sqlite_calls := sqlite_calls w; clock_reads := clock_reads w;
                         db := db w |} in
            match http E (requests_made w) with
            | Response v => mk_run [EvRequest method url hd_json body] (Returned v) w'
            | HttpRaises e =>
                if is_connection_error e
                then mk_run [EvRequest method url hd_json body; EvWarning "Connection error"]
                            (Returned PNone) w'
                else mk_run [EvRequest method url hd_json body] (Raised e) w'
            end
        end
    end.
Proof.
  unfold _call. rewrite bind_lift.
  destruct (target_url self method apipath params) as [url|e]; [|reflexivity].
  rewrite attempt_run.
  destruct (json_dumps data) as [body|e].
  - cbv zeta. destruct (http E (requests_made w)) as [v|e]; [reflexivity|].
    destruct (is_connection_error e); reflexivity.
  - destruct (is_connection_error e); reflexivity.
Qed.

Lemma call_quiet self method apipath params data w :
  quiet_at (_call self method apipath params data) w.
Proof.
  unfold _call. apply quiet_bind; [apply quiet_lift|]. intros url _.
  cbn [lift after]. unfold quiet_at. rewrite attempt_run.
  destruct (json_dumps data) as [body|e].
  - cbv zeta. destruct (http E (requests_made w)) as [v|e]; [repeat split|].
    destruct (is_connection_error e); repeat split.
  - destruct (is_connection_error e); repeat split.
Qed.

Lemma call_stays self method apipath params data w :
  stays_at (_call self method apipath params data) w.
Proof.
  unfold _call. apply stays_bind; [apply stays_lift|]. intros url _ c.
  cbn [lift after]. rewrite attempt_run.
  destruct (json_dumps data) as [body|e].
  - cbv zeta. destruct (http E (requests_made w)) as [v|e]; [discriminate|].
    destruct (is_connection_error e); discriminate.
  - destruct (is_connection_error e); discriminate.
Qed.

Lemma no_data_response v : no_data (Response v) = true -> v = PNone.
Proof. destruct v; simpl; intros H; try discriminate H; reflexivity. Qed.

(** A call that returns a value other than [None] has made exactly one
    request, and that request yielded data. *)
Lemma call_returned self method apipath params data w v :
  outcome (_call self method apipath params data w) = Returned v ->
  v = PNone
  \/ (requests_made (after (_call self method apipath params data w))
      = S (requests_made w)
      /\ no_data (http E (requests_made w)) = false).
Proof.
  rewrite call_run.
  destruct (target_url self method apipath params) as [url|e]; [|discriminate].
  destruct (json_dumps data) as [body|e].
  - cbv zeta. destruct (http E (requests_made w)) as [v'|e] eqn:Hh.
    + cbn [outcome after requests_made]. intros H. injection H as ->.
      destruct (no_data (Response v)) eqn:Hn.
      * left. apply no_data_response, Hn.
      * right. split; reflexivity.
    + destruct (is_connection_error e); cbn [outcome]; [|discriminate].
      intros H. injection H as <-. left. reflexivity.
  - destruct (is_connection_error e); cbn [outcome]; [|discriminate].
    intros H. injection H as <-. left. reflexivity.
Qed.

Lemma call_profit_quiet self args w : quiet_at (call_profit self args) w.
Proof.
  destruct args; [apply call_quiet | apply quiet_lift].
Qed.

Lemma call_daily_quiet self args w : quiet_at (call_daily self args) w.
Proof.
  destruct args as [|d [|d' rest]]; [apply call_quiet | apply call_quiet | apply quiet_lift].
Qed.

Lemma call_profit_stays self args w : stays_at (call_profit self args) w.
Proof.
  destruct args; [apply call_stays | apply stays_lift].
Qed.

Lemma call_daily_stays self args w : stays_at (call_daily self args) w.
Proof.
  destruct args as [|d [|d' rest]]; [apply call_stays | apply call_stays | apply stays_lift].
Qed.

Lemma call_profit_returned self args w v :
  outcome (call_profit self args w) = Returned v ->
  v = PNone
  \/ (requests_made (after (call_profit self args w)) = S (requests_made w)
      /\ no_data (http E (requests_made w)) = false).
Proof.
  destruct args; [apply call_returned | discriminate].
Qed.

Lemma call_daily_returned self args w v :
  outcome (call_daily self args w) = Returned v ->
  v = PNone
  \/ (requests_made (after (call_daily self args w)) = S (requests_made w)
      /\ no_data (http E (requests_made w)) = false).
Proof.
  destruct args as [|d [|d' rest]]; [apply call_returned | apply call_returned | discriminate].
Qed.

(** *** The publishers *)

(** Without a profit summary no percentage beyond the first is computed. *)
Lemma derived_metrics_none od sc ps : exists e, derived_metrics PNone od sc ps = Raise e.
Proof.
  unfold derived_metrics.
  destruct (getitem_key od "abs_profit") as [x|e]; cbn [rbind]; [|eauto].
  destruct (percentage x sc) as [t|e]; cbn [rbind]; [|eauto].
  cbn [getitem_key not_subscriptable raise rbind]. eauto.
Qed.

Lemma report_text_none od sc ps : exists e, report_text PNone od sc ps = Raise e.
Proof.
  unfold report_text. destruct (derived_metrics_none od sc ps) as [e ->].
  exists e. reflexivity.
Qed.

Lemma tweet_quiet_none config od sc ps w : quiet_at (tweet config PNone od sc ps) w.
Proof.
  unfold tweet.
  apply quiet_bind; [apply quiet_print|]. intros _ _.
  apply quiet_bind; [apply quiet_lift|]. intros k1 _.
  apply quiet_bind; [apply quiet_lift|]. intros k2 _.
  apply quiet_bind; [apply quiet_lift|]. intros k3 _.
  apply quiet_bind; [apply quiet_lift|]. intros k4 _.
  apply quiet_bind; [apply quiet_tweepy_api|]. intros _ _.
  apply quiet_bind; [apply quiet_lift|]. intros text Ht.
  exfalso. destruct (report_text_none od sc ps) as [e He].
  unfold lift in Ht. cbn [outcome] in Ht. rewrite He in Ht. discriminate Ht.
Qed.

Lemma db_save_quiet_none config od sc ps w : quiet_at (db_save config PNone od sc ps) w.
Proof.
  unfold db_save.
  apply quiet_bind; [apply quiet_print|]. intros _ _.
  apply quiet_bind; [apply quiet_lift|]. intros m Hm.
  exfalso. destruct (derived_metrics_none od sc ps) as [e He].
  unfold lift in Hm. cbn [outcome] in Hm. rewrite He in Hm. discriminate Hm.
Qed.

Lemma tweet_stays config op od sc ps w : stays_at (tweet config op od sc ps) w.
Proof.
  unfold tweet.
  repeat (apply stays_bind;
          [first [apply stays_print | apply stays_lift | apply stays_tweepy_api]
          | intros ? _]).
  apply stays_update_status.
Qed.

Lemma db_save_stays config op od sc ps w : stays_at (db_save config op od sc ps) w.
Proof.
  unfold db_save.
  repeat (apply stays_bind;
          [first [apply stays_print | apply stays_lift | apply stays_time
                 | apply stays_sqlite_call]
          | intros ? _]).
  apply stays_sqlite_call.
Qed.

(** *** The record store *)

(** Creating the schema twice is creating it once. *)
Lemma create_if_absent_idempotent t :
  rbind (create_if_absent t) create_if_absent = create_if_absent t.
Proof. destruct t; reflexivity. Qed.

(** An existing table keeps its rows when the schema is created again. *)
Lemma create_if_absent_keeps tb : create_if_absent (Some tb) = Ok (Some tb).
Proof. reflexivity. Qed.

(** The values of the INSERT against the columns of [SQL_CREATE], for every
    input: eleven columns receive the value their name tells; the column
    [best_pair] receives the percentage and the column
    [best_pair_profit_percentage] receives the pair. *)
Lemma insert_params_by_column timestamp op od m row :
  insert_params timestamp op od m = Ok row ->
  exists date trades_today best_pair trade_count closed_trade_count latest avg,
    getitem_key od "date" = Ok date
    /\ getitem_key od "trade_count" = Ok trades_today
    /\ getitem_key op "best_pair" = Ok best_pair
    /\ getitem_key op "trade_count" = Ok trade_count
    /\ getitem_key op "closed_trade_count" = Ok closed_trade_count
    /\ getitem_key op "latest_trade_date" = Ok latest
    /\ getitem_key op "avg_duration" = Ok avg
    /\ List.length row = List.length trades_columns
    /\ field trades_columns row "timestamp" = Some (PFloat timestamp)
    /\ field trades_columns row "day" = Some date
    /\ field trades_columns row "closed_profit_today" = Some (PStr (closed_profit_today m))
    /\ field trades_columns row "trades_today" = Some trades_today
    /\ field trades_columns row "closed_profit_percentage_total"
       = Some (PStr (closed_profit_percentage_total m))
    /\ field trades_columns row "open_profit_percentage_total"
       = Some (PStr (open_profit_percentage_total m))
    /\ field trades_columns row "position_size" = Some (PStr (position_size_percentage m))
    /\ field trades_columns row "best_pair" = Some (PStr (best_pair_profit_percentage m))
    /\ field trades_columns row "best_pair_profit_percentage" = Some best_pair
    /\ field trades_columns row "all_trades" = Some trade_count
    /\ field trades_columns row "closed_trades" = Some closed_trade_count
    /\ field trades_columns row "last_action" = Some latest
    /\ field trades_columns row "average_duration" = Some avg.
Proof.
  intros H. unfold insert_params in H. repeat bind_ok H. injection H as <-.
  eexists _, _, _, _, _, _, _.
  repeat (split; [eassumption || reflexivity|]). reflexivity.
Qed.

(** *** One cycle *)

Lemma print_each_quiet lines w : quiet_at (print_each lines) w.
Proof.
  revert w. induction lines as [|l lines IH]; intros w; [apply quiet_ret|].
  cbn [print_each]. apply quiet_bind; [apply quiet_print|]. intros _ _. apply IH.
Qed.

Lemma print_commands_quiet w : quiet_at print_commands w.
Proof.
  unfold print_commands. apply quiet_bind; [apply quiet_print|]. intros _ _.
  apply print_each_quiet.
Qed.

Lemma getitem_data_none : (data <- getitem_key PNone "data" ;; getitem_first data)%result
                          = Raise (mk_exn TypeError "'NoneType' object is not subscriptable").
Proof. reflexivity. Qed.

(** A cycle whose profit fetch or daily fetch yields no data publishes
    nothing in [main]. *)
Lemma main_quiet_without_data g args w :
  no_data (http E (requests_made w)) = true
  \/ no_data (http E (S (requests_made w))) = true ->
  quiet_at (main g args) w.
Proof.
  intros Hno. unfold main. destruct (arg_show args).
  - apply quiet_bind; [apply print_commands_quiet|]. intros _ _. apply quiet_exit.
  - apply quiet_bind; [apply call_profit_quiet|]. intros output_profit Hp.
    apply quiet_bind; [apply call_daily_quiet|]. intros output_daily Hd.
    apply quiet_bind; [apply quiet_lift|]. intros output_daily_data Hdata.
    assert (output_profit = PNone) as ->.
    { destruct (call_profit_returned _ _ _ _ Hp) as [Hv1|[Hn1 Hd1]]; [exact Hv1|].
      exfalso.
      destruct (call_daily_returned _ _ _ _ Hd) as [Hv2|[_ Hd2]].
      - rewrite Hv2 in Hdata. discriminate Hdata.
      - rewrite Hn1 in Hd2. destruct Hno as [H1|H2]; congruence. }
    cbn [lift after].
    apply quiet_bind.
    + destruct (truthy (send_tweet g)); [apply tweet_quiet_none | apply quiet_ret].
    + intros _ _.
      destruct (truthy (save_to_db g)); [apply db_save_quiet_none | apply quiet_ret].
Qed.

Lemma print_each_stays lines w : stays_at (print_each lines) w.
Proof.
  revert w. induction lines as [|l lines IH]; intros w; [apply stays_ret|].
  cbn [print_each]. apply stays_bind; [apply stays_print|]. intros _ _. apply IH.
Qed.

(** Without [--show] nothing in [main] exits. *)
Lemma main_stays g args w : arg_show args = false -> stays_at (main g args) w.
Proof.
  intros Hs. unfold main. rewrite Hs.
  apply stays_bind; [apply call_profit_stays|]. intros output_profit _.
  apply stays_bind; [apply call_daily_stays|]. intros output_daily _.
  apply stays_bind; [apply stays_lift|]. intros output_daily_data _.
  apply stays_bind.
  - destruct (truthy (send_tweet g)); [apply tweet_stays | apply stays_ret].
  - intros _ _. destruct (truthy (save_to_db g)); [apply db_save_stays | apply stays_ret].
Qed.

Lemma cycle_body_stays g args w : arg_show args = false -> stays_at (cycle_body g args) w.
Proof.
  intros Hs. unfold cycle_body.
  apply stays_bind; [apply main_stays, Hs|]. intros _ _.
  apply stays_bind; [apply stays_lift|]. intros m _. apply stays_print.
Qed.

(** What a cycle is, by how its body ends, when the interval is one
    [time.sleep] accepts. *)
Lemma cycle_run g args w :
  sleep_error (run_interval g) = None ->
  let body := cycle_body g args w in
  cycle g args w
  = match outcome body with
    | Returned _ =>
        mk_run (events body ++ [EvSleep (run_interval g)]) (outcome body) (after body)
    | Raised e =>
        mk_run (events body
                  ++ [EvPrint ("An error occurred: " ++ exn_msg e ++ ", skipping run");
                      EvSleep (run_interval g)])
               (Returned tt) (after body)
    | Exited c =>
        mk_run (events body ++ [EvSleep (run_interval g)]) (Exited c) (after body)
    end.
Proof.
  intros Hs body. unfold cycle, try_except_finally, time_sleep. rewrite Hs.
  fold body. destruct (outcome body) as [[]|e|c] eqn:Ho;
    cbn [events outcome after print emit app]; rewrite ?Ho; reflexivity.
Qed.

Lemma cycle_body_quiet_without_data g args w :
  no_data (http E (requests_made w)) = true
  \/ no_data (http E (S (requests_made w))) = true ->
  quiet_at (cycle_body g args) w.
Proof.
  intros Hno. unfold cycle_body.
  apply quiet_bind; [apply main_quiet_without_data, Hno|]. intros _ _.
  apply quiet_bind; [apply quiet_lift|]. intros m _. apply quiet_print.
Qed.

Lemma quiet_try_except_finally body handler cleanup w :
  quiet_at body w ->
  (forall e w', quiet_at (handler e) w') ->
  (forall w', quiet_at cleanup w') ->
  quiet_at (try_except_finally body handler cleanup) w.
Proof.
  intros (Hb1 & Hb2 & Hb3) Hh Hc. unfold quiet_at, try_except_finally.
  cbn [events after].
  set (r2 := match outcome (body w) with
             | Raised e => handler e (after (body w))
             | other => mk_run [] other (after (body w))
             end).
  assert (no_publish (events r2) /\ db (after r2) = db (after (body w))
          /\ updates_made (after r2) = updates_made (after (body w))) as (H21 & H22 & H23).
  { subst r2. destruct (outcome (body w)); try (repeat split; fail). apply Hh. }
  destruct (Hc (after r2)) as (H31 & H32 & H33).
  split; [repeat apply no_publish_app; assumption|]. split; congruence.
Qed.

Lemma cycle_quiet_without_data g args w :
  no_data (http E (requests_made w)) = true
  \/ no_data (http E (S (requests_made w))) = true ->
  quiet_at (cycle g args) w.
Proof.
  intros Hno. unfold cycle. apply quiet_try_except_finally.
  - apply cycle_body_quiet_without_data, Hno.
  - intros e w'. apply quiet_print.
  - intros w'. apply quiet_sleep.
Qed.

(** Without [--show] and with an interval [time.sleep] accepts, a cycle
    returns and ends with the sleep, however its body ended. *)
Lemma cycle_returns g args w :
  arg_show args = false ->
  sleep_error (run_interval g) = None ->
  outcome (cycle g args w) = Returned tt
  /\ exists tr : list event, events (cycle g args w) = (tr ++ [EvSleep (run_interval g)])%list.
Proof.
  intros Hshow Hs. rewrite (cycle_run g args w Hs). cbv zeta.
  pose proof (cycle_body_stays g args w Hshow) as Hstay.
  destruct (outcome (cycle_body g args w)) as [[]|e|c] eqn:Ho; cbn [outcome events].
  - split; [reflexivity|]. eexists. reflexivity.
  - split; [reflexivity|].
    exists (events (cycle_body g args w)
              ++ [EvPrint ("An error occurred: " ++ exn_msg e ++ ", skipping run")])%list.
    rewrite <- app_assoc. reflexivity.
  - exfalso. exact (Hstay c Ho).
Qed.

Lemma poll_loop_step n g args w :
  outcome (cycle g args w) = Returned tt ->
  poll_loop (S n) g args w
  = mk_run (events (cycle g args w) ++ events (poll_loop n g args (after (cycle g args w))))
           (outcome (poll_loop n g args (after (cycle g args w))))
           (after (poll_loop n g args (after (cycle g args w)))).
Proof.
  intros Ho. cbn [poll_loop]. unfold bind. rewrite Ho. reflexivity.
Qed.

(** C1 (amended). In every cycle whose profit fetch or daily fetch yields
    no data (the request fails to connect, or the body is [null]) nothing
    is published: the trace of the cycle holds no status update and no
    call into the record store, and the table and the count of status
    updates are as before. When [--show] is not given and the interval is
    one [time.sleep] accepts, the cycle then returns after its sleep, and
    the loop goes on with the next cycle from the world this one left. *)
Theorem no_publish_without_data g args w :
  no_data (http E (requests_made w)) = true
  \/ no_data (http E (S (requests_made w))) = true ->
  let r := cycle g args w in
  (no_publish (events r)
   /\ db (after r) = db w
   /\ updates_made (after r) = updates_made w)
  /\ (arg_show args = false ->
      sleep_error (run_interval g) = None ->
      outcome r = Returned tt
      /\ (exists tr : list event, events r = (tr ++ [EvSleep (run_interval g)])%list)
      /\ forall n,
          poll_loop (S n) g args w
          = mk_run (events r ++ events (poll_loop n g args (after r)))
                   (outcome (poll_loop n g args (after r)))
                   (after (poll_loop n g args (after r)))).
Proof.
  intros Hno r. split.
  - exact (cycle_quiet_without_data g args w Hno).
  - intros Hshow Hs.
    destruct (cycle_returns g args w Hshow Hs) as [Ho Hev].
    split; [exact Ho|]. split; [exact Hev|].
    intros n. apply poll_loop_step, Ho.
Qed.

Lemma poll_loop_runs g args :
  arg_show args = false ->
  sleep_error (run_interval g) = None ->
  forall n w, outcome (poll_loop n g args w) = Returned tt.
Proof.
  intros Hshow Hs. induction n as [|n IH]; intros w; [reflexivity|].
  destruct (cycle_returns g args w Hshow Hs) as [Ho _].
  rewrite (poll_loop_step n g args w Ho). cbn [outcome]. apply IH.
Qed.

(** C2 (amended). A cycle whose body (fetch, compute or publish) raises
    [e] prints [An error occurred: e, skipping run] after what the body
    did and goes on to [time.sleep(run_interval)], whatever the error was;
    the cycle ends as that sleep ends. With an interval [time.sleep]
    accepts, that cycle then returns; every cycle, however its body ended,
    ends with the sleep; and without [--show] the loop is still running
    after any number of cycles, so once start-up has returned the process
    never ends. *)
Theorem cycle_errors_are_contained g args :
  (forall w e,
      outcome (cycle_body g args w) = Raised e ->
      let body := cycle_body g args w in
      let sleep := time_sleep (run_interval g) (after body) in
      cycle g args w
      = mk_run (events body
                  ++ [EvPrint ("An error occurred: " ++ exn_msg e ++ ", skipping run")]
                  ++ events sleep)
               (match outcome sleep with
                | Returned _ => Returned tt
                | other => other
                end)
               (after sleep))
  /\ (sleep_error (run_interval g) = None ->
      (forall w e,
          outcome (cycle_body g args w) = Raised e ->
          cycle g args w
          = mk_run (events (cycle_body g args w)
                      ++ [EvPrint ("An error occurred: " ++ exn_msg e ++ ", skipping run");
                          EvSleep (run_interval g)])
                   (Returned tt)
                   (after (cycle_body g args w)))
      /\ (forall w, exists tr : list event,
             events (cycle g args w) = (tr ++ [EvSleep (run_interval g)])%list)
      /\ (arg_show args = false ->
          (forall n w, outcome (poll_loop n g args w) = Returned tt)
          /\ (forall n w,
                 outcome (startup args w) = Returned g ->
                 exit_status (outcome (script n args w)) = None))).
Proof.
  split.
  - intros w e Ho body sleep. subst body sleep.
    unfold cycle, try_except_finally. rewrite Ho. reflexivity.
  - intros Hs. split; [|split].
    + intros w e Ho. rewrite (cycle_run g args w Hs). cbv zeta. rewrite Ho. reflexivity.
    + intros w. rewrite (cycle_run g args w Hs). cbv zeta.
      destruct (outcome (cycle_body g args w)) as [[]|e|c]; cbn [events].
      * eexists. reflexivity.
      * exists (events (cycle_body g args w)
                  ++ [EvPrint ("An error occurred: " ++ exn_msg e ++ ", skipping run")])%list.
        rewrite <- app_assoc. reflexivity.
      * eexists. reflexivity.
    + intros Hshow. split; [exact (poll_loop_runs g args Hshow Hs)|].
      intros n w Hg. unfold script, bind. rewrite Hg. cbn [outcome].
      rewrite (poll_loop_runs g args Hshow Hs). reflexivity.
Qed.

(** ** The help listing and start-up *)

Lemma print_each_run lines w :
  print_each lines w = mk_run (map EvPrint lines) (Returned tt) w.
Proof.
  induction lines as [|l lines IH]; [reflexivity|].
  cbn [print_each]. unfold bind. cbn [print emit outcome after events].
  rewrite IH. reflexivity.
Qed.

Lemma print_commands_run w :
  print_commands w
  = mk_run (EvPrint commands_heading
              :: map EvPrint (map command_help public_members))
           (Returned tt) w.
Proof.
  unfold print_commands, bind. cbn [print emit outcome after events].
  rewrite print_each_run. reflexivity.
Qed.

Lemma filter_map_print (p : event -> bool) lines :
  (forall t, p (EvPrint t) = false) -> filter p (map EvPrint lines) = [].
Proof.
  intros Hp. induction lines as [|l lines IH]; [reflexivity|].
  cbn [map filter]. rewrite Hp. exact IH.
Qed.

Lemma printed_map_print lines : printed (map EvPrint lines) = lines.
Proof.
  unfold printed. induction lines as [|l lines IH]; [reflexivity|].
  cbn [map flat_map app]. rewrite IH. reflexivity.
Qed.

Lemma printed_app tr1 tr2 : printed (tr1 ++ tr2) = (printed tr1 ++ printed tr2)%list.
Proof. unfold printed. apply flat_map_app. Qed.

(** A command made of pure steps that print [F b] when they return [b]
    and leave the world alone stays so when a pure step is put before. *)
Lemma returned_after_lift {A B : Type} (r : result A) (k : A -> cmd B) w
    (F : B -> list event) :
  (forall a b, outcome (k a w) = Returned b -> events (k a w) = F b /\ after (k a w) = w) ->
  forall b,
    outcome (bind (lift r) k w) = Returned b ->
    events (bind (lift r) k w) = F b /\ after (bind (lift r) k w) = w.
Proof.
  intros Hk b. destruct r as [a|e]; [|discriminate].
  unfold bind, lift. cbn [ending_of outcome events after app]. apply Hk.
Qed.

(** A start-up that returns has read the file, printed its two lines and
    done nothing else. *)
Lemma startup_returned args w g :
  outcome (startup args w) = Returned g ->
  events (startup args w)
  = [EvPrint ("Database saving configured to " ++ py_str (save_to_db g));
     EvPrint ("Tweeting configured to " ++ py_str (send_tweet g))]
  /\ after (startup args w) = w.
Proof.
  revert g. unfold startup, load_config.
  destruct (files E (arg_config args)) as [|e|contents].
  - discriminate.
  - discriminate.
  - change (ret contents) with (@lift pyval (Ok contents)).
    apply (returned_after_lift _ _ w
             (fun g => [EvPrint ("Database saving configured to " ++ py_str (save_to_db g));
                        EvPrint ("Tweeting configured to " ++ py_str (send_tweet g))])).
    intros config.
    do 9 (apply returned_after_lift; intros ?).
    intros g H. unfold bind in H |- *.
    cbn [print emit ret outcome events after app] in H |- *.
    injection H as <-. split; reflexivity.
Qed.

(** The start-up without a configuration file. *)
Lemma startup_without_file args w :
  files E (arg_config args) = NoSuchFile ->
  startup args w
  = mk_run [EvWarning ("Could not load config file " ++ path_str (arg_config args) ++ ".")]
           (Exited 1) w.
Proof.
  intros Hf. unfold startup, load_config. rewrite Hf. reflexivity.
Qed.

(** C6 (amended). Without a configuration file the script warns and exits
    with status 1, whether [--show] was given or not. With [--show], a
    configuration that start-up accepts and an interval [time.sleep]
    accepts, the script prints the heading and, for each of the eighteen
    commands in order, its name and description; it makes no request, no
    status update and no call into the record store; it leaves the world
    as it found it; and it ends with status 0 in the first turn of the
    loop, however many turns the loop is given. *)
Theorem show_lists_commands_and_exits args w :
  (files E (arg_config args) = NoSuchFile ->
   forall n,
     script n args w
     = mk_run [EvWarning ("Could not load config file " ++ path_str (arg_config args) ++ ".")]
              (Exited 1) w)
  /\ (arg_show args = true ->
      forall g n,
        outcome (startup args w) = Returned g ->
        sleep_error (run_interval g) = None ->
        let r := script (S n) args w in
        exit_status (outcome r) = Some 0
        /\ filter is_network (events r) = []
        /\ filter is_publish (events r) = []
        /\ printed (events r)
           = (printed (events (startup args w))
                ++ commands_heading :: map command_help public_members)%list
        /\ after r = w).
Proof.
  split.
  - intros Hf n. unfold script, bind. rewrite (startup_without_file args w Hf). reflexivity.
  - intros Hshow g n Hg Hs r.
    destruct (startup_returned args w g Hg) as [Hev Haft].
    assert (cycle g args w
            = mk_run (EvPrint commands_heading
                        :: map EvPrint (map command_help public_members)
                        ++ [EvSleep (run_interval g)])%list
                     (Exited 0) w) as Hc.
    { rewrite (cycle_run g args w Hs). cbv zeta.
      unfold cycle_body, main. rewrite Hshow.
      unfold bind. rewrite print_commands_run. cbn [outcome events after sys_exit].
      rewrite app_nil_r. reflexivity. }
    subst r. unfold script, bind. rewrite Hg, Haft. cbn [poll_loop].
    unfold bind. rewrite Hc. cbn [outcome events after exit_status]. rewrite Hev.
    change (EvPrint commands_heading
              :: map EvPrint (map command_help public_members)
              ++ [EvSleep (run_interval g)])%list
      with (map EvPrint (commands_heading :: map command_help public_members)
              ++ [EvSleep (run_interval g)])%list.
    set (listing := commands_heading :: map command_help public_members).
    split; [reflexivity|]. split; [|split; [|split; [|reflexivity]]].
    + rewrite !filter_app, filter_map_print by reflexivity. reflexivity.
    + rewrite !filter_app, filter_map_print by reflexivity. reflexivity.
    + rewrite printed_app. apply f_equal.
      rewrite printed_app, printed_map_print. apply app_nil_r.
Qed.

(** ** The request dispatcher *)

Lemma target_url_invalid self method apipath params :
  in_tuple (upper method) valid_methods = false ->
  target_url self method apipath params
  = Raise (mk_exn ValueError ("invalid method <" ++ method ++ ">")).
Proof. intros H. unfold target_url. rewrite H. reflexivity. Qed.

Lemma target_url_valid self method apipath params :
  in_tuple (upper method) valid_methods = true ->
  target_url self method apipath params
  = (parts <- urlparse (py_str (_serverurl self) ++ "/api/v1/" ++ apipath) ;;
     query <- (if truthy params then urlencode params else Ok "") ;;
     Ok (urlunparse
           {| url_scheme := url_scheme parts; url_netloc := url_netloc parts;
              url_path := url_path parts; url_params := url_params parts;
              url_query := query; url_fragment := url_fragment parts |}))%result.
Proof. intros H. unfold target_url. rewrite H. reflexivity. Qed.

(** C8. The dispatcher reads the verb without regard to letter case: it
    compares the upper-cased verb with GET, POST, PUT and DELETE. A verb
    that is none of the four fails at once with [ValueError: invalid
    method <verb>]: no event, the world untouched, so no network call was
    attempted. A verb that is one of the four never meets that check's
    error: if the call raises at all, the exception is the one [urlparse],
    [urlencode], [json.dumps] or the request itself raised. (The verb is
    ASCII text, where [upper] is Python's [str.upper].) *)
Theorem call_checks_the_upper_cased_verb self method apipath params data w :
  is_ascii method = true ->
  (in_tuple (upper method) valid_methods = false ->
   _call self method apipath params data w
   = mk_run [] (Raised (mk_exn ValueError ("invalid method <" ++ method ++ ">"))) w)
  /\ (in_tuple (upper method) valid_methods = true ->
      forall e,
        outcome (_call self method apipath params data w) = Raised e ->
        urlparse (py_str (_serverurl self) ++ "/api/v1/" ++ apipath) = Raise e
        \/ (truthy params = true /\ urlencode params = Raise e)
        \/ json_dumps data = Raise e
        \/ http E (requests_made w) = HttpRaises e).
Proof.
  intros _. split.
  - intros H. rewrite call_run, (target_url_invalid _ _ _ _ H). reflexivity.
  - intros H e. rewrite call_run, (target_url_valid _ _ _ _ H).
    assert (forall url,
               outcome
                 (match json_dumps data with
                  | Raise e' =>
                      if is_connection_error e'
                      then mk_run [EvWarning "Connection error"] (Returned PNone) w
                      else mk_run [] (Raised e') w
                  | Ok body =>
                      let w' := {| requests_made := S (requests_made w);
                                   updates_made := updates_made w;
                                   sqlite_calls := sqlite_calls w;
                                   clock_reads := clock_reads w; db := db w |} in
                      match http E (requests_made w) with
                      | Response v => mk_run [EvRequest method url hd_json body] (Returned v) w'
                      | HttpRaises e' =>
                          if is_connection_error e'
                          then mk_run [EvRequest method url hd_json body;
                                       EvWarning "Connection error"] (Returned PNone) w'
                          else mk_run [EvRequest method url hd_json body] (Raised e') w'
                      end
                  end) = Raised e ->
               json_dumps data = Raise e \/ http E (requests_made w) = HttpRaises e) as Htry.
    { intros url.
      destruct (json_dumps data) as [body|e3].
      - cbv zeta. destruct (http E (requests_made w)) as [v|e4]; [discriminate|].
        destruct (is_connection_error e4); cbn [outcome]; [discriminate|].
        intros Ho. injection Ho as ->. right. reflexivity.
      - destruct (is_connection_error e3); cbn [outcome]; [discriminate|].
        intros Ho. injection Ho as ->. left. reflexivity. }
    destruct (urlparse (py_str (_serverurl self) ++ "/api/v1/" ++ apipath)) as [parts|e1];
      cbn [rbind].
    2:{ intros Ho. injection Ho as ->. left. reflexivity. }
    destruct (truthy params) eqn:Ht.
    + destruct (urlencode params) as [query|e2]; cbn [rbind].
      2:{ intros Ho. injection Ho as ->. right. left. split; reflexivity. }
      intros Ho. right. right. exact (Htry _ Ho).
    + cbn [rbind]. intros Ho. right. right. exact (Htry _ Ho).
Qed.


(** What [daily] sends once its URL is built and the body dumped: one
    request, whatever the server then answers. *)
Lemma get_request self apipath params url body w :
  target_url self "GET" apipath params = Ok url ->
  json_dumps PNone = Ok body ->
  filter is_request (events (_get self apipath params w))
  = [EvRequest "GET" url hd_json body].
Proof.
  intros Hu Hb. unfold _get. rewrite call_run, Hu, Hb. cbv zeta.
  destruct (http E (requests_made w)) as [v|e]; [reflexivity|].
  destruct (is_connection_error e); reflexivity.
Qed.

(** C10. A falsy day count (0, 0.0, [None], [False], an empty string, list
    or dict) gives [params=None]: the call is the very call made without
    the argument, and the request [daily] sends goes to the URL with an
    empty query. A truthy day count gives [params={"timescale": days}],
    and the request [daily] sends goes to the URL whose query is the
    [urlencode] of it; when [urlencode] raises, [daily] raises that
    exception and sends nothing. *)
Theorem daily_timescale_only_when_truthy self days :
  (truthy days = false ->
   daily_params days = PNone
   /\ daily self days = daily self PNone
   /\ (forall url, target_url self "GET" "daily" (daily_params days) = Ok url ->
                   exists parts,
                     urlparse (py_str (_serverurl self) ++ "/api/v1/daily") = Ok parts
                     /\ url
                        = urlunparse
                            {| url_scheme := url_scheme parts; url_netloc := url_netloc parts;
                               url_path := url_path parts; url_params := url_params parts;
                               url_query := ""; url_fragment := url_fragment parts |})
   /\ forall w parts body,
       urlparse (py_str (_serverurl self) ++ "/api/v1/daily") = Ok parts ->
       json_dumps PNone = Ok body ->
       filter is_request (events (daily self days w))
       = [EvRequest "GET"
                    (urlunparse
                       {| url_scheme := url_scheme parts; url_netloc := url_netloc parts;
                          url_path := url_path parts; url_params := url_params parts;
                          url_query := ""; url_fragment := url_fragment parts |})
                    hd_json body])
  /\ (truthy days = true ->
      daily_params days = PDict [("timescale", days)]
      /\ (forall url, target_url self "GET" "daily" (daily_params days) = Ok url ->
                      exists parts query,
                        urlparse (py_str (_serverurl self) ++ "/api/v1/daily") = Ok parts
                        /\ urlencode (PDict [("timescale", days)]) = Ok query
                        /\ url
                           = urlunparse
                               {| url_scheme := url_scheme parts;
                                  url_netloc := url_netloc parts;
                                  url_path := url_path parts; url_params := url_params parts;
                                  url_query := query; url_fragment := url_fragment parts |})
      /\ (forall w parts query body,
             urlparse (py_str (_serverurl self) ++ "/api/v1/daily") = Ok parts ->
             urlencode (PDict [("timescale", days)]) = Ok query ->
             json_dumps PNone = Ok body ->
             filter is_request (events (daily self days w))
             = [EvRequest "GET"
                          (urlunparse
                             {| url_scheme := url_scheme parts;
                                url_netloc := url_netloc parts;
                                url_path := url_path parts; url_params := url_params parts;
                                url_query := query; url_fragment := url_fragment parts |})
                          hd_json body])
      /\ forall w parts e,
          urlparse (py_str (_serverurl self) ++ "/api/v1/daily") = Ok parts ->
          urlencode (PDict [("timescale", days)]) = Raise e ->
          daily self days w = mk_run [] (Raised e) w).
Proof.
  split; intros Ht.
  - assert (daily_params days = PNone) as Hp by (unfold daily_params; rewrite Ht; reflexivity).
    split; [exact Hp|]. split; [unfold daily; rewrite Hp; reflexivity|]. split.
    + intros url. rewrite Hp. rewrite target_url_valid by reflexivity.
      change ("/api/v1/" ++ "daily") with "/api/v1/daily".
      destruct (urlparse (py_str (_serverurl self) ++ "/api/v1/daily")) as [parts|e1];
        cbn [rbind truthy]; [|discriminate].
      intros H. injection H as <-. exists parts. split; reflexivity.
    + intros w parts body Hparse Hb. unfold daily. rewrite Hp.
      apply get_request; [|exact Hb].
      rewrite target_url_valid by reflexivity.
      change ("/api/v1/" ++ "daily") with "/api/v1/daily".
      rewrite Hparse. reflexivity.
  - assert (daily_params days = PDict [("timescale", days)]) as Hp
      by (unfold daily_params; rewrite Ht; reflexivity).
    split; [exact Hp|]. split; [|split].
    + intros url. rewrite Hp. rewrite target_url_valid by reflexivity.
      change ("/api/v1/" ++ "daily") with "/api/v1/daily".
      destruct (urlparse (py_str (_serverurl self) ++ "/api/v1/daily")) as [parts|e1];
        cbn [rbind truthy]; [|discriminate].
      destruct (urlencode (PDict [("timescale", days)])) as [query|e2]; cbn [rbind];
        [|discriminate].
      intros H. injection H as <-. exists parts, query. repeat split; reflexivity.
    + intros w parts query body Hparse Henc Hb. unfold daily. rewrite Hp.
      apply get_request; [|exact Hb].
      rewrite target_url_valid by reflexivity.
      change ("/api/v1/" ++ "daily") with "/api/v1/daily".
      rewrite Hparse. cbn [rbind truthy]. rewrite Henc. reflexivity.
    + intros w parts e Hparse Henc. unfold daily, _get. rewrite Hp, call_run.
      rewrite target_url_valid by reflexivity.
      change ("/api/v1/" ++ "daily") with "/api/v1/daily".
      rewrite Hparse. cbn [rbind truthy]. rewrite Henc. reflexivity.
Qed.

(** The falsy values. *)
Lemma falsy_values :
  truthy (PInt 0) = false /\ truthy PNone = false /\ truthy (PBool false) = false
  /\ truthy (PFloat (S754_zero false)) = false /\ truthy (PFloat (S754_zero true)) = false
  /\ truthy (PStr "") = false /\ truthy (PList []) = false /\ truthy (PDict []) = false.
Proof. repeat split. Qed.

(** * Further properties of the code *)

(** ** The help text *)

Lemma prefix_empty s : prefix "" s = true.
Proof. destruct s; reflexivity. Qed.

Lemma prefix_cons b q a s :
  prefix (String b q) (String a s) = true -> b = a /\ prefix q s = true.
Proof.
  cbn [prefix]. destruct (ascii_dec b a) as [Heq|Hne]; [|discriminate].
  intros H. split; assumption.
Qed.

Lemma prefix_cons_intro a q s : prefix q s = true -> prefix (String a q) (String a s) = true.
Proof.
  intros H. cbn [prefix]. destruct (ascii_dec a a) as [_|Hne]; [exact H|].
  exfalso. apply Hne. reflexivity.
Qed.

Lemma prefix_nil q : prefix q "" = true -> q = "".
Proof. destruct q; [reflexivity|discriminate]. Qed.

(** Inside a match the scan leaves nothing before the next newline. *)
Lemma sub_return_skipping r :
  sub_return true r = "" \/ exists t, sub_return true r = String newline t.
Proof.
  induction r as [|a r IH]; [left; reflexivity|].
  cbn [sub_return]. destruct (is_newline a) eqn:Ha; [|exact IH].
  right. apply Ascii.eqb_eq in Ha. subst a. eexists. reflexivity.
Qed.

(** A text without a newline that starts the result started the input. *)
Lemma sub_return_prefix s :
  forall q, contains_char newline q = false ->
            prefix q (sub_return false s) = true -> prefix q s = true.
Proof.
  induction s as [|a r IH]; intros q Hq; [exact (fun H => H)|].
  cbn [sub_return].
  destruct (prefix ":return:" (String a r)) eqn:Hm.
  - destruct (sub_return_skipping r) as [->|[t ->]]; intros H.
    + rewrite (prefix_nil q H). reflexivity.
    + destruct q as [|b q]; [reflexivity|].
      destruct (prefix_cons _ _ _ _ H) as [-> _].
      cbn [contains_char] in Hq. rewrite Ascii.eqb_refl in Hq. discriminate Hq.
  - destruct q as [|b q]; [reflexivity|]. intros H.
    destruct (prefix_cons _ _ _ _ H) as [-> Hq'].
    apply prefix_cons_intro, IH; [|exact Hq'].
    cbn [contains_char] in Hq. apply orb_false_elim in Hq. exact (proj2 Hq).
Qed.

Lemma sub_return_clean s : forall skipping, occurs ":return:" (sub_return skipping s) = false.
Proof.
  induction s as [|a r IH]; intros skipping; [destruct skipping; reflexivity|].
  destruct skipping; cbn [sub_return].
  - destruct (is_newline a) eqn:Ha; [|apply IH].
    apply Ascii.eqb_eq in Ha. subst a. cbn [occurs]. rewrite IH. reflexivity.
  - destruct (prefix ":return:" (String a r)) eqn:Hm; [apply IH|].
    cbn [occurs]. rewrite IH, orb_false_r.
    destruct (prefix ":return:" (String a (sub_return false r))) eqn:Hp; [|reflexivity].
    rewrite <- Hm. symmetry. apply (sub_return_prefix (String a r)); [reflexivity|].
    cbn [sub_return]. rewrite Hm. exact Hp.
Qed.

(** [rstrip] only cuts at the end. *)
Lemma rstrip_prefix s : exists t, s = rstrip s ++ t.
Proof.
  induction s as [|a r [t IH]]; [exists ""; reflexivity|].
  cbn [rstrip]. destruct (rstrip r) as [|b r'] eqn:Hr.
  - destruct (is_space a).
    + exists (String a r). reflexivity.
    + exists t. cbn [append]. rewrite IH at 1. reflexivity.
  - exists t. cbn [append]. rewrite IH at 1. reflexivity.
Qed.

Lemma rstrip_no_trailing_space s : ends_in_space (rstrip s) = false.
Proof.
  induction s as [|a r IH]; [reflexivity|].
  cbn [rstrip]. destruct (rstrip r) as [|b r'] eqn:Hr.
  - destruct (is_space a) eqn:Ha; [reflexivity|]. cbn [ends_in_space]. exact Ha.
  - cbn [ends_in_space] in IH |- *. exact IH.
Qed.

Lemma prefix_app q u t : prefix q u = true -> prefix q (u ++ t) = true.
Proof.
  revert q. induction u as [|a u IH]; intros q H.
  - rewrite (prefix_nil q H). apply prefix_empty.
  - destruct q as [|b q]; [reflexivity|].
    destruct (prefix_cons _ _ _ _ H) as [-> Hq].
    cbn [append]. apply prefix_cons_intro, IH, Hq.
Qed.

Lemma occurs_app q u t : occurs q u = true -> occurs q (u ++ t) = true.
Proof.
  induction u as [|a u IH]; cbn [occurs append]; intros H.
  - rewrite (prefix_nil q H). destruct t; reflexivity.
  - apply orb_true_iff in H. apply orb_true_iff. destruct H as [H|H].
    + left. apply (prefix_app q (String a u) t H).
    + right. apply IH, H.
Qed.

(** X1. Whatever the docstring of a command is, the description the help
    listing prints for it holds no [:return:] and ends in no white space:
    the substitution removes every [:return:] with the rest of its line,
    and [rstrip] cuts what trails; what is printed is a prefix of the
    substituted docstring. (The docstring is ASCII text, where [rstrip] is
    Python's [str.rstrip].) *)
Theorem help_text_has_no_return_line x doc :
  is_ascii doc = true ->
  exists text,
    command_help (x, doc) = x ++ nl ++ tab ++ text ++ nl
    /\ occurs ":return:" text = false
    /\ ends_in_space text = false
    /\ exists cut, sub_return false doc = text ++ cut.
Proof.
  intros _.
  exists (rstrip (sub_return false doc)). split; [reflexivity|].
  destruct (rstrip_prefix (sub_return false doc)) as [cut Hcut].
  split; [|split; [apply rstrip_no_trailing_space | exists cut; exact Hcut]].
  destruct (occurs ":return:" (rstrip (sub_return false doc))) eqn:Ho; [|reflexivity].
  apply (occurs_app _ _ cut) in Ho. rewrite <- Hcut, sub_return_clean in Ho.
  discriminate Ho.
Qed.

(** ** What a command leaves alone *)

Lemma bind_run {A B : Type} (m : cmd A) (k : A -> cmd B) w :
  bind m k w
  = match outcome (m w) with
    | Returned a =>
        mk_run (events (m w) ++ events (k a (after (m w))))
               (outcome (k a (after (m w)))) (after (k a (after (m w))))
    | Raised e => mk_run (events (m w)) (Raised e) (after (m w))
    | Exited c => mk_run (events (m w)) (Exited c) (after (m w))
    end.
Proof. reflexivity. Qed.

Lemma bind_emit {B : Type} e (k : unit -> cmd B) w :
  bind (emit e) k w = mk_run (e :: events (k tt w)) (outcome (k tt w)) (after (k tt w)).
Proof. reflexivity. Qed.

Lemma bind_time {B : Type} (k : spec_float -> cmd B) w :
  let w' := {| requests_made := requests_made w; updates_made := updates_made w;
               sqlite_calls := sqlite_calls w; clock_reads := S (clock_reads w);
               db := db w |} in
  bind time_time k w
  = mk_run (events (k (clock E (clock_reads w)) w'))
           (outcome (k (clock E (clock_reads w)) w'))
           (after (k (clock E (clock_reads w)) w')).
Proof. reflexivity. Qed.

Lemma avoids_bind {A B : Type} p (m : cmd A) (k : A -> cmd B) w :
  avoids p m w ->
  (forall a, outcome (m w) = Returned a -> avoids p (k a) (after (m w))) ->
  avoids p (bind m k) w.
Proof.
  unfold avoids. intros Hm Hk. rewrite bind_run.
  destruct (outcome (m w)) as [a|e|c]; cbn [events]; [|exact Hm|exact Hm].
  rewrite filter_app, Hm, (Hk a eq_refl). reflexivity.
Qed.

Lemma keeps_bind {A B X : Type} (f : world -> X) (m : cmd A) (k : A -> cmd B) w :
  keeps f m w ->
  (forall a, outcome (m w) = Returned a -> keeps f (k a) (after (m w))) ->
  keeps f (bind m k) w.
Proof.
  unfold keeps. intros Hm Hk. rewrite bind_run.
  destruct (outcome (m w)) as [a|e|c]; cbn [after]; [|exact Hm|exact Hm].
  rewrite (Hk a eq_refl). exact Hm.
Qed.

Lemma avoids_ret {A : Type} p (a : A) w : avoids p (ret a) w.
Proof. reflexivity. Qed.

Lemma avoids_lift {A : Type} p (r : result A) w : avoids p (lift r) w.
Proof. reflexivity. Qed.

Lemma avoids_exit {A : Type} p c w : avoids p (@sys_exit A c) w.
Proof. reflexivity. Qed.

Lemma avoids_time p w : avoids p time_time w.
Proof. reflexivity. Qed.

Lemma avoids_emit p e w : p e = false -> avoids p (emit e) w.
Proof. intros H. unfold avoids, emit. cbn [events filter]. rewrite H. reflexivity. Qed.

Lemma avoids_sleep p v w : p (EvSleep v) = false -> avoids p (time_sleep v) w.
Proof.
  intros H. unfold time_sleep. destruct (sleep_error v); [reflexivity|].
  apply avoids_emit, H.
Qed.

Lemma avoids_tweepy_api p a b c d w : avoids p (tweepy_api a b c d) w.
Proof. unfold tweepy_api. destruct (tweepy_setup E a b c d); reflexivity. Qed.

Lemma avoids_update_status p text w :
  p (EvUpdateStatus text) = false -> avoids p (update_status text) w.
Proof. intros H. unfold avoids, update_status. cbn [events filter]. rewrite H. reflexivity. Qed.

Lemma avoids_sqlite_call p ev effect w : p ev = false -> avoids p (sqlite_call ev effect) w.
Proof.
  intros H. unfold avoids, sqlite_call.
  destruct (sqlite_fault E (sqlite_calls w)); [|destruct (effect (db w))];
    cbn [events filter]; rewrite H; reflexivity.
Qed.

Lemma avoids_call p self method apipath params data w :
  (forall m u h b, p (EvRequest m u h b) = false) ->
  p (EvWarning "Connection error") = false ->
  avoids p (_call self method apipath params data) w.
Proof.
  intros Hr Hw. unfold avoids. rewrite call_run.
  destruct (target_url self method apipath params) as [url|e]; [|reflexivity].
  destruct (json_dumps data) as [body|e].
  - cbv zeta. destruct (http E (requests_made w)) as [v|e];
      [|destruct (is_connection_error e)]; cbn [events filter]; rewrite ?Hr, ?Hw; reflexivity.
  - destruct (is_connection_error e); cbn [events filter]; rewrite ?Hw; reflexivity.
Qed.

Lemma avoids_print_each p lines w :
  (forall t, p (EvPrint t) = false) -> avoids p (print_each lines) w.
Proof.
  intros H. unfold avoids. rewrite print_each_run. cbn [events].
  apply filter_map_print, H.
Qed.

Lemma avoids_try_except_finally p body handler cleanup w :
  avoids p body w ->
  (forall e w', avoids p (handler e) w') ->
  (forall w', avoids p cleanup w') ->
  avoids p (try_except_finally body handler cleanup) w.
Proof.
  unfold avoids. intros Hb Hh Hc. unfold try_except_finally. cbn [events].
  rewrite !filter_app, Hb, Hc.
  destruct (outcome (body w)); cbn [events]; rewrite ?Hh; reflexivity.
Qed.

(** A call leaves the world as it was, or has made one more request. *)
Lemma call_after self method apipath params data w :
  after (_call self method apipath params data w) = w
  \/ after (_call self method apipath params data w) = one_more_request w.
Proof.
  rewrite call_run.
  destruct (target_url self method apipath params) as [url|e]; [|left; reflexivity].
  destruct (json_dumps data) as [body|e].
  - right. cbv zeta. destruct (http E (requests_made w)) as [v|e];
      [|destruct (is_connection_error e)]; reflexivity.
  - left. destruct (is_connection_error e); reflexivity.
Qed.

Lemma keeps_ret {A X : Type} (f : world -> X) (a : A) w : keeps f (ret a) w.
Proof. reflexivity. Qed.

Lemma keeps_lift {A X : Type} (f : world -> X) (r : result A) w : keeps f (lift r) w.
Proof. reflexivity. Qed.

Lemma keeps_emit {X : Type} (f : world -> X) e w : keeps f (emit e) w.
Proof. reflexivity. Qed.

Lemma keeps_exit {A X : Type} (f : world -> X) c w : keeps f (@sys_exit A c) w.
Proof. reflexivity. Qed.

Lemma keeps_time {X : Type} (f : world -> X) w :
  (forall w', f (one_more_clock_read w') = f w') -> keeps f time_time w.
Proof. intros H. apply H. Qed.

Lemma keeps_update_status {X : Type} (f : world -> X) text w :
  (forall w', f (one_more_update w') = f w') -> keeps f (update_status text) w.
Proof. intros H. apply H. Qed.

Lemma keeps_sqlite_call {X : Type} (f : world -> X) ev effect w :
  (forall w' t, f (one_more_sqlite_call w' t) = f w') ->
  keeps f (sqlite_call ev effect) w.
Proof.
  intros H. unfold keeps, sqlite_call.
  destruct (sqlite_fault E (sqlite_calls w)); [|destruct (effect (db w))];
    cbn [after]; apply H.
Qed.

Lemma keeps_call {X : Type} (f : world -> X) self method apipath params data w :
  (forall w', f (one_more_request w') = f w') ->
  keeps f (_call self method apipath params data) w.
Proof.
  intros H. unfold keeps.
  destruct (call_after self method apipath params data w) as [-> | ->];
    [reflexivity | apply H].
Qed.

Lemma keeps_call_profit {X : Type} (f : world -> X) self args w :
  (forall w', f (one_more_request w') = f w') -> keeps f (call_profit self args) w.
Proof. intros H. destruct args; [apply keeps_call, H | reflexivity]. Qed.

Lemma keeps_call_daily {X : Type} (f : world -> X) self args w :
  (forall w', f (one_more_request w') = f w') -> keeps f (call_daily self args) w.
Proof.
  intros H. destruct args as [|d [|d' rest]];
    [apply keeps_call, H | apply keeps_call, H | reflexivity].
Qed.

Lemma avoids_call_profit p self args w :
  (forall m u h b, p (EvRequest m u h b) = false) ->
  p (EvWarning "Connection error") = false ->
  avoids p (call_profit self args) w.
Proof. intros Hr Hw. destruct args; [apply avoids_call; assumption | reflexivity]. Qed.

Lemma avoids_call_daily p self args w :
  (forall m u h b, p (EvRequest m u h b) = false) ->
  p (EvWarning "Connection error") = false ->
  avoids p (call_daily self args) w.
Proof.
  intros Hr Hw. destruct args as [|d [|d' rest]];
    [apply avoids_call; assumption | apply avoids_call; assumption | reflexivity].
Qed.

Lemma keeps_try_except_finally {X : Type} (f : world -> X) body handler cleanup w :
  keeps f body w ->
  (forall e w', keeps f (handler e) w') ->
  (forall w', keeps f cleanup w') ->
  keeps f (try_except_finally body handler cleanup) w.
Proof.
  unfold keeps. intros Hb Hh Hc. unfold try_except_finally. cbn [after].
  rewrite Hc. destruct (outcome (body w)); cbn [after]; rewrite ?Hh; exact Hb.
Qed.

Lemma keeps_sleep {X : Type} (f : world -> X) v w : keeps f (time_sleep v) w.
Proof. unfold time_sleep. destruct (sleep_error v); reflexivity. Qed.

Lemma keeps_tweepy_api {X : Type} (f : world -> X) a b c d w : keeps f (tweepy_api a b c d) w.
Proof. unfold tweepy_api. destruct (tweepy_setup E a b c d); reflexivity. Qed.

Lemma keeps_print_each {X : Type} (f : world -> X) lines w : keeps f (print_each lines) w.
Proof. unfold keeps. rewrite print_each_run. reflexivity. Qed.

(** Steps through a command made with [bind] from the primitives; what is
    left is what the command at hand does not leave alone. *)
Ltac frame :=
  repeat first
    [ apply avoids_ret | apply avoids_lift | apply avoids_exit | apply avoids_time
    | apply avoids_tweepy_api
    | apply avoids_emit; reflexivity
    | apply avoids_sleep; reflexivity
    | apply avoids_update_status; reflexivity
    | apply avoids_sqlite_call; reflexivity
    | apply avoids_print_each; reflexivity
    | apply avoids_call_profit; [reflexivity | reflexivity]
    | apply avoids_call_daily; [reflexivity | reflexivity]
    | apply avoids_call; [reflexivity | reflexivity]
    | apply keeps_ret | apply keeps_lift | apply keeps_emit | apply keeps_exit
    | apply keeps_sleep | apply keeps_tweepy_api | apply keeps_print_each
    | apply keeps_time; intros ?; reflexivity
    | apply keeps_update_status; intros ?; reflexivity
    | apply keeps_sqlite_call; intros ? ?; reflexivity
    | apply keeps_call_profit; intros ?; reflexivity
    | apply keeps_call_daily; intros ?; reflexivity
    | apply keeps_call; intros ?; reflexivity
    | apply avoids_bind; [|intros ? _]
    | apply keeps_bind; [|intros ? _] ].

(** *** The two publishers *)

Lemma tweet_avoids p config op od sc ps w :
  (forall t, p (EvPrint t) = false) -> (forall t, p (EvUpdateStatus t) = false) ->
  avoids p (tweet config op od sc ps) w.
Proof.
  intros Hp Hu. unfold tweet.
  repeat first [ apply avoids_lift | apply avoids_tweepy_api | apply avoids_emit, Hp
               | apply avoids_update_status, Hu | apply avoids_bind; [|intros ? _] ].
Qed.

Lemma db_save_avoids p config op od sc ps w :
  (forall t, p (EvPrint t) = false) -> p (EvSqlConnect "history.db") = false ->
  (forall s l, p (EvSqlExecute s l) = false) -> p EvSqlCommit = false ->
  avoids p (db_save config op od sc ps) w.
Proof.
  intros Hp Hc He Hm. unfold db_save.
  repeat first [ apply avoids_lift | apply avoids_time | apply avoids_emit, Hp
               | apply avoids_sqlite_call, Hc | apply avoids_sqlite_call, He
               | apply avoids_sqlite_call, Hm | apply avoids_bind; [|intros ? _] ].
Qed.

Lemma tweet_keeps {X : Type} (f : world -> X) config op od sc ps w :
  (forall w', f (one_more_update w') = f w') ->
  keeps f (tweet config op od sc ps) w.
Proof.
  intros H. unfold tweet.
  repeat first [ apply keeps_lift | apply keeps_emit | apply keeps_tweepy_api
               | apply keeps_update_status, H | apply keeps_bind; [|intros ? _] ].
Qed.

Lemma db_save_keeps {X : Type} (f : world -> X) config op od sc ps w :
  (forall w', f (one_more_clock_read w') = f w') ->
  (forall w' t, f (one_more_sqlite_call w' t) = f w') ->
  keeps f (db_save config op od sc ps) w.
Proof.
  intros Hc Hs. unfold db_save.
  repeat first [ apply keeps_lift | apply keeps_emit | apply keeps_time, Hc
               | apply keeps_sqlite_call, Hs | apply keeps_bind; [|intros ? _] ].
Qed.

(** ** The client *)

(** X2. One call of the dispatcher sends at most one request, and which
    it is depends on nothing but the URL and the body. When the verb is
    refused, or [urlparse] or [urlencode] raise, the call raises that
    exception and nothing has happened. When the URL is built but
    [json.dumps] raises, no request is sent and the world is as it was.
    When the URL is built and the body dumped, exactly one request is
    sent, with the verb as it was given, to that URL, with the JSON headers
    and that body, and the count of requests grows by one, whatever the
    server answers. In no case does the call make a status update or a
    call into the record store, or end the process. *)
Theorem call_sends_at_most_one_request self method apipath params data w :
  let r := _call self method apipath params data w in
  (forall e, target_url self method apipath params = Raise e ->
             r = mk_run [] (Raised e) w)
  /\ (forall url e,
         target_url self method apipath params = Ok url ->
         json_dumps data = Raise e ->
         filter is_request (events r) = [] /\ after r = w)
  /\ (forall url body,
         target_url self method apipath params = Ok url ->
         json_dumps data = Ok body ->
         filter is_request (events r) = [EvRequest method url hd_json body]
         /\ after r = one_more_request w)
  /\ filter is_publish (events r) = []
  /\ forall c, outcome r <> Exited c.
Proof.
  cbv zeta. split; [|split; [|split; [|split]]].
  - intros e Hu. rewrite call_run, Hu. reflexivity.
  - intros url e Hu Hb. rewrite call_run, Hu, Hb.
    destruct (is_connection_error e); split; reflexivity.
  - intros url body Hu Hb. rewrite call_run, Hu, Hb. cbv zeta.
    destruct (http E (requests_made w)) as [v|e];
      [|destruct (is_connection_error e)]; split; reflexivity.
  - apply avoids_call; reflexivity.
  - apply call_stays.
Qed.

Lemma in_public_members name :
  In name (map fst public_members) ->
  exists i, method_name i = name.
Proof.
  cbn [public_members map fst In]. intros H.
  repeat match type of H with
         | _ \/ _ => destruct H as [H|H]
         end; try (exfalso; exact H).
  - exists Balance; exact H.
  - exists (Blacklist []); exact H.
  - exists Count; exact H.
  - exists (Daily PNone); exact H.
  - exists Edge; exact H.
  - exists (Forcebuy PNone PNone); exact H.
  - exists (Forcesell PNone); exact H.
  - exists Performance; exact H.
  - exists Profit; exact H.
  - exists ReloadConf; exact H.
  - exists ShowConfig; exact H.
  - exists Start; exact H.
  - exists Status; exact H.
  - exists Stop; exact H.
  - exists Stopbuy; exact H.
  - exists (Trades PNone); exact H.
  - exists Version; exact H.
  - exists Whitelist; exact H.
Qed.

(** X3. Every public method of the client is one call of the dispatcher on
    the path that bears the method's name: a GET without a body, or a POST
    without query parameters. So no method meets the dispatcher's check of
    the verb. The names the help listing prints are exactly the names of
    these methods. *)
Theorem every_command_is_one_get_or_post self :
  (forall i,
      ((exists params, invoke self i = _call self "GET" (method_name i) params PNone)
       \/ (exists data, invoke self i = _call self "POST" (method_name i) PNone data))
      /\ In (method_name i) (map fst public_members))
  /\ (forall name, In name (map fst public_members) -> exists i, method_name i = name)
  /\ in_tuple (upper "GET") valid_methods = true
  /\ in_tuple (upper "POST") valid_methods = true.
Proof.
  split; [|split; [exact in_public_members | split; reflexivity]].
  intros i. split.
  - destruct i as [ | | | | | |days| | | | | | |limit| |args|traded price|tradeid];
      [ right | right | right | right | left | left | left | left | left | left | left
      | left | left | left | left | destruct args; [left | right] | right | right ];
      eexists; reflexivity.
  - destruct i; cbn [method_name public_members map fst In];
      repeat (first [left; reflexivity | right]).
Qed.

(** X4. [trades] without a limit, or with a falsy one, passes the integer
    [0] as its parameters, not [None]. The dispatcher only tests the
    parameters for truth, so the call is the very call made with
    [params=None]: the request [trades] sends goes to the URL with an empty
    query, and [urlencode] is not applied. With a truthy limit the request
    [trades] sends goes to the URL whose query is
    [urlencode({"limit": limit})]; when [urlencode] raises, [trades] raises
    that exception and sends nothing. *)
Theorem trades_limit_only_when_truthy self limit :
  (truthy limit = false ->
   trades_params limit = PInt 0
   /\ trades self limit = _get self "trades" PNone
   /\ forall w parts body,
       urlparse (py_str (_serverurl self) ++ "/api/v1/trades") = Ok parts ->
       json_dumps PNone = Ok body ->
       filter is_request (events (trades self limit w))
       = [EvRequest "GET"
                    (urlunparse
                       {| url_scheme := url_scheme parts; url_netloc := url_netloc parts;
                          url_path := url_path parts; url_params := url_params parts;
                          url_query := ""; url_fragment := url_fragment parts |})
                    hd_json body])
  /\ (truthy limit = true ->
      trades_params limit = PDict [("limit", limit)]
      /\ (forall w parts query body,
             urlparse (py_str (_serverurl self) ++ "/api/v1/trades") = Ok parts ->
             urlencode (PDict [("limit", limit)]) = Ok query ->
             json_dumps PNone = Ok body ->
             filter is_request (events (trades self limit w))
             = [EvRequest "GET"
                          (urlunparse
                             {| url_scheme := url_scheme parts;
                                url_netloc := url_netloc parts;
                                url_path := url_path parts; url_params := url_params parts;
                                url_query := query; url_fragment := url_fragment parts |})
                          hd_json body])
      /\ forall w parts e,
          urlparse (py_str (_serverurl self) ++ "/api/v1/trades") = Ok parts ->
          urlencode (PDict [("limit", limit)]) = Raise e ->
          trades self limit w = mk_run [] (Raised e) w).
Proof.
  split; intros Ht.
  - assert (trades_params limit = PInt 0) as Hp
      by (unfold trades_params; rewrite Ht; reflexivity).
    split; [exact Hp|]. split; [unfold trades; rewrite Hp; reflexivity|].
    intros w parts body Hparse Hb. unfold trades. rewrite Hp.
    apply get_request; [|exact Hb].
    rewrite target_url_valid by reflexivity.
    change ("/api/v1/" ++ "trades") with "/api/v1/trades".
    rewrite Hparse. reflexivity.
  - assert (trades_params limit = PDict [("limit", limit)]) as Hp
      by (unfold trades_params; rewrite Ht; reflexivity).
    split; [exact Hp|]. split.
    + intros w parts query body Hparse Henc Hb. unfold trades. rewrite Hp.
      apply get_request; [|exact Hb].
      rewrite target_url_valid by reflexivity.
      change ("/api/v1/" ++ "trades") with "/api/v1/trades".
      rewrite Hparse. cbn [rbind truthy]. rewrite Henc. reflexivity.
    + intros w parts e Hparse Henc. unfold trades, _get. rewrite Hp, call_run.
      rewrite target_url_valid by reflexivity.
      change ("/api/v1/" ++ "trades") with "/api/v1/trades".
      rewrite Hparse. cbn [rbind truthy]. rewrite Henc. reflexivity.
Qed.

(** ** The status update *)

Lemma bind_ret {A B : Type} (a : A) (k : A -> cmd B) w :
  bind (ret a) k w = mk_run (events (k a w)) (outcome (k a w)) (after (k a w)).
Proof. reflexivity. Qed.

(** [tweet], case by case: either the report was composed, printed and
    handed to the provider, or the function raised after its first line. *)
Lemma tweet_cases config op od sc ps w :
  let r := tweet config op od sc ps w in
  (exists text,
      report_text op od sc ps = Ok text
      /\ events r = [EvPrint "Tweeting..."; EvPrint text; EvUpdateStatus text]
      /\ outcome r = match status_update E (updates_made w) with
                     | Some e => Raised e
                     | None => Returned tt
                     end
      /\ after r = one_more_update w)
  \/ (events r = [EvPrint "Tweeting..."]
      /\ (exists e, outcome r = Raised e)
      /\ after r = w
      /\ ((exists e, report_text op od sc ps = Raise e)
          \/ (exists k e, api_server_get config k = Raise e)
          \/ exists a b c d, tweepy_setup E a b c d <> None)).
Proof.
  cbv zeta. unfold tweet, print. rewrite bind_emit. cbn [events outcome after].
  assert (forall k e, api_server_get config k = Raise e ->
            (exists e', report_text op od sc ps = Raise e')
            \/ (exists k' e', api_server_get config k' = Raise e')
            \/ exists a b c d, tweepy_setup E a b c d <> None) as Hcred.
  { intros k e H. right. left. exists k, e. exact H. }
  rewrite bind_lift.
  destruct (api_server_get config "api_key") as [k1|e] eqn:H1.
  2:{ right. split; [reflexivity|]. split; [eexists; reflexivity|].
      split; [reflexivity|]. exact (Hcred _ _ H1). }
  cbn [events outcome after]. rewrite bind_lift.
  destruct (api_server_get config "api_secret_key") as [k2|e] eqn:H2.
  2:{ right. split; [reflexivity|]. split; [eexists; reflexivity|].
      split; [reflexivity|]. exact (Hcred _ _ H2). }
  cbn [events outcome after]. rewrite bind_lift.
  destruct (api_server_get config "access_token") as [k3|e] eqn:H3.
  2:{ right. split; [reflexivity|]. split; [eexists; reflexivity|].
      split; [reflexivity|]. exact (Hcred _ _ H3). }
  cbn [events outcome after]. rewrite bind_lift.
  destruct (api_server_get config "access_token_secret") as [k4|e] eqn:H4.
  2:{ right. split; [reflexivity|]. split; [eexists; reflexivity|].
      split; [reflexivity|]. exact (Hcred _ _ H4). }
  clear Hcred. cbn [events outcome after]. unfold tweepy_api.
  destruct (tweepy_setup E k1 k2 k3 k4) as [e|] eqn:Hs.
  { rewrite bind_lift. right. split; [reflexivity|]. split; [eexists; reflexivity|].
    split; [reflexivity|].
    right. right. exists k1, k2, k3, k4. rewrite Hs. discriminate. }
  rewrite bind_ret. cbn [events outcome after]. rewrite bind_lift.
  destruct (report_text op od sc ps) as [text|e] eqn:Hr.
  2:{ right. split; [reflexivity|]. split; [eexists; reflexivity|].
      split; [reflexivity|]. left. eexists. reflexivity. }
  left. exists text. cbn [events outcome after].
  rewrite bind_emit. cbn [events outcome after update_status].
  split; [reflexivity|]. split; [reflexivity|]. split; reflexivity.
Qed.

(** X5. Whatever status [tweet] hands to the provider is the report
    composed from the two summaries, and it was printed just before: the
    trace of the call is the line [Tweeting...], the report, and the one
    status update. When the credentials cannot be read, the provider
    refuses them, or the report cannot be composed, no status update is
    attempted at all. *)
Theorem tweet_posts_the_printed_report config op od sc ps w :
  let r := tweet config op od sc ps w in
  (forall text,
      In (EvUpdateStatus text) (events r) ->
      report_text op od sc ps = Ok text
      /\ events r = [EvPrint "Tweeting..."; EvPrint text; EvUpdateStatus text]
      /\ updates_made (after r) = S (updates_made w))
  /\ (filter is_status_update (events r) = [] ->
      events r = [EvPrint "Tweeting..."]
      /\ updates_made (after r) = updates_made w
      /\ exists e, outcome r = Raised e).
Proof.
  cbv zeta.
  destruct (tweet_cases config op od sc ps w) as [(t & Hr & Hev & Ho & Ha)|(Hev & Ho & Ha & _)];
    rewrite Hev, Ha; split.
  - intros text [H|[H|[H|[]]]]; try discriminate H. injection H as <-.
    split; [exact Hr|]. split; reflexivity.
  - intros H. discriminate H.
  - intros text [H|[]]. discriminate H.
  - intros _. split; [reflexivity|]. split; [reflexivity | exact Ho].
Qed.

(** X6. The report of [tweet] can be composed from a profit summary and
    a daily summary exactly when the metrics and the tuple of values that
    [db_save] hands to its INSERT can be computed from them: both read the
    same fields of the two summaries. (Whether sqlite3 then binds and
    stores the values is a further condition of [db_save] alone.) *)
Theorem report_and_row_need_the_same_fields op od sc ps timestamp :
  (exists text, report_text op od sc ps = Ok text)
  <-> (exists m row, derived_metrics op od sc ps = Ok m
                     /\ insert_params timestamp op od m = Ok row).
Proof.
  split.
  - intros [text H]. unfold report_text in H. bind_ok H. bind_ok H.
    exists x. unfold composed_lines in Hx0. repeat bind_ok Hx0.
    unfold insert_params. rewrite Hx1, Hx2, Hx3, Hx4, Hx5, Hx6, Hx7. cbn [rbind].
    eexists. split; reflexivity.
  - intros (m & row & Hm & H). unfold insert_params in H. repeat bind_ok H.
    unfold report_text, composed_lines. rewrite Hm. cbn [rbind].
    rewrite Hx, Hx0, Hx1, Hx2, Hx3, Hx4, Hx5. cbn [rbind].
    eexists. reflexivity.
Qed.

(** ** The record store *)

Lemma bind_returned {A B : Type} (m : cmd A) (k : A -> cmd B) w b :
  outcome (bind m k w) = Returned b ->
  exists a, outcome (m w) = Returned a
            /\ outcome (k a (after (m w))) = Returned b
            /\ events (bind m k w) = (events (m w) ++ events (k a (after (m w))))%list
            /\ after (bind m k w) = after (k a (after (m w))).
Proof.
  rewrite bind_run.
  destruct (outcome (m w)) as [a|e|c]; cbn [outcome events after];
    [|discriminate|discriminate].
  intros H. exists a. split; [reflexivity|]. split; [exact H|]. split; reflexivity.
Qed.

Lemma lift_returned {A : Type} (r : result A) w a : outcome (lift r w) = Returned a -> r = Ok a.
Proof. destruct r; cbn; intros H; [injection H as ->; reflexivity | discriminate H]. Qed.

Lemma sqlite_call_returned ev effect w u :
  outcome (sqlite_call ev effect w) = Returned u ->
  sqlite_fault E (sqlite_calls w) = None
  /\ exists t, effect (db w) = Ok t
               /\ sqlite_call ev effect w
                  = mk_run [ev] (Returned tt) (one_more_sqlite_call w t).
Proof.
  unfold sqlite_call.
  destruct (sqlite_fault E (sqlite_calls w)); [discriminate|].
  destruct (effect (db w)) as [t|e]; [|discriminate].
  intros _. split; [reflexivity|]. exists t. split; reflexivity.
Qed.

Lemma create_if_absent_table t : create_if_absent t = Ok (Some (table_after_create t)).
Proof. destruct t; reflexivity. Qed.

Lemma insert_row_ok row t t' :
  insert_row row t = Ok t' ->
  exists tb, t = Some tb
             /\ List.length row = List.length (columns tb)
             /\ first_bind_error row = None
             /\ t' = Some {| columns := columns tb;
                             rows := rows tb ++ [stored_row (columns tb) row] |}.
Proof.
  unfold insert_row. destruct t as [tb|]; [|discriminate].
  destruct (Nat.eqb (List.length (columns tb)) (List.length row)) eqn:Hl;
    cbn [negb]; [|discriminate].
  destruct (first_bind_error row); [discriminate|].
  intros H. injection H as <-. exists tb. apply Nat.eqb_eq in Hl.
  split; [reflexivity|]. split; [symmetry; exact Hl|]. split; reflexivity.
Qed.

(** A save that returns, step by step. *)
Lemma db_save_returned config op od sc ps w :
  outcome (db_save config op od sc ps w) = Returned tt ->
  exists m row,
    derived_metrics op od sc ps = Ok m
    /\ insert_params (clock E (clock_reads w)) op od m = Ok row
    /\ List.length row = List.length (columns (table_after_create (db w)))
    /\ db (after (db_save config op od sc ps w))
       = Some {| columns := columns (table_after_create (db w));
                 rows := rows (table_after_create (db w))
                         ++ [stored_row (columns (table_after_create (db w))) row] |}
    /\ events (db_save config op od sc ps w)
       = [EvPrint "Saving to database..."; EvSqlConnect "history.db";
          EvSqlExecute SQL_CREATE []; EvSqlCommit; EvSqlExecute SQL_INSERT row; EvSqlCommit]
    /\ sqlite_calls (after (db_save config op od sc ps w)) = (5 + sqlite_calls w)%nat
    /\ clock_reads (after (db_save config op od sc ps w)) = S (clock_reads w).
Proof.
  intros H. unfold db_save in H |- *.
  apply bind_returned in H as ([] & _ & H & -> & ->).
  cbn [print emit events after] in H |- *.
  apply bind_returned in H as (m & Hm & H & -> & ->).
  apply lift_returned in Hm. cbn [lift events after] in H |- *.
  apply bind_returned in H as (ts & Hts & H & -> & ->).
  cbn [time_time outcome] in Hts. injection Hts as <-.
  cbn [time_time events after] in H |- *.
  fold (one_more_clock_read w) in H |- *.
  apply bind_returned in H as ([] & H1 & H & -> & ->).
  apply sqlite_call_returned in H1 as (_ & t1 & Ht1 & Hc1). injection Ht1 as <-.
  rewrite Hc1 in H |- *. clear Hc1. cbn [events after] in H |- *.
  apply bind_returned in H as ([] & H2 & H & -> & ->).
  apply sqlite_call_returned in H2 as (_ & t2 & Ht2 & Hc2).
  cbn [one_more_sqlite_call one_more_clock_read db] in Ht2.
  rewrite create_if_absent_table in Ht2. injection Ht2 as <-.
  rewrite Hc2 in H |- *. clear Hc2. cbn [events after] in H |- *.
  apply bind_returned in H as ([] & H3 & H & -> & ->).
  apply sqlite_call_returned in H3 as (_ & t3 & Ht3 & Hc3). injection Ht3 as <-.
  rewrite Hc3 in H |- *. clear Hc3. cbn [events after] in H |- *.
  apply bind_returned in H as (row & Hrow & H & -> & ->).
  apply lift_returned in Hrow. cbn [lift events after] in H |- *.
  apply bind_returned in H as ([] & H4 & H & -> & ->).
  apply sqlite_call_returned in H4 as (_ & t4 & Ht4 & Hc4).
  cbn [one_more_sqlite_call one_more_clock_read db] in Ht4.
  apply insert_row_ok in Ht4 as (tb & Htb & Hlen & _ & ->). injection Htb as <-.
  rewrite Hc4 in H |- *. clear Hc4. cbn [events after] in H |- *.
  apply sqlite_call_returned in H as (_ & t5 & Ht5 & Hc5). injection Ht5 as <-.
  rewrite Hc5. clear Hc5.
  exists m, row. cbn [events after app one_more_sqlite_call one_more_clock_read
                      db sqlite_calls clock_reads].
  split; [exact Hm|]. split; [exact Hrow|]. split; [exact Hlen|].
  split; [reflexivity|]. split; [reflexivity|]. split; reflexivity.
Qed.

(** X7. A save that returns has appended exactly one row: the table is
    the one that was there (or the empty table [trades], created now),
    and after its rows comes what sqlite3 stores for the tuple of the
    INSERT, each value under the affinity of its column. The tuple was
    computed with the reading of the clock as its timestamp and has one
    value per column, and the function made five calls into sqlite3, in
    the order connect, create, commit, insert, commit. *)
Theorem db_save_appends_one_row config op od sc ps w :
  outcome (db_save config op od sc ps w) = Returned tt ->
  exists m row,
    derived_metrics op od sc ps = Ok m
    /\ insert_params (clock E (clock_reads w)) op od m = Ok row
    /\ List.length row = List.length (columns (table_after_create (db w)))
    /\ db (after (db_save config op od sc ps w))
       = Some {| columns := columns (table_after_create (db w));
                 rows := rows (table_after_create (db w))
                         ++ [stored_row (columns (table_after_create (db w))) row] |}
    /\ events (db_save config op od sc ps w)
       = [EvPrint "Saving to database..."; EvSqlConnect "history.db";
          EvSqlExecute SQL_CREATE []; EvSqlCommit; EvSqlExecute SQL_INSERT row; EvSqlCommit]
    /\ sqlite_calls (after (db_save config op od sc ps w)) = (5 + sqlite_calls w)%nat
    /\ clock_reads (after (db_save config op od sc ps w)) = S (clock_reads w).
Proof. exact (db_save_returned config op od sc ps w). Qed.

Lemma bind_sqlite_call {B : Type} ev effect (k : unit -> cmd B) w t :
  sqlite_fault E (sqlite_calls w) = None ->
  effect (db w) = Ok t ->
  bind (sqlite_call ev effect) k w
  = mk_run (ev :: events (k tt (one_more_sqlite_call w t)))
           (outcome (k tt (one_more_sqlite_call w t)))
           (after (k tt (one_more_sqlite_call w t))).
Proof. intros Hf He. unfold bind, sqlite_call. rewrite Hf, He. reflexivity. Qed.

(** X8. The schema is created before the fields of the row are read. When
    the metrics can be computed but a field of the row is missing from a
    summary, and sqlite3 itself does not fail, the save raises the
    [KeyError] or [TypeError] of the missing field after the table was
    created and committed: the table is there, with the rows it had and
    no new one, and no INSERT was attempted. *)
Theorem missing_field_creates_the_table_only config op od sc ps w m e :
  derived_metrics op od sc ps = Ok m ->
  insert_params (clock E (clock_reads w)) op od m = Raise e ->
  sqlite_fault E (sqlite_calls w) = None ->
  sqlite_fault E (S (sqlite_calls w)) = None ->
  sqlite_fault E (S (S (sqlite_calls w))) = None ->
  let r := db_save config op od sc ps w in
  outcome r = Raised e
  /\ db (after r) = Some (table_after_create (db w))
  /\ events r = [EvPrint "Saving to database..."; EvSqlConnect "history.db";
                 EvSqlExecute SQL_CREATE []; EvSqlCommit].
Proof.
  intros Hm Hrow F1 F2 F3. cbv zeta. unfold db_save, print.
  rewrite bind_emit, bind_lift, Hm. cbn [events outcome after].
  rewrite bind_time. cbv zeta. cbn [events outcome after].
  fold (one_more_clock_read w).
  rewrite (bind_sqlite_call _ _ _ _ (db w)) by (try exact F1; reflexivity).
  cbn [events outcome after].
  rewrite (bind_sqlite_call _ _ _ _ (Some (table_after_create (db w))))
    by (try exact F2; apply create_if_absent_table).
  cbn [events outcome after].
  rewrite (bind_sqlite_call _ _ _ _ (Some (table_after_create (db w))))
    by (try exact F3; reflexivity).
  cbn [events outcome after].
  rewrite bind_lift, Hrow. split; [reflexivity|]. split; reflexivity.
Qed.

(** *** The table only grows *)

Lemma grown_refl t : grown t t.
Proof.
  destruct t as [tb|]; [|exact I]. split; [reflexivity|].
  exists []. symmetry. apply app_nil_r.
Qed.

Lemma grown_trans t1 t2 t3 : grown t1 t2 -> grown t2 t3 -> grown t1 t3.
Proof.
  destruct t1 as [a|]; [|intros _ _; exact I].
  destruct t2 as [b|]; [|intros []].
  destruct t3 as [c|]; [|intros _ []].
  intros [Hc1 [x1 Hr1]] [Hc2 [x2 Hr2]]. split; [congruence|].
  exists (x1 ++ x2)%list. rewrite Hr2, Hr1. symmetry. apply app_assoc.
Qed.

Lemma grows_keeps {A : Type} (m : cmd A) w : keeps db m w -> grows m w.
Proof. unfold keeps, grows. intros ->. apply grown_refl. Qed.

Lemma grows_bind {A B : Type} (m : cmd A) (k : A -> cmd B) w :
  grows m w ->
  (forall a, outcome (m w) = Returned a -> grows (k a) (after (m w))) ->
  grows (bind m k) w.
Proof.
  unfold grows. intros Hm Hk. rewrite bind_run.
  destruct (outcome (m w)) as [a|e|c]; cbn [after]; [|exact Hm|exact Hm].
  exact (grown_trans _ _ _ Hm (Hk a eq_refl)).
Qed.

Lemma grows_sqlite_call ev effect w :
  (forall t t', effect t = Ok t' -> grown t t') -> grows (sqlite_call ev effect) w.
Proof.
  intros H. unfold grows, sqlite_call.
  destruct (sqlite_fault E (sqlite_calls w)); [apply grown_refl|].
  destruct (effect (db w)) as [t|e] eqn:He; cbn [after db];
    [apply (H _ _ He) | apply grown_refl].
Qed.

Lemma grows_try_except_finally body handler cleanup w :
  grows body w ->
  (forall e w', grows (handler e) w') ->
  (forall w', grows cleanup w') ->
  grows (try_except_finally body handler cleanup) w.
Proof.
  unfold grows. intros Hb Hh Hc. unfold try_except_finally. cbn [after].
  eapply grown_trans; [|apply Hc].
  destruct (outcome (body w)); cbn [after];
    [exact Hb | exact (grown_trans _ _ _ Hb (Hh _ _)) | exact Hb].
Qed.

Lemma create_if_absent_grows t t' : create_if_absent t = Ok t' -> grown t t'.
Proof.
  destruct t as [tb|]; [|intros _; exact I].
  intros H. injection H as <-. apply grown_refl.
Qed.

Lemma insert_row_grows row t t' : insert_row row t = Ok t' -> grown t t'.
Proof.
  intros H. apply insert_row_ok in H as (tb & -> & _ & _ & ->).
  split; [reflexivity|]. eexists. reflexivity.
Qed.

Lemma same_grows t t' : Ok t = Ok t' -> grown t t'.
Proof. intros H. injection H as <-. apply grown_refl. Qed.

Lemma db_save_grows config op od sc ps w : grows (db_save config op od sc ps) w.
Proof.
  unfold db_save.
  repeat first
    [ apply grows_bind; [|intros ? _]
    | apply grows_sqlite_call;
      first [exact same_grows | exact create_if_absent_grows | apply insert_row_grows]
    | apply grows_keeps; frame ].
Qed.

Lemma main_grows g args w : grows (main g args) w.
Proof.
  unfold main. destruct (arg_show args).
  - apply grows_keeps. frame.
  - apply grows_bind; [apply grows_keeps; frame|]. intros op _.
    apply grows_bind; [apply grows_keeps; frame|]. intros od _.
    apply grows_bind; [apply grows_keeps; frame|]. intros odd _.
    apply grows_bind.
    + apply grows_keeps.
      destruct (truthy (send_tweet g));
        [apply tweet_keeps; intros ?; reflexivity | apply keeps_ret].
    + intros _ _. destruct (truthy (save_to_db g));
        [apply db_save_grows | apply grows_keeps, keeps_ret].
Qed.

Lemma cycle_grows g args w : grows (cycle g args) w.
Proof.
  unfold cycle. apply grows_try_except_finally.
  - unfold cycle_body. apply grows_bind; [apply main_grows|]. intros _ _.
    apply grows_keeps. frame.
  - intros e w'. apply grows_keeps, keeps_emit.
  - intros w'. apply grows_keeps, keeps_sleep.
Qed.

Lemma poll_loop_grows n g args : forall w, grows (poll_loop n g args) w.
Proof.
  induction n as [|n IH]; intros w; [apply grown_refl|].
  cbn [poll_loop]. apply grows_bind; [apply cycle_grows|]. intros _ _. apply IH.
Qed.

Lemma load_config_keeps {X : Type} (f : world -> X) path w : keeps f (load_config path) w.
Proof. unfold load_config. destruct (files E path); frame. Qed.

Lemma startup_keeps {X : Type} (f : world -> X) args w : keeps f (startup args) w.
Proof.
  unfold startup.
  apply keeps_bind; [apply load_config_keeps|]. intros config _.
  frame.
Qed.

(** X9. The script never loses what it stored. Whatever the server, the
    providers and sqlite3 answer, after any number of turns of the loop the
    table has the columns it had and the rows it had, in their order,
    followed by the rows added since; a table that exists never goes
    away. *)
Theorem stored_rows_are_never_lost n args w :
  (forall g, grown (db w) (db (after (poll_loop n g args w))))
  /\ grown (db w) (db (after (script n args w))).
Proof.
  split; [intros g; apply poll_loop_grows|].
  unfold script. apply (grows_bind (startup args)).
  - apply grows_keeps, startup_keeps.
  - intros g _. apply poll_loop_grows.
Qed.

(** ** One cycle and the loop *)

(** The two publishers, as [main] runs them. *)
Lemma publishers_avoid p g op odd w :
  (truthy (send_tweet g) = true ->
   (forall t, p (EvPrint t) = false) /\ (forall t, p (EvUpdateStatus t) = false)) ->
  (truthy (save_to_db g) = true ->
   (forall t, p (EvPrint t) = false) /\ p (EvSqlConnect "history.db") = false
   /\ (forall s l, p (EvSqlExecute s l) = false) /\ p EvSqlCommit = false) ->
  avoids p
    ((if truthy (send_tweet g)
      then tweet (config g) op odd (starting_capital g) (position_size g)
      else ret tt) ;;
     (if truthy (save_to_db g)
      then db_save (config g) op odd (starting_capital g) (position_size g)
      else ret tt))%cmd w.
Proof.
  intros Ht Hd. apply avoids_bind.
  - destruct (truthy (send_tweet g)); [|apply avoids_ret].
    destruct (Ht eq_refl) as [H1 H2]. apply tweet_avoids; assumption.
  - intros _ _. destruct (truthy (save_to_db g)); [|apply avoids_ret].
    destruct (Hd eq_refl) as (H1 & H2 & H3 & H4). apply db_save_avoids; assumption.
Qed.

Lemma publishers_keep {X : Type} (f : world -> X) g op odd w :
  (truthy (send_tweet g) = true -> forall w', f (one_more_update w') = f w') ->
  (truthy (save_to_db g) = true ->
   (forall w', f (one_more_clock_read w') = f w')
   /\ (forall w' t, f (one_more_sqlite_call w' t) = f w')) ->
  keeps f
    ((if truthy (send_tweet g)
      then tweet (config g) op odd (starting_capital g) (position_size g)
      else ret tt) ;;
     (if truthy (save_to_db g)
      then db_save (config g) op odd (starting_capital g) (position_size g)
      else ret tt))%cmd w.
Proof.
  intros Ht Hd. apply keeps_bind.
  - destruct (truthy (send_tweet g)); [|apply keeps_ret].
    apply tweet_keeps, Ht. reflexivity.
  - intros _ _. destruct (truthy (save_to_db g)); [|apply keeps_ret].
    destruct (Hd eq_refl) as [H1 H2]. apply db_save_keeps; assumption.
Qed.

Lemma main_avoids p g args w :
  (forall t, p (EvPrint t) = false) ->
  (forall m u h b, p (EvRequest m u h b) = false) ->
  p (EvWarning "Connection error") = false ->
  (truthy (send_tweet g) = true -> forall t, p (EvUpdateStatus t) = false) ->
  (truthy (save_to_db g) = true ->
   p (EvSqlConnect "history.db") = false
   /\ (forall s l, p (EvSqlExecute s l) = false) /\ p EvSqlCommit = false) ->
  avoids p (main g args) w.
Proof.
  intros Hp Hr Hw Ht Hd. unfold main. destruct (arg_show args).
  - apply avoids_bind; [|intros _ _; apply avoids_exit].
    unfold print_commands. apply avoids_bind; [apply avoids_emit, Hp|]. intros _ _.
    apply avoids_print_each, Hp.
  - apply avoids_bind; [apply avoids_call_profit; assumption|]. intros op _.
    apply avoids_bind; [apply avoids_call_daily; assumption|]. intros od _.
    apply avoids_bind; [apply avoids_lift|]. intros odd _.
    apply publishers_avoid.
    + intros H. split; [exact Hp | exact (Ht H)].
    + intros H. split; [exact Hp | exact (Hd H)].
Qed.

Lemma main_keeps {X : Type} (f : world -> X) g args w :
  (forall w', f (one_more_request w') = f w') ->
  (truthy (send_tweet g) = true -> forall w', f (one_more_update w') = f w') ->
  (truthy (save_to_db g) = true ->
   (forall w', f (one_more_clock_read w') = f w')
   /\ (forall w' t, f (one_more_sqlite_call w' t) = f w')) ->
  keeps f (main g args) w.
Proof.
  intros Hr Ht Hd. unfold main. destruct (arg_show args).
  - apply keeps_bind; [|intros _ _; apply keeps_exit].
    unfold print_commands. apply keeps_bind; [apply keeps_emit|]. intros _ _.
    apply keeps_print_each.
  - apply keeps_bind; [apply keeps_call_profit, Hr|]. intros op _.
    apply keeps_bind; [apply keeps_call_daily, Hr|]. intros od _.
    apply keeps_bind; [apply keeps_lift|]. intros odd _.
    apply publishers_keep; assumption.
Qed.

Lemma cycle_body_avoids p g args w :
  (forall t, p (EvPrint t) = false) ->
  avoids p (main g args) w ->
  avoids p (cycle_body g args) w.
Proof.
  intros Hp Hm. unfold cycle_body. apply avoids_bind; [exact Hm|]. intros _ _.
  apply avoids_bind; [apply avoids_lift|]. intros m _. apply avoids_emit, Hp.
Qed.

Lemma cycle_body_keeps {X : Type} (f : world -> X) g args w :
  keeps f (main g args) w -> keeps f (cycle_body g args) w.
Proof.
  intros Hm. unfold cycle_body. apply keeps_bind; [exact Hm|]. intros _ _.
  apply keeps_bind; [apply keeps_lift|]. intros m _. apply keeps_emit.
Qed.

Lemma cycle_avoids p g args w :
  (forall t, p (EvPrint t) = false) ->
  p (EvSleep (run_interval g)) = false ->
  avoids p (main g args) w ->
  avoids p (cycle g args) w.
Proof.
  intros Hp Hs Hm. unfold cycle. apply avoids_try_except_finally.
  - apply cycle_body_avoids; assumption.
  - intros e w'. apply avoids_emit, Hp.
  - intros w'. apply avoids_sleep, Hs.
Qed.

Lemma cycle_keeps {X : Type} (f : world -> X) g args w :
  keeps f (main g args) w -> keeps f (cycle g args) w.
Proof.
  intros Hm. unfold cycle. apply keeps_try_except_finally.
  - apply cycle_body_keeps, Hm.
  - intros e w'. apply keeps_emit.
  - intros w'. apply keeps_sleep.
Qed.

Lemma poll_loop_avoids p g args n :
  (forall w, avoids p (cycle g args) w) -> forall w, avoids p (poll_loop n g args) w.
Proof.
  intros Hc. induction n as [|n IH]; intros w; [reflexivity|].
  cbn [poll_loop]. apply avoids_bind; [apply Hc|]. intros _ _. apply IH.
Qed.

Lemma poll_loop_keeps {X : Type} (f : world -> X) g args n :
  (forall w, keeps f (cycle g args) w) -> forall w, keeps f (poll_loop n g args) w.
Proof.
  intros Hc. induction n as [|n IH]; intros w; [reflexivity|].
  cbn [poll_loop]. apply keeps_bind; [apply Hc|]. intros _ _. apply IH.
Qed.

(** X10. A publisher that is switched off is never run. When [send_tweet]
    is falsy (absent, [false], 0, an empty string) no turn of the loop
    attempts a status update; when [save_to_db] is falsy no turn of the
    loop calls into sqlite3 or reads the clock, and the table stays as it
    was. Each switch works whatever the other one says. *)
Theorem disabled_publisher_is_never_run g args n w :
  let r := poll_loop n g args w in
  (truthy (send_tweet g) = false ->
   filter is_status_update (events r) = [] /\ updates_made (after r) = updates_made w)
  /\ (truthy (save_to_db g) = false ->
      filter is_sqlite (events r) = []
      /\ sqlite_calls (after r) = sqlite_calls w
      /\ clock_reads (after r) = clock_reads w
      /\ db (after r) = db w).
Proof.
  cbv zeta. split; intros Hoff.
  - split.
    + apply poll_loop_avoids. intros w'. apply cycle_avoids; [reflexivity | reflexivity|].
      apply main_avoids; try reflexivity.
      * rewrite Hoff. discriminate.
      * intros _. split; [reflexivity|]. split; reflexivity.
    + apply (poll_loop_keeps updates_made). intros w'. apply cycle_keeps, main_keeps.
      * reflexivity.
      * rewrite Hoff. discriminate.
      * intros _. split; reflexivity.
  - assert (forall X (f : world -> X),
               (forall w', f (one_more_request w') = f w') ->
               (forall w', f (one_more_update w') = f w') ->
               f (after (poll_loop n g args w)) = f w) as Hkeep.
    { intros X f H1 H2. apply (poll_loop_keeps f). intros w'.
      apply cycle_keeps, main_keeps; [exact H1 | intros _; exact H2|].
      rewrite Hoff. discriminate. }
    split; [|split; [|split]]; try (apply Hkeep; reflexivity).
    apply poll_loop_avoids. intros w'. apply cycle_avoids; [reflexivity | reflexivity|].
    apply main_avoids; try reflexivity.
    rewrite Hoff. discriminate.
Qed.

Lemma cycle_body_never_sleeps g args w : avoids is_sleep (cycle_body g args) w.
Proof.
  apply cycle_body_avoids; [reflexivity|].
  apply main_avoids; try reflexivity. intros _. split; [reflexivity|]. split; reflexivity.
Qed.

(** X11. The loop sleeps exactly once per turn, for [run_interval]
    seconds: without [--show] and with an interval [time.sleep] accepts,
    the sleeps in the trace of [n] turns are [n] sleeps of that length,
    whatever happened in the turns. Nothing else in the script sleeps. *)
Theorem loop_sleeps_once_per_cycle g args :
  arg_show args = false ->
  sleep_error (run_interval g) = None ->
  forall n w,
    filter is_sleep (events (poll_loop n g args w)) = repeat (EvSleep (run_interval g)) n.
Proof.
  intros Hshow Hs. induction n as [|n IH]; intros w; [reflexivity|].
  destruct (cycle_returns g args w Hshow Hs) as [Ho _].
  rewrite (poll_loop_step n g args w Ho). cbn [events repeat].
  rewrite filter_app, IH.
  change (EvSleep (run_interval g) :: repeat (EvSleep (run_interval g)) n)
    with ([EvSleep (run_interval g)] ++ repeat (EvSleep (run_interval g)) n)%list.
  apply (f_equal (fun l => l ++ repeat (EvSleep (run_interval g)) n)%list).
  rewrite (cycle_run g args w Hs). cbv zeta.
  pose proof (cycle_body_never_sleeps g args w) as Hb. unfold avoids in Hb.
  destruct (outcome (cycle_body g args w)) as [u|e|c]; cbn [events];
    rewrite filter_app, Hb; reflexivity.
Qed.

(** What a turn of the loop is when [time.sleep] refuses the interval. *)
Lemma cycle_bad_interval g args w e :
  sleep_error (run_interval g) = Some e ->
  outcome (cycle g args w) = Raised e
  /\ filter is_sleep (events (cycle g args w)) = []
  /\ forall n,
      outcome (poll_loop (S n) g args w) = Raised e
      /\ events (poll_loop (S n) g args w) = events (cycle g args w)
      /\ after (poll_loop (S n) g args w) = after (cycle g args w).
Proof.
  intros Hs.
  assert (outcome (cycle g args w) = Raised e) as Ho.
  { unfold cycle, try_except_finally, time_sleep. rewrite Hs. reflexivity. }
  split; [exact Ho|]. split.
  - apply avoids_try_except_finally.
    + apply cycle_body_never_sleeps.
    + intros e' w'. apply avoids_emit. reflexivity.
    + intros w'. unfold time_sleep. rewrite Hs. apply avoids_lift.
  - intros n. cbn [poll_loop]. rewrite bind_run, Ho. split; [reflexivity|].
    split; reflexivity.
Qed.

(** X12. The [except] of the loop does not protect its [finally]. When
    [run_interval] is a value [time.sleep] refuses (it is missing from the
    configuration, a string, negative, NaN, or too large), the first turn
    of the loop ends with the exception of the sleep, whatever its body
    did, with [--show] as well; nothing has slept, the loop makes no second
    turn, and the process ends with status 1. *)
Theorem bad_interval_ends_the_loop g args w e :
  sleep_error (run_interval g) = Some e ->
  outcome (cycle g args w) = Raised e
  /\ filter is_sleep (events (cycle g args w)) = []
  /\ forall n,
      outcome (poll_loop (S n) g args w) = Raised e
      /\ events (poll_loop (S n) g args w) = events (cycle g args w)
      /\ exit_status (outcome (poll_loop (S n) g args w)) = Some 1.
Proof.
  intros Hs. destruct (cycle_bad_interval g args w e Hs) as (Ho & Hq & Hn).
  split; [exact Ho|]. split; [exact Hq|]. intros n.
  destruct (Hn n) as (H1 & H2 & _). split; [exact H1|]. split; [exact H2|].
  rewrite H1. reflexivity.
Qed.

(** X13. The command arguments of the command line are passed to [profit],
    which takes none. With one or more of them (and without [--show]) every
    turn of the loop fails with a [TypeError] before anything is asked of
    the server: the turn prints the error, sleeps, and leaves the world as
    it was. *)
Theorem command_arguments_fail_every_cycle g args :
  arg_show args = false ->
  arg_command_arguments args <> [] ->
  exists e,
    exn_cls e = TypeError
    /\ (forall w, main g args w = mk_run [] (Raised e) w)
    /\ (sleep_error (run_interval g) = None ->
        forall n w,
          poll_loop n g args w
          = mk_run (List.concat (repeat [EvPrint ("An error occurred: " ++ exn_msg e
                                             ++ ", skipping run");
                                         EvSleep (run_interval g)] n))
                   (Returned tt) w).
Proof.
  intros Hshow Hargs.
  destruct (arg_command_arguments args) as [|a rest] eqn:Ha; [contradiction Hargs; reflexivity|].
  eexists. split; [|split].
  2:{ intros w. unfold main. rewrite Hshow, Ha. cbn [map call_profit].
      unfold arity_error. rewrite bind_lift. reflexivity. }
  - reflexivity.
  - intros Hs. induction n as [|n IH]; intros w; [reflexivity|].
    assert (cycle g args w
            = mk_run [EvPrint ("An error occurred: "
                               ++ exn_msg (mk_exn TypeError
                                             ("profit" ++ "() takes " ++ "1 positional argument"
                                              ++ " but "
                                              ++ PyFloat.decimal
                                                   (Z.of_nat (S (List.length
                                                                   (map PStr (a :: rest)))))
                                              ++ " were given"))
                               ++ ", skipping run");
                      EvSleep (run_interval g)]
                     (Returned tt) w) as Hc.
    { rewrite (cycle_run g args w Hs). cbv zeta. unfold cycle_body.
      rewrite bind_run. unfold main. rewrite Hshow, Ha. cbn [map call_profit].
      unfold arity_error. rewrite bind_lift. reflexivity. }
    cbn [poll_loop]. rewrite bind_run, Hc. cbn [outcome events after].
    rewrite IH. reflexivity.
Qed.

(** X14. With [send_tweet] on, a row is saved only after the status
    update went out. If a turn of [main] reaches sqlite3 at all, its trace
    holds a status update before the first call into sqlite3, and the
    provider accepted that update. So a report the provider refuses, or
    one that cannot be composed, is not stored either. *)
Theorem row_is_saved_only_after_the_status_update g args w :
  truthy (send_tweet g) = true ->
  filter is_sqlite (events (main g args w)) <> [] ->
  exists before text rest,
    events (main g args w) = (before ++ EvUpdateStatus text :: rest)%list
    /\ filter is_sqlite before = []
    /\ status_update E (updates_made w) = None.
Proof.
  intros Ht Hne. unfold main in Hne |- *. destruct (arg_show args).
  { exfalso. apply Hne. rewrite bind_run, print_commands_run.
    cbn [outcome events after sys_exit]. rewrite app_nil_r.
    apply (filter_map_print is_sqlite (commands_heading :: map command_help public_members)).
    reflexivity. }
  set (client := new_client (PStr ("http://" ++ py_str (url g) ++ ":" ++ py_str (port g)))
                            (username g) (password g)) in Hne |- *.
  set (cargs := map PStr (arg_command_arguments args)) in Hne |- *.
  cbv zeta in Hne |- *.
  pose proof (avoids_call_profit is_sqlite client cargs w (fun _ _ _ _ => eq_refl) eq_refl)
    as HaP.
  pose proof (keeps_call_profit updates_made client cargs w (fun _ => eq_refl)) as HkP.
  unfold avoids in HaP. unfold keeps in HkP.
  rewrite bind_run in Hne |- *.
  destruct (outcome (call_profit client cargs w)) as [op|e|c]; cbn [events] in Hne |- *;
    [|exfalso; exact (Hne HaP)|exfalso; exact (Hne HaP)].
  set (w1 := after (call_profit client cargs w)) in Hne, HkP |- *.
  pose proof (avoids_call_daily is_sqlite client cargs w1 (fun _ _ _ _ => eq_refl) eq_refl)
    as HaD.
  pose proof (keeps_call_daily updates_made client cargs w1 (fun _ => eq_refl)) as HkD.
  unfold avoids in HaD. unfold keeps in HkD.
  rewrite bind_run in Hne |- *.
  destruct (outcome (call_daily client cargs w1)) as [od|e|c]; cbn [events] in Hne |- *;
    [|exfalso; apply Hne; rewrite filter_app, HaP, HaD; reflexivity
     |exfalso; apply Hne; rewrite filter_app, HaP, HaD; reflexivity].
  set (w2 := after (call_daily client cargs w1)) in Hne, HkD |- *.
  rewrite bind_lift in Hne |- *.
  destruct (data <- getitem_key od "data" ;; getitem_first data)%result as [odd|e];
    cbn [events] in Hne |- *;
    [|exfalso; apply Hne; rewrite !filter_app, HaP, HaD; reflexivity].
  rewrite Ht in Hne |- *. rewrite bind_run in Hne |- *.
  pose proof (tweet_cases (config g) op odd (starting_capital g) (position_size g) w2) as Hc.
  cbv zeta in Hc.
  destruct Hc as [(text & _ & Hev & Ho & Ha)|(Hev & (e & Ho) & _)].
  - destruct (status_update E (updates_made w2)) as [e|] eqn:Hst;
      rewrite Ho in Hne |- *; rewrite Hev in Hne |- *; cbn [events] in Hne |- *.
    + exfalso. apply Hne. rewrite !filter_app, HaP, HaD. reflexivity.
    + exists (events (call_profit client cargs w) ++ events (call_daily client cargs w1)
                ++ [EvPrint "Tweeting..."; EvPrint text])%list, text.
      eexists. split; [|split].
      * rewrite <- !app_assoc. reflexivity.
      * rewrite !filter_app, HaP, HaD. reflexivity.
      * rewrite <- HkP, <- HkD. exact Hst.
  - rewrite Ho in Hne. rewrite Hev in Hne. cbn [events] in Hne.
    exfalso. apply Hne. rewrite !filter_app, HaP, HaD. reflexivity.
Qed.

(** A call, by what it sent. *)
Lemma call_request_cases self method apipath params data w :
  (exists e, target_url self method apipath params = Raise e
             /\ _call self method apipath params data w = mk_run [] (Raised e) w)
  \/ (exists e, json_dumps data = Raise e
                /\ filter is_request (events (_call self method apipath params data w)) = []
                /\ after (_call self method apipath params data w) = w)
  \/ (exists url body,
         target_url self method apipath params = Ok url
         /\ json_dumps data = Ok body
         /\ filter is_request (events (_call self method apipath params data w))
            = [EvRequest method url hd_json body]
         /\ after (_call self method apipath params data w) = one_more_request w).
Proof.
  rewrite call_run.
  destruct (target_url self method apipath params) as [url|e];
    [|left; exists e; split; reflexivity].
  right. destruct (json_dumps data) as [body|e].
  - right. exists url, body. split; [reflexivity|]. split; [reflexivity|].
    cbv zeta. destruct (http E (requests_made w)) as [v|e];
      [|destruct (is_connection_error e)]; split; reflexivity.
  - left. exists e. split; [reflexivity|].
    destruct (is_connection_error e); split; reflexivity.
Qed.

(** A continuation that sends nothing adds nothing to what was sent. *)
Lemma bind_requests {A B : Type} (m : cmd A) (k : A -> cmd B) w :
  (forall a w', avoids is_request (k a) w' /\ keeps requests_made (k a) w') ->
  filter is_request (events (bind m k w)) = filter is_request (events (m w))
  /\ requests_made (after (bind m k w)) = requests_made (after (m w)).
Proof.
  intros Hk. rewrite bind_run.
  destruct (outcome (m w)) as [a|e|c]; cbn [events after]; [|split; reflexivity..].
  destruct (Hk a (after (m w))) as [H1 H2]. unfold avoids in H1. unfold keeps in H2.
  rewrite filter_app, H1, app_nil_r, H2. split; reflexivity.
Qed.

(** What a call sends once its URL is built and the body dumped, and
    where it leaves the count of requests. *)
Lemma call_sent self method apipath params data url body w :
  target_url self method apipath params = Ok url ->
  json_dumps data = Ok body ->
  filter is_request (events (_call self method apipath params data w))
  = [EvRequest method url hd_json body]
  /\ requests_made (after (_call self method apipath params data w)) = S (requests_made w).
Proof.
  intros Hu Hb. rewrite call_run, Hu, Hb. cbv zeta.
  destruct (http E (requests_made w)) as [v|e];
    [|destruct (is_connection_error e)]; split; reflexivity.
Qed.

(** X15. What one turn of [main] asks of the server. With [--show], or
    with command arguments, nothing. Otherwise: when the URL of the profit
    fetch cannot be built, or the body cannot be dumped, nothing; else
    first a GET on [http://<server_url>:<listen_port>/api/v1/profit]
    without a query. When that fetch raises an exception that is no
    connection error, nothing more; when it returns (with data, or with
    [None] after a connection error), next a GET on [.../api/v1/daily]
    without a query (so the daily fetch never carries a time scale),
    unless its URL cannot be built. Nothing else is sent, and the count of
    requests made grows by the number sent: the turn sends at most two
    requests. *)
Theorem main_asks_for_profit_then_daily g args w :
  let client := new_client (PStr ("http://" ++ py_str (url g) ++ ":" ++ py_str (port g)))
                           (username g) (password g) in
  let sent := filter is_request (events (main g args w)) in
  let made := requests_made (after (main g args w)) in
  (arg_show args = true \/ arg_command_arguments args <> [] ->
   sent = [] /\ made = requests_made w)
  /\ (arg_show args = false ->
      arg_command_arguments args = [] ->
      (forall e, target_url client "GET" "profit" PNone = Raise e ->
                 sent = [] /\ made = requests_made w)
      /\ (forall e, json_dumps PNone = Raise e -> sent = [] /\ made = requests_made w)
      /\ forall u1 b,
          target_url client "GET" "profit" PNone = Ok u1 ->
          json_dumps PNone = Ok b ->
          (forall e, http E (requests_made w) = HttpRaises e ->
                     is_connection_error e = false ->
                     sent = [EvRequest "GET" u1 hd_json b] /\ made = S (requests_made w))
          /\ ((forall e, http E (requests_made w) = HttpRaises e ->
                         is_connection_error e = true) ->
              (forall e, target_url client "GET" "daily" PNone = Raise e ->
                         sent = [EvRequest "GET" u1 hd_json b]
                         /\ made = S (requests_made w))
              /\ forall u2,
                  target_url client "GET" "daily" PNone = Ok u2 ->
                  sent = [EvRequest "GET" u1 hd_json b; EvRequest "GET" u2 hd_json b]
                  /\ made = S (S (requests_made w))))
  /\ (List.length sent <= 2)%nat.
Proof.
  cbv zeta.
  assert (forall op w',
             filter is_request
               (events ((output_daily <- call_daily
                                           (new_client
                                              (PStr ("http://" ++ py_str (url g) ++ ":"
                                                               ++ py_str (port g)))
                                              (username g) (password g))
                                           (map PStr (arg_command_arguments args)) ;;
                         output_daily_data <- lift (data <- getitem_key output_daily "data" ;;
                                                    getitem_first data)%result ;;
                         (if truthy (send_tweet g)
                          then tweet (config g) op output_daily_data
                                     (starting_capital g) (position_size g)
                          else ret tt) ;;
                         (if truthy (save_to_db g)
                          then db_save (config g) op output_daily_data
                                       (starting_capital g) (position_size g)
                          else ret tt))%cmd w'))
             = filter is_request
                 (events (call_daily
                            (new_client
                               (PStr ("http://" ++ py_str (url g) ++ ":" ++ py_str (port g)))
                               (username g) (password g))
                            (map PStr (arg_command_arguments args)) w'))
             /\ requests_made
                  (after ((output_daily <- call_daily
                                             (new_client
                                                (PStr ("http://" ++ py_str (url g) ++ ":"
                                                                 ++ py_str (port g)))
                                                (username g) (password g))
                                             (map PStr (arg_command_arguments args)) ;;
                           output_daily_data <- lift (data <- getitem_key output_daily "data" ;;
                                                      getitem_first data)%result ;;
                           (if truthy (send_tweet g)
                            then tweet (config g) op output_daily_data
                                       (starting_capital g) (position_size g)
                            else ret tt) ;;
                           (if truthy (save_to_db g)
                            then db_save (config g) op output_daily_data
                                         (starting_capital g) (position_size g)
                            else ret tt))%cmd w'))
                = requests_made
                    (after (call_daily
                              (new_client
                                 (PStr ("http://" ++ py_str (url g) ++ ":"
                                                  ++ py_str (port g)))
                                 (username g) (password g))
                              (map PStr (arg_command_arguments args)) w'))) as Hdaily.
  { intros op w'. apply bind_requests. intros od w''. split.
    - apply avoids_bind; [apply avoids_lift|]. intros odd _.
      apply publishers_avoid; intros _;
        repeat (split; [intros; reflexivity|]); intros; reflexivity.
    - apply keeps_bind; [apply keeps_lift|]. intros odd _.
      apply publishers_keep; [intros _ w3; reflexivity|].
      intros _. split; intros; reflexivity. }
  set (client := new_client (PStr ("http://" ++ py_str (url g) ++ ":" ++ py_str (port g)))
                            (username g) (password g)) in Hdaily |- *.
  assert (arg_show args = true ->
          filter is_request (events (main g args w)) = []
          /\ requests_made (after (main g args w)) = requests_made w) as Hshow.
  { intros Hs. unfold main. rewrite Hs, bind_run, print_commands_run.
    cbn [outcome events after sys_exit]. rewrite app_nil_r. split; [|reflexivity].
    apply (filter_map_print is_request
             (commands_heading :: map command_help public_members)).
    reflexivity. }
  assert (arg_show args = false ->
          arg_command_arguments args <> [] ->
          filter is_request (events (main g args w)) = []
          /\ requests_made (after (main g args w)) = requests_made w) as Hargs.
  { intros Hs Ha. unfold main. rewrite Hs.
    destruct (arg_command_arguments args) as [|a rest]; [contradiction Ha; reflexivity|].
    cbn [map call_profit]. unfold arity_error. rewrite bind_lift. split; reflexivity. }
  assert (arg_show args = false ->
          arg_command_arguments args = [] ->
          main g args w
          = bind (_call client "GET" "profit" PNone PNone)
                 (fun output_profit =>
                    (output_daily <- call_daily client (map PStr (arg_command_arguments args)) ;;
                     output_daily_data <- lift (data <- getitem_key output_daily "data" ;;
                                                getitem_first data)%result ;;
                     (if truthy (send_tweet g)
                      then tweet (config g) output_profit output_daily_data
                                 (starting_capital g) (position_size g)
                      else ret tt) ;;
                     (if truthy (save_to_db g)
                      then db_save (config g) output_profit output_daily_data
                                   (starting_capital g) (position_size g)
                      else ret tt))%cmd) w) as Hmain.
  { intros Hs Ha. unfold main. rewrite Hs. cbv zeta. fold client.
    rewrite Ha at 1. reflexivity. }
  assert (arg_command_arguments args = [] ->
          forall w', call_daily client (map PStr (arg_command_arguments args)) w'
                     = _call client "GET" "daily" PNone PNone w') as Hcd.
  { intros Ha w'. rewrite Ha. reflexivity. }
  assert (arg_show args = false ->
          arg_command_arguments args = [] ->
          (forall e, target_url client "GET" "profit" PNone = Raise e ->
                     filter is_request (events (main g args w)) = []
                     /\ requests_made (after (main g args w)) = requests_made w)
          /\ (forall e, json_dumps PNone = Raise e ->
                        filter is_request (events (main g args w)) = []
                        /\ requests_made (after (main g args w)) = requests_made w)
          /\ forall u1 b,
              target_url client "GET" "profit" PNone = Ok u1 ->
              json_dumps PNone = Ok b ->
              (forall e, http E (requests_made w) = HttpRaises e ->
                         is_connection_error e = false ->
                         filter is_request (events (main g args w))
                         = [EvRequest "GET" u1 hd_json b]
                         /\ requests_made (after (main g args w)) = S (requests_made w))
              /\ ((forall e, http E (requests_made w) = HttpRaises e ->
                             is_connection_error e = true) ->
                  (forall e, target_url client "GET" "daily" PNone = Raise e ->
                             filter is_request (events (main g args w))
                             = [EvRequest "GET" u1 hd_json b]
                             /\ requests_made (after (main g args w)) = S (requests_made w))
                  /\ forall u2,
                      target_url client "GET" "daily" PNone = Ok u2 ->
                      filter is_request (events (main g args w))
                      = [EvRequest "GET" u1 hd_json b; EvRequest "GET" u2 hd_json b]
                      /\ requests_made (after (main g args w))
                         = S (S (requests_made w)))) as Hplain.
  { intros Hs Ha. rewrite (Hmain Hs Ha). split; [|split].
    - intros e Hu. rewrite bind_run, call_run, Hu. split; reflexivity.
    - intros e Hj. rewrite bind_run.
      destruct (call_request_cases client "GET" "profit" PNone PNone w)
        as [(e1 & _ & Hr)|[(e1 & _ & Hf & Haf)|(u1 & b & _ & Hj1 & _)]].
      + rewrite Hr. split; reflexivity.
      + destruct (outcome (_call client "GET" "profit" PNone PNone w)) as [op|e'|c];
          cbn [events after]; [|split; [exact Hf | rewrite Haf; reflexivity]..].
        destruct (Hdaily op (after (_call client "GET" "profit" PNone PNone w))) as [H1 H2].
        rewrite filter_app, Hf, H1, H2, Haf, (Hcd Ha). clear H1 H2.
        destruct (call_request_cases client "GET" "daily" PNone PNone w)
          as [(e2 & _ & Hr2)|[(e2 & _ & Hf2 & Ha2)|(u2 & b2 & _ & Hj2 & _)]].
        * rewrite Hr2. split; reflexivity.
        * rewrite Hf2, Ha2. split; reflexivity.
        * rewrite Hj in Hj2. discriminate Hj2.
      + rewrite Hj in Hj1. discriminate Hj1.
    - intros u1 b Hu Hj. split.
      + intros e Hh Hc. rewrite bind_run, call_run, Hu, Hj. cbv zeta.
        rewrite Hh, Hc. split; reflexivity.
      + intros Hreturns.
        destruct (call_sent client "GET" "profit" PNone PNone u1 b w Hu Hj) as [Hf1 Hm1].
        assert (exists op, outcome (_call client "GET" "profit" PNone PNone w) = Returned op)
          as [op Hop].
        { rewrite call_run, Hu, Hj. cbv zeta.
          destruct (http E (requests_made w)) as [v|e] eqn:Hh; [eexists; reflexivity|].
          rewrite (Hreturns e eq_refl). eexists. reflexivity. }
        rewrite bind_run, Hop. cbn [events after].
        destruct (Hdaily op (after (_call client "GET" "profit" PNone PNone w))) as [H1 H2].
        rewrite filter_app, Hf1, H1, H2, (Hcd Ha). clear H1 H2. split.
        * intros e Hu2. rewrite call_run, Hu2. cbn [events after filter app].
          split; [reflexivity | exact Hm1].
        * intros u2 Hu2.
          destruct (call_sent client "GET" "daily" PNone PNone u2 b
                              (after (_call client "GET" "profit" PNone PNone w)) Hu2 Hj)
            as [Hf2 Hm2].
          rewrite Hf2, Hm2, Hm1. split; reflexivity. }
  split; [|split].
  - intros [Hs|Ha]; [exact (Hshow Hs)|].
    destruct (arg_show args) eqn:Hs; [exact (Hshow eq_refl) | exact (Hargs eq_refl Ha)].
  - exact Hplain.
  - destruct (arg_show args) eqn:Hs.
    { destruct (Hshow eq_refl) as [-> _]. apply Nat.le_0_l. }
    destruct (arg_command_arguments args) as [|a rest] eqn:Ha.
    2:{ assert (a :: rest <> []) as Hne by discriminate.
        destruct (Hargs eq_refl Hne) as [-> _]. apply Nat.le_0_l. }
    destruct (Hplain eq_refl eq_refl) as (Hp1 & Hp2 & Hp3).
    destruct (target_url client "GET" "profit" PNone) as [u1|e] eqn:Hu;
      [|destruct (Hp1 e eq_refl) as [-> _]; apply Nat.le_0_l].
    destruct (json_dumps PNone) as [b|e] eqn:Hj;
      [|destruct (Hp2 e eq_refl) as [-> _]; apply Nat.le_0_l].
    destruct (Hp3 u1 b eq_refl eq_refl) as [Hq1 Hq2].
    destruct (http E (requests_made w)) as [v|e] eqn:Hh.
    + assert (forall e, Response v = HttpRaises e -> is_connection_error e = true) as Hr
          by (intros e He; discriminate He).
      destruct (Hq2 Hr) as [Hd1 Hd2].
      destruct (target_url client "GET" "daily" PNone) as [u2|e2] eqn:Hu2.
      * destruct (Hd2 u2 eq_refl) as [-> _]. apply Nat.le_refl.
      * destruct (Hd1 e2 eq_refl) as [-> _]. apply Nat.le_succ_diag_r.
    + destruct (is_connection_error e) eqn:Hc.
      * assert (forall e', HttpRaises e = HttpRaises e' -> is_connection_error e' = true)
          as Hr by (intros e' He; injection He as <-; exact Hc).
        destruct (Hq2 Hr) as [Hd1 Hd2].
        destruct (target_url client "GET" "daily" PNone) as [u2|e2] eqn:Hu2.
        -- destruct (Hd2 u2 eq_refl) as [-> _]. apply Nat.le_refl.
        -- destruct (Hd1 e2 eq_refl) as [-> _]. apply Nat.le_succ_diag_r.
      * destruct (Hq1 e eq_refl Hc) as [-> _]. apply Nat.le_succ_diag_r.
Qed.

(** ** Start-up *)

Lemma api_server_get_absent d k :
  lookup "api_server" d = None -> api_server_get (PDict d) k = Ok PNone.
Proof. intros H. unfold api_server_get, dict_get. rewrite H. reflexivity. Qed.

Lemma startup_unconfigured args d w :
  files E (arg_config args) = Loaded (PDict d) ->
  lookup "api_server" d = None ->
  startup args w
  = mk_run [EvPrint "Database saving configured to None";
            EvPrint "Tweeting configured to None"]
           (Returned (unconfigured (PDict d))) w.
Proof.
  intros Hf Hl. unfold startup, load_config. rewrite Hf, bind_ret.
  do 9 (rewrite bind_lift, (api_server_get_absent d _ Hl); cbn [events outcome after]).
  reflexivity.
Qed.

(** X16. A configuration file that is a JSON object without the section
    [api_server] is accepted at start-up: every setting is [None], and the
    two start-up lines say so. The script then dies in its first turn:
    [time.sleep(None)] raises a [TypeError] that nothing catches, also with
    [--show]. Before that it has published nothing and slept never. *)
Theorem config_without_api_server_stops_the_script args d w n :
  files E (arg_config args) = Loaded (PDict d) ->
  lookup "api_server" d = None ->
  let r := script (S n) args w in
  outcome (startup args w) = Returned (unconfigured (PDict d))
  /\ outcome r
     = Raised (mk_exn TypeError "'NoneType' object cannot be interpreted as an integer")
  /\ exit_status (outcome r) = Some 1
  /\ printed (firstn 2 (events r))
     = ["Database saving configured to None"; "Tweeting configured to None"]
  /\ filter is_publish (events r) = []
  /\ filter is_sleep (events r) = [].
Proof.
  intros Hf Hl. cbv zeta. unfold script.
  rewrite bind_run, (startup_unconfigured args d w Hf Hl). cbn [outcome events after].
  destruct (cycle_bad_interval (unconfigured (PDict d)) args w _ eq_refl) as (_ & Hq & Hn).
  destruct (Hn n) as (H1 & H2 & _). rewrite H1, H2.
  split; [reflexivity|]. split; [reflexivity|]. split; [reflexivity|].
  split; [reflexivity|]. cbn [app filter is_publish is_sleep]. split; [|exact Hq].
  apply cycle_avoids; [reflexivity | reflexivity|].
  apply main_avoids; try reflexivity; intros H; discriminate H.
Qed.

Lemma api_server_get_bad_section d v k :
  lookup "api_server" d = Some v ->
  (forall d', v <> PDict d') ->
  api_server_get (PDict d) k
  = Raise (mk_exn AttributeError ("'" ++ type_name v ++ "' object has no attribute 'get'")).
Proof.
  intros Hl Hv. unfold api_server_get, dict_get. rewrite Hl. cbn [rbind].
  destruct v; try reflexivity. exfalso. exact (Hv _ eq_refl).
Qed.

(** X17. A configuration of the wrong shape stops the script at start-up,
    before the loop and without a line printed: when the file holds JSON
    that is no object (a list, a string, a number, [null]), or when its
    [api_server] is no object, the first [.get] raises [AttributeError],
    which names the type found. *)
Theorem config_of_the_wrong_shape_stops_start_up args c w n :
  files E (arg_config args) = Loaded c ->
  ((forall d, c <> PDict d) ->
   script n args w
   = mk_run [] (Raised (mk_exn AttributeError
                               ("'" ++ type_name c ++ "' object has no attribute 'get'"))) w)
  /\ (forall d v,
         c = PDict d -> lookup "api_server" d = Some v -> (forall d', v <> PDict d') ->
         script n args w
         = mk_run [] (Raised (mk_exn AttributeError
                                     ("'" ++ type_name v ++ "' object has no attribute 'get'")))
                  w).
Proof.
  intros Hf. split.
  - intros Hc. unfold script, startup, load_config.
    rewrite bind_run, Hf, bind_ret, bind_lift.
    destruct c; try reflexivity. exfalso. exact (Hc _ eq_refl).
  - intros d v -> Hl Hv. unfold script, startup, load_config.
    rewrite bind_run, Hf, bind_ret, bind_lift.
    rewrite (api_server_get_bad_section d v _ Hl Hv). reflexivity.
Qed.

(** ** How a turn fails *)

(** X18. Only a connection error lets a turn go on. When the profit fetch
    raises any other exception (a timeout, a body that is no JSON), [main]
    raises it at once: the daily summary is not asked for. When the profit
    fetch fails to connect, [main] goes on with [None] for the profit
    summary and still asks for the daily summary. *)
Theorem only_a_connection_error_reaches_the_second_fetch g args w e u1 u2 b :
  let client := new_client (PStr ("http://" ++ py_str (url g) ++ ":" ++ py_str (port g)))
                           (username g) (password g) in
  arg_show args = false ->
  arg_command_arguments args = [] ->
  target_url client "GET" "profit" PNone = Ok u1 ->
  target_url client "GET" "daily" PNone = Ok u2 ->
  json_dumps PNone = Ok b ->
  http E (requests_made w) = HttpRaises e ->
  (is_connection_error e = false ->
   main g args w = mk_run [EvRequest "GET" u1 hd_json b] (Raised e) (one_more_request w))
  /\ (is_connection_error e = true ->
      filter is_request (events (main g args w))
      = [EvRequest "GET" u1 hd_json b; EvRequest "GET" u2 hd_json b]
      /\ In (EvWarning "Connection error") (events (main g args w))).
Proof.
  cbv zeta. intros Hshow Hargs Hu1 Hu2 Hj Hh.
  unfold main. rewrite Hshow, Hargs. cbn [map call_profit call_daily].
  unfold profit, daily, _get. change (daily_params PNone) with PNone.
  rewrite bind_run, call_run, Hu1, Hj. cbv zeta. rewrite Hh. split; intros Hc; rewrite Hc.
  - reflexivity.
  - cbn [outcome events after]. fold (one_more_request w). split.
    + match goal with
      | |- context [bind (_call ?c "GET" "daily" PNone PNone) ?k ?w1] =>
          destruct (bind_requests (_call c "GET" "daily" PNone PNone) k w1) as [Hf _]
      end.
      { intros od w'. split.
        - apply avoids_bind; [apply avoids_lift|]. intros odd _.
          apply publishers_avoid; intros _;
            repeat (split; [intros; reflexivity|]); intros; reflexivity.
        - apply keeps_bind; [apply keeps_lift|]. intros odd _.
          apply publishers_keep; [intros _ w''; reflexivity|].
          intros _. split; intros; reflexivity. }
      rewrite filter_app, Hf.
      change (filter is_request [EvRequest "GET" u1 hd_json b; EvWarning "Connection error"])
        with [EvRequest "GET" u1 hd_json b].
      match goal with
      | |- context [_call ?c "GET" "daily" PNone PNone ?w1] =>
          destruct (call_request_cases c "GET" "daily" PNone PNone w1)
            as [(e2 & Hr2 & _)|[(e2 & Hj2 & _)|(u2' & b2 & Hu2' & Hj2 & Hf2 & _)]]
      end.
      * rewrite Hu2 in Hr2. discriminate Hr2.
      * rewrite Hj in Hj2. discriminate Hj2.
      * rewrite Hf2. rewrite Hu2 in Hu2'. injection Hu2' as <-.
        rewrite Hj in Hj2. injection Hj2 as <-. reflexivity.
    + right. left. reflexivity.
Qed.

(** X19. Every turn of the loop ends with one line and one sleep. Without
    [--show] and with an interval [time.sleep] accepts, the last two
    events of a turn are a printed line and the sleep; the line is
    [Sleeping for <run_interval / 60> minutes] when [main] returned, and
    [An error occurred: <message>, skipping run] with the message of the
    exception that [main] (or the division) raised. *)
Theorem every_turn_reports_before_it_sleeps g args w :
  arg_show args = false ->
  sleep_error (run_interval g) = None ->
  exists (tr : list event) line,
    events (cycle g args w) = (tr ++ [EvPrint line; EvSleep (run_interval g)])%list
    /\ ((outcome (main g args w) = Returned tt
         /\ exists minutes,
             div_int (run_interval g) 60 = Ok minutes
             /\ line = "Sleeping for " ++ py_str (PFloat minutes) ++ " minutes")
        \/ exists e,
            line = "An error occurred: " ++ exn_msg e ++ ", skipping run"
            /\ (outcome (main g args w) = Raised e
                \/ (outcome (main g args w) = Returned tt
                    /\ div_int (run_interval g) 60 = Raise e))).
Proof.
  intros Hshow Hs. rewrite (cycle_run g args w Hs). cbv zeta.
  pose proof (main_stays g args w Hshow) as Hstay.
  unfold cycle_body. rewrite bind_run.
  destruct (outcome (main g args w)) as [[]|e|c] eqn:Hm.
  - rewrite bind_lift. destruct (div_int (run_interval g) 60) as [minutes|e] eqn:Hd;
      cbn [outcome events after print emit].
    + exists (events (main g args w)). eexists. split.
      * rewrite <- app_assoc. reflexivity.
      * left. split; [reflexivity|]. exists minutes. split; reflexivity.
    + exists (events (main g args w) ++ [])%list. eexists. split; [reflexivity|].
      right. exists e. split; [reflexivity|]. right. split; reflexivity.
  - cbn [outcome events after]. exists (events (main g args w)). eexists.
    split; [reflexivity|]. right. exists e. split; [reflexivity|]. left. reflexivity.
  - exfalso. exact (Hstay c Hm).
Qed.

(** ** A turn that publishes *)

(** A call that returns data has sent one request, and the data is the
    server's answer to it. *)
Lemma call_returned_data self method apipath params data w v :
  outcome (_call self method apipath params data w) = Returned v ->
  v <> PNone ->
  exists url body,
    _call self method apipath params data w
    = mk_run [EvRequest method url hd_json body] (Returned v) (one_more_request w)
    /\ http E (requests_made w) = Response v.
Proof.
  rewrite call_run.
  destruct (target_url self method apipath params) as [url|e]; [|discriminate].
  destruct (json_dumps data) as [body|e].
  - cbv zeta. destruct (http E (requests_made w)) as [v'|e] eqn:Hh.
    + intros H _. injection H as ->. exists url, body. split; reflexivity.
    + destruct (is_connection_error e); cbn [outcome]; intros H Hv; [|discriminate H].
      injection H as <-. exfalso. apply Hv. reflexivity.
  - destruct (is_connection_error e); cbn [outcome]; intros H Hv; [|discriminate H].
    injection H as <-. exfalso. apply Hv. reflexivity.
Qed.

(** X20. A turn of [main] that returns with both publishers on has
    published exactly once: the profit summary and the daily summary are
    the server's answers to the two requests of the turn, the one status
    update carries the report composed from them, and the one row appended
    to the table is what sqlite3 stores, under the affinities of the
    columns, for the tuple computed from the same two summaries and the
    reading of the clock. Nothing else was published, and the status went
    out before the database was opened. *)
Theorem returned_turn_publishes_once g args w :
  truthy (send_tweet g) = true ->
  truthy (save_to_db g) = true ->
  outcome (main g args w) = Returned tt ->
  exists op daily_answer odd text m row,
    http E (requests_made w) = Response op
    /\ http E (S (requests_made w)) = Response daily_answer
    /\ (data <- getitem_key daily_answer "data" ;; getitem_first data)%result = Ok odd
    /\ report_text op odd (starting_capital g) (position_size g) = Ok text
    /\ derived_metrics op odd (starting_capital g) (position_size g) = Ok m
    /\ insert_params (clock E (clock_reads w)) op odd m = Ok row
    /\ filter is_publish (events (main g args w))
       = [EvUpdateStatus text; EvSqlConnect "history.db"; EvSqlExecute SQL_CREATE [];
          EvSqlCommit; EvSqlExecute SQL_INSERT row; EvSqlCommit]
    /\ List.length (filter is_request (events (main g args w))) = 2%nat
    /\ requests_made (after (main g args w)) = S (S (requests_made w))
    /\ updates_made (after (main g args w)) = S (updates_made w)
    /\ db (after (main g args w))
       = Some {| columns := columns (table_after_create (db w));
                 rows := rows (table_after_create (db w))
                         ++ [stored_row (columns (table_after_create (db w))) row] |}.
Proof.
  intros Ht Hd H. unfold main in H |- *.
  destruct (arg_show args).
  { rewrite bind_run, print_commands_run in H. discriminate H. }
  cbv zeta in H |- *.
  destruct (arg_command_arguments args) as [|a rest]; cbn [map call_profit call_daily] in H |- *.
  2:{ unfold arity_error in H. rewrite bind_lift in H. discriminate H. }
  unfold profit, daily, _get in H |- *.
  change (daily_params PNone) with PNone in H |- *.
  rewrite Ht, Hd in H |- *.
  set (client := new_client (PStr ("http://" ++ py_str (url g) ++ ":" ++ py_str (port g)))
                            (username g) (password g)) in H |- *.
  apply bind_returned in H as (op & HP & H & -> & ->).
  apply bind_returned in H as (daily_answer & HD & H & -> & ->).
  apply bind_returned in H as (odd & Hodd & H & -> & ->).
  apply lift_returned in Hodd. cbn [lift events after] in H |- *.
  apply bind_returned in H as ([] & HT & H & -> & ->).
  pose proof (tweet_cases (config g) op odd (starting_capital g) (position_size g)
                (after (_call client "GET" "daily" PNone PNone
                              (after (_call client "GET" "profit" PNone PNone w))))) as Hc.
  cbv zeta in Hc.
  destruct Hc as [(text & Hr & Hev & Ho & Ha)|(_ & (e & Ho) & _)];
    [|rewrite Ho in HT; discriminate HT].
  assert (op <> PNone) as Hop.
  { intros ->. destruct (report_text_none odd (starting_capital g) (position_size g))
      as [e He]. rewrite He in Hr. discriminate Hr. }
  assert (daily_answer <> PNone) as Hda.
  { intros ->. rewrite getitem_data_none in Hodd. discriminate Hodd. }
  destruct (call_returned_data _ _ _ _ _ _ _ HP Hop) as (u1 & b1 & HPrun & Hh1).
  rewrite HPrun in HD, H, Hev, Ha |- *. cbn [events after] in HD, H, Hev, Ha |- *.
  destruct (call_returned_data _ _ _ _ _ _ _ HD Hda) as (u2 & b2 & HDrun & Hh2).
  rewrite HDrun in H, Hev, Ha |- *. cbn [events after] in H, Hev, Ha |- *.
  rewrite Ha in H |- *. rewrite Hev.
  destruct (db_save_returned _ _ _ _ _ _ H) as (m & row & Hm & Hrow & _ & Hdb & Hsv & _ & _).
  rewrite Hsv, Hdb.
  exists op, daily_answer, odd, text, m, row.
  split; [exact Hh1|]. split; [exact Hh2|]. split; [exact Hodd|]. split; [exact Hr|].
  split; [exact Hm|]. split; [exact Hrow|].
  split; [reflexivity|]. split; [reflexivity|]. split; [|split].
  - match goal with
    | |- requests_made (after (db_save ?c ?a ?b ?d ?f ?w0)) = _ =>
        rewrite (db_save_keeps requests_made c a b d f w0)
          by (intros; reflexivity)
    end.
    reflexivity.
  - match goal with
    | |- updates_made (after (db_save ?c ?a ?b ?d ?f ?w0)) = _ =>
        rewrite (db_save_keeps updates_made c a b d f w0)
          by (intros; reflexivity)
    end.
    reflexivity.
  - reflexivity.
Qed.

End Bot.

(** * Closed examples

    Each statement below is run on the data of [Sample]. *)

Abbreviation sample_percentage := (percentage Sample.repr Sample.float_of_string).
Abbreviation sample_float := (py_float Sample.repr Sample.float_of_string).

(** C3, witness: [percentage(50, 1100)] is ["4.55"], which reads back as
    455 hundredths. *)
Lemma percentage_two_decimals_witness :
  sample_percentage (PInt 50) (PInt 1100) = Ok "4.55"
  /\ PyFloat.parse_fixed2 "4.55" = Some (false, 455).
Proof.
  pose proof (percentage_two_decimals Sample.repr Sample.float_of_string
                (PInt 50) (PInt 1100) _ _ eq_refl eq_refl) as H.
  cbv zeta in H. destruct H as [_ H]. destruct (H eq_refl) as [H1 _].
  split; [exact H1 | reflexivity].
Defined.

(** C3, counterexample: with [whole] not zero the result need not have two
    decimal places. The float [1e307] is finite and [1] is not zero, but
    [100 * 1e307] overflows, so [percentage(1e307, 1)] is ["inf"], which is
    no two-decimal text. *)
Lemma percentage_overflow_counterexample :
  let part := PFloat (PyFloat.of_Z (10 ^ 307)) in
  let whole := PInt 1 in
  sample_float part = Ok (PyFloat.of_Z (10 ^ 307))
  /\ PyFloat.is_finite (PyFloat.of_Z (10 ^ 307)) = true
  /\ sample_float whole = Ok (PyFloat.of_Z 1)
  /\ PyFloat.is_zero (PyFloat.of_Z 1) = false
  /\ sample_percentage part whole = Ok "inf"
  /\ PyFloat.parse_fixed2 "inf" = None.
Proof. cbv zeta. repeat (split; [vm_compute; reflexivity|]). reflexivity. Qed.

(** The quotient that is formatted is the binary64 one: [100 * 3 / 20000]
    is the float just below 0.015, so the text is ["0.01"]. *)
Example percentage_rounds_the_binary_quotient :
  sample_percentage (PInt 3) (PInt 20000) = Ok "0.01"
  /\ sample_percentage (PInt 1) (PInt 800) = Ok "0.12"
  /\ sample_percentage (PInt (-1)) (PInt 80000000) = Ok "-0.00".
Proof. repeat split; reflexivity. Qed.

Abbreviation sample_report := (report_text Sample.repr Sample.float_of_string).

(** C4, witness: the general part applied to the worked example. *)
Lemma position_size_over_current_capital_witness :
  exists current_capital,
    add_float (PInt 1000) (PyFloat.of_Z 100) = Ok current_capital
    /\ sample_percentage (PInt 50) (PFloat current_capital) = Ok "4.55"
    /\ sample_percentage (PInt 50) (PInt 1000) = Ok "5.00".
Proof.
  destruct (proj1 (position_size_over_current_capital Sample.repr Sample.float_of_string)
              Sample.profit_summary Sample.daily_summary (PInt 1000) (PInt 50) _ eq_refl)
    as (abs_profit & closed & all & best & closed_float & cc & _ & Hc & _ & _ & Hf & Ha & _
        & _ & _ & Hp & _).
  injection Hc as <-. injection Hf as <-.
  exists cc. split; [exact Ha|]. split; [exact Hp | reflexivity].
Defined.



(** Large and negative amounts change the digits, not the shape. *)
Example report_of_large_loss :
  rmap (split_char newline)
       (sample_report (Sample.profit_of (-250) (-10 ^ 12) (-3)) (Sample.daily_of (-7))
                      (PInt 1000) (PInt 50))
  = Ok [ "Closed profit today (2024-01-01): -0.70%";
         "Trades today: 2";
         "Open/closed total profit: -100000000000.00%/-25.00%";
         "Position size: 6.67%";
         "Best: ETH/BTC (-0.30%)";
         "All trades/closed: 10/8";
         "Last action: 2024-01-01";
         "Average trade duration: 2:30" ].
Proof. reflexivity. Qed.

(** ** The scheduler on sample worlds *)

Module Run.

Definition globals_of (send_tweet save_to_db : bool) : globals :=
  {| config := Sample.api_server send_tweet save_to_db;
     url := PStr "localhost"; port := PInt 8080;
     username := PStr "freqtrader"; password := PStr "secret";
     save_to_db := PBool save_to_db; send_tweet := PBool send_tweet;
     starting_capital := PInt 1000; position_size := PInt 50;
     run_interval := PInt 600 |}.

Definition cycle (E : env) : globals -> Args -> cmd unit :=
  cycle Sample.repr Sample.float_of_string Sample.urlencode Sample.json_dumps
        Sample.urlparse Sample.urlunparse E.

Definition poll_loop (E : env) : nat -> globals -> Args -> cmd unit :=
  poll_loop Sample.repr Sample.float_of_string Sample.urlencode Sample.json_dumps
            Sample.urlparse Sample.urlunparse E.

Definition script (E : env) : nat -> Args -> cmd unit :=
  script Sample.repr Sample.float_of_string Sample.urlencode Sample.json_dumps
         Sample.urlparse Sample.urlunparse Sample.path_str E.

Definition call (E : env) : FtRestClient -> string -> string -> pyval -> pyval -> cmd pyval :=
  _call Sample.repr Sample.urlencode Sample.json_dumps Sample.urlparse Sample.urlunparse E.

Definition client : FtRestClient :=
  new_client (PStr "http://localhost:8080") (PStr "freqtrader") (PStr "secret").

(** Both publishers on, the server down. *)
Definition down : env := Sample.world_of (Sample.api_server true true) Sample.always_down.

(** Both publishers on, the server up. *)
Definition up : env := Sample.world_of (Sample.api_server true true) Sample.always_up.

(** The server up for the first cycle only. *)
Definition flaky : env := Sample.world_of (Sample.api_server true true) Sample.up_then_down.

(** The server up, the status update refused. *)
Definition rejected : env :=
  {| http := Sample.always_up;
     tweepy_setup := fun _ _ _ _ => None;
     status_update := fun _ => Some (mk_exn (LibraryError "tweepy.TweepError") "Rate limit exceeded");
     sqlite_fault := fun _ => None;
     clock := fun _ => PyFloat.of_Z 1700000000;
     files := files up;
     sqlite_number := Sample.read_number;
     sqlite_real_text := Sample.real_text |}.

End Run.

(** C1, witness: the server is down, both publishers are on. The cycle
    makes its two requests, publishes nothing, reports the error, sleeps
    and returns. *)
Lemma no_publish_without_data_witness :
  let r := Run.cycle Run.down (Run.globals_of true true) (Sample.args false "config.json")
                     (initial_world None) in
  no_publish (events r) /\ db (after r) = None /\ updates_made (after r) = 0%nat
  /\ outcome r = Returned tt
  /\ printed (events r)
     = ["An error occurred: 'NoneType' object is not subscriptable, skipping run"].
Proof.
  pose proof (no_publish_without_data
                Sample.repr Sample.float_of_string Sample.urlencode Sample.json_dumps
                Sample.urlparse Sample.urlunparse Run.down
                (Run.globals_of true true) (Sample.args false "config.json")
                (initial_world None) (or_introl eq_refl)) as H.
  cbv zeta in H. destruct H as [(H1 & H2 & H3) H4].
  destruct (H4 eq_refl eq_refl) as (H5 & _ & _).
  cbv zeta. split; [exact H1|]. split; [exact H2|]. split; [exact H3|].
  split; [exact H5 | reflexivity].
Defined.

(** The same when only the daily fetch yields nothing. *)
Example no_publish_when_daily_is_null :
  let E := Sample.world_of (Sample.api_server true true)
             (fun n => match n with
                       | O => Response Sample.profit_summary
                       | _ => Response PNone
                       end) in
  let r := Run.cycle E (Run.globals_of true true) (Sample.args false "config.json")
                     (initial_world None) in
  filter is_publish (events r) = [] /\ outcome r = Returned tt.
Proof. split; reflexivity. Qed.

(** C2, witness: the status update is refused. The cycle reports the
    provider's message and sleeps, and the loop is still running after
    three cycles. *)
Lemma cycle_errors_are_contained_witness :
  let g := Run.globals_of true true in
  let args := Sample.args false "config.json" in
  let r := Run.cycle Run.rejected g args (initial_world None) in
  outcome r = Returned tt
  /\ (exists tr : list event, events r = (tr ++ [EvSleep (PInt 600)])%list)
  /\ In "An error occurred: Rate limit exceeded, skipping run" (printed (events r))
  /\ outcome (Run.poll_loop Run.rejected 3 g args (initial_world None)) = Returned tt.
Proof.
  destruct (proj2 (cycle_errors_are_contained
                     Sample.repr Sample.float_of_string Sample.urlencode Sample.json_dumps
                     Sample.urlparse Sample.urlunparse Sample.path_str Run.rejected
                     (Run.globals_of true true) (Sample.args false "config.json")) eq_refl)
    as (H1 & H2 & H3).
  destruct (H3 eq_refl) as [H4 _].
  cbv zeta. split; [|split; [|split]].
  - unfold Run.cycle. rewrite (H1 (initial_world None) _ eq_refl). reflexivity.
  - exact (H2 (initial_world None)).
  - vm_compute. tauto.
  - exact (H4 3%nat (initial_world None)).
Defined.

(** A computation error is contained in the same way: with the whole
    capital lost the percentage divides by zero. *)
Example division_by_zero_is_contained :
  let E := Sample.world_of (Sample.api_server true true)
             (fun n => if Nat.even n then Response Sample.wiped_out
                       else Response Sample.daily_response) in
  let r := Run.cycle E (Run.globals_of true true) (Sample.args false "config.json")
                     (initial_world None) in
  printed (events r) = ["Tweeting..."; "An error occurred: float division by zero, skipping run"]
  /\ outcome r = Returned tt.
Proof. split; reflexivity. Qed.

(** C6, witness: [--show] with the sample configuration, the loop given
    five turns. The process ends with status 0, the eighteen commands
    are listed after the two start-up lines, and the server, which is up,
    is never asked. *)
Lemma show_lists_commands_and_exits_witness :
  let r := Run.script Run.up 5 (Sample.args true "config.json") (initial_world None) in
  exit_status (outcome r) = Some 0
  /\ filter is_network (events r) = []
  /\ filter is_publish (events r) = []
  /\ List.length (printed (events r)) = 21%nat
  /\ requests_made (after r) = 0%nat.
Proof.
  destruct (proj2 (show_lists_commands_and_exits
                     Sample.repr Sample.float_of_string Sample.urlencode Sample.json_dumps
                     Sample.urlparse Sample.urlunparse Sample.path_str Run.up
                     (Sample.args true "config.json") (initial_world None))
                  eq_refl (Run.globals_of true true) 4%nat eq_refl eq_refl)
    as (H1 & H2 & H3 & H4 & H5).
  cbv zeta. split; [exact H1|]. split; [exact H2|]. split; [exact H3|].
  split; [unfold Run.script; rewrite H4; reflexivity|].
  unfold Run.script. rewrite H5. reflexivity.
Defined.

(** C6, counterexample: with [--show] the script does not always list the
    commands and exit with status 0 before the loop. Without a
    configuration file it exits with status 1 and lists nothing; with one,
    the exit is raised inside the first turn of the loop, whose sleep
    step runs before the process ends. *)
Lemma show_counterexample :
  (let r := Run.script Run.up 1 (Sample.args true "missing.json") (initial_world None) in
   exit_status (outcome r) = Some 1 /\ printed (events r) = [])
  /\ (let r := Run.script Run.up 1 (Sample.args true "config.json") (initial_world None) in
      filter is_sleep (events r) = [EvSleep (PInt 600)]
      /\ last (events r) (EvPrint "") = EvSleep (PInt 600)).
Proof. split; split; reflexivity. Qed.

(** C8, witness: [PATCH] is refused before anything happens, [get] is
    let through. *)
Lemma call_checks_the_upper_cased_verb_witness :
  Run.call Run.up Run.client "PATCH" "profit" PNone PNone (initial_world None)
  = mk_run [] (Raised (mk_exn ValueError "invalid method <PATCH>")) (initial_world None)
  /\ outcome (Run.call Run.up Run.client "get" "profit" PNone PNone (initial_world None))
     = Returned Sample.profit_summary.
Proof.
  split.
  - exact (proj1 (call_checks_the_upper_cased_verb
                    Sample.repr Sample.urlencode Sample.json_dumps Sample.urlparse
                    Sample.urlunparse Run.up Run.client "PATCH" "profit" PNone PNone
                    (initial_world None) eq_refl) eq_refl).
  - reflexivity.
Defined.

(** The verb is read without regard to case and sent as it was written:
    [get] is the verb GET, and the call sends the request and returns the
    response. *)
Example lowercase_verb_is_sent :
  let r := Run.call Run.up Run.client "get" "profit" PNone PNone (initial_world None) in
  in_tuple (upper "get") valid_methods = true
  /\ outcome r = Returned Sample.profit_summary
  /\ events r = [EvRequest "get" "http://localhost:8080/api/v1/profit" hd_json "null"].
Proof. repeat split. Qed.


(** An exception that is no connection error is not swallowed. *)
Example timeout_is_raised :
  let E := Sample.world_of (Sample.api_server true true)
             (fun _ => HttpRaises (mk_exn (LibraryError "requests.exceptions.ReadTimeout")
                                          "Read timed out.")) in
  outcome (Run.call E Run.client "GET" "profit" PNone PNone (initial_world None))
  = Raised (mk_exn (LibraryError "requests.exceptions.ReadTimeout") "Read timed out.").
Proof. reflexivity. Qed.

(** C10, witness: [daily(0)] is [daily()] and asks for [/api/v1/daily];
    [daily(7)] asks for [/api/v1/daily?timescale=7]. *)
Lemma daily_timescale_only_when_truthy_witness :
  daily_params (PInt 0) = PNone
  /\ daily Sample.repr Sample.urlencode Sample.json_dumps Sample.urlparse
           Sample.urlunparse Run.up Run.client (PInt 0)
     = daily Sample.repr Sample.urlencode Sample.json_dumps Sample.urlparse
             Sample.urlunparse Run.up Run.client PNone
  /\ filter is_request
       (events (daily Sample.repr Sample.urlencode Sample.json_dumps Sample.urlparse
                      Sample.urlunparse Run.up Run.client (PInt 0) (initial_world None)))
     = [EvRequest "GET" "http://localhost:8080/api/v1/daily" hd_json "null"]
  /\ daily_params (PInt 7) = PDict [("timescale", PInt 7)]
  /\ filter is_request
       (events (daily Sample.repr Sample.urlencode Sample.json_dumps Sample.urlparse
                      Sample.urlunparse Run.up Run.client (PInt 7) (initial_world None)))
     = [EvRequest "GET" "http://localhost:8080/api/v1/daily?timescale=7" hd_json "null"].
Proof.
  pose proof (daily_timescale_only_when_truthy
                Sample.repr Sample.urlencode Sample.json_dumps Sample.urlparse
                Sample.urlunparse Run.up Run.client) as H.
  destruct (proj1 (H (PInt 0)) eq_refl) as (H1 & H2 & _ & H3).
  destruct (proj2 (H (PInt 7)) eq_refl) as (H4 & _ & H5 & _).
  split; [exact H1|]. split; [exact H2|].
  split; [exact (H3 (initial_world None) _ _ eq_refl eq_refl)|].
  split; [exact H4|].
  exact (H5 (initial_world None) _ _ _ eq_refl eq_refl eq_refl).
Defined.

Example daily_requests :
  events (daily Sample.repr Sample.urlencode Sample.json_dumps Sample.urlparse
                Sample.urlunparse Run.up Run.client (PInt 0) (initial_world None))
  = [EvRequest "GET" "http://localhost:8080/api/v1/daily" hd_json "null"]
  /\ events (daily Sample.repr Sample.urlencode Sample.json_dumps Sample.urlparse
                   Sample.urlunparse Run.up Run.client (PInt 7) (initial_world None))
     = [EvRequest "GET" "http://localhost:8080/api/v1/daily?timescale=7" hd_json "null"].
Proof. split; reflexivity. Qed.

(** C5. The row [db_save] appends for the worked example, read by column
    name: the column [best_pair] holds the percentage ["2.00"] and the
    column [best_pair_profit_percentage] holds the pair ["ETH/BTC"]; the
    eleven other columns hold the values their names tell, as their
    affinity stores them (in a [NUMERIC] column the clock reading
    1700000000.0 and the texts ["1.00"], ["10.00"], ["15.00"] are the
    integers 1700000000, 1, 10, 15, and ["4.55"] is the float 4.55). *)
Theorem db_save_swaps_best_pair_columns :
  let r := db_save Sample.repr Sample.float_of_string Run.up
                   (Sample.api_server true true)
                   Sample.profit_summary Sample.daily_summary (PInt 1000) (PInt 50)
                   (initial_world None) in
  outcome r = Returned tt
  /\ exists row,
      db (after r) = Some {| columns := trades_schema; rows := [row] |}
      /\ field trades_columns row "best_pair" = Some (PStr "2.00")
      /\ field trades_columns row "best_pair_profit_percentage" = Some (PStr "ETH/BTC")
      /\ map (field trades_columns row)
             [ "timestamp"; "day"; "closed_profit_today"; "trades_today";
               "closed_profit_percentage_total"; "open_profit_percentage_total";
               "position_size"; "all_trades"; "closed_trades"; "last_action";
               "average_duration" ]
         = map Some
             [ PInt 1700000000; PStr "2024-01-01"; PInt 1; PInt 2;
               PInt 10; PInt 15; PFloat (PyFloat.div (PyFloat.of_Z 455) (PyFloat.of_Z 100));
               PInt 10; PInt 8; PStr "2024-01-01"; PStr "2:30" ].
Proof.
  cbv zeta. split; [reflexivity|].
  eexists. split; [reflexivity|]. repeat split.
Qed.

(** Two turns of the loop against a server that is up for the first one
    only: the first publishes the report and appends one row, the second
    publishes nothing and leaves the row alone, and the loop is still
    running. *)
Example second_cycle_skips_publish :
  let g := Run.globals_of true true in
  let args := Sample.args false "config.json" in
  let first := Run.cycle Run.flaky g args (initial_world None) in
  let second := Run.cycle Run.flaky g args (after first) in
  let both := Run.poll_loop Run.flaky 2 g args (initial_world None) in
  List.length (filter is_publish (events first)) = 6%nat
  /\ filter is_publish (events second) = []
  /\ db (after second) = db (after first)
  /\ option_map (fun t => List.length (rows t)) (db (after both)) = Some 1%nat
  /\ outcome both = Returned tt
  /\ filter is_sleep (events both) = [EvSleep (PInt 600); EvSleep (PInt 600)].
Proof. cbv zeta. repeat (split; [vm_compute; reflexivity|]). vm_compute. reflexivity. Qed.


(** ** Further runs on sample worlds *)

Module Scene.

Definition main (E : env) : globals -> Args -> cmd unit :=
  main Sample.repr Sample.float_of_string Sample.urlencode Sample.json_dumps
       Sample.urlparse Sample.urlunparse E.

Definition tweet (E : env) : pyval -> pyval -> pyval -> pyval -> pyval -> cmd unit :=
  tweet Sample.repr Sample.float_of_string E.

Definition db_save (E : env) : pyval -> pyval -> pyval -> pyval -> pyval -> cmd unit :=
  db_save Sample.repr Sample.float_of_string E.

Definition trades (E : env) : FtRestClient -> pyval -> cmd pyval :=
  trades Sample.repr Sample.urlencode Sample.json_dumps Sample.urlparse Sample.urlunparse E.

Definition get (E : env) : FtRestClient -> string -> pyval -> cmd pyval :=
  _get Sample.repr Sample.urlencode Sample.json_dumps Sample.urlparse Sample.urlunparse E.

(** The report of the worked example. *)
Definition report : string :=
  join nl [ "Closed profit today (2024-01-01): 1.00%";
            "Trades today: 2";
            "Open/closed total profit: 15.00%/10.00%";
            "Position size: 4.55%";
            "Best: ETH/BTC (2.00%)";
            "All trades/closed: 10/8";
            "Last action: 2024-01-01";
            "Average trade duration: 2:30" ].

(** A profit summary without the field [avg_duration]. *)
Definition profit_without_duration : pyval :=
  PDict [ ("profit_closed_coin", PInt 100); ("profit_all_coin", PInt 150);
          ("best_rate", PInt 20); ("best_pair", PStr "ETH/BTC");
          ("trade_count", PInt 10); ("closed_trade_count", PInt 8);
          ("latest_trade_date", PStr "2024-01-01") ].

(** The sample settings with another interval. *)
Definition with_interval (interval : pyval) : globals :=
  {| config := Sample.api_server true true;
     url := PStr "localhost"; port := PInt 8080;
     username := PStr "freqtrader"; password := PStr "secret";
     save_to_db := PBool true; send_tweet := PBool true;
     starting_capital := PInt 1000; position_size := PInt 50;
     run_interval := interval |}.

(** A command line with one command argument. *)
Definition args_with_argument : Args :=
  {| arg_command := Some "daily"; arg_show := false; arg_config := "config.json";
     arg_command_arguments := ["7"] |}.

(** A configuration file without the section [api_server]. *)
Definition bare : env :=
  Sample.world_of (PDict [("exchange", PStr "binance")]) Sample.always_up.

(** A configuration file that holds a list, and one whose [api_server] is
    a string. *)
Definition listed : env := Sample.world_of (PList []) Sample.always_up.

Definition misplaced : env :=
  Sample.world_of (PDict [("api_server", PStr "localhost")]) Sample.always_up.

(** A configuration without [run_interval], and a server that is down. *)
Definition without_interval : env :=
  Sample.world_of
    (PDict [ ("api_server",
              PDict [ ("server_url", PStr "localhost"); ("listen_port", PInt 8080);
                      ("username", PStr "freqtrader"); ("password", PStr "secret");
                      ("save_to_db", PBool true); ("send_tweet", PBool true);
                      ("starting_capital", PInt 1000); ("position_size", PInt 50) ]) ])
    Sample.always_down.

(** A configuration whose [run_interval] is the text ["600"], and a server
    that is down. *)
Definition quoted_interval : env :=
  Sample.world_of
    (PDict [ ("api_server",
              PDict [ ("server_url", PStr "localhost"); ("listen_port", PInt 8080);
                      ("username", PStr "freqtrader"); ("password", PStr "secret");
                      ("save_to_db", PBool true); ("send_tweet", PBool true);
                      ("starting_capital", PInt 1000); ("position_size", PInt 50);
                      ("run_interval", PStr "600") ]) ])
    Sample.always_down.

Definition call (E : env) : FtRestClient -> string -> string -> pyval -> pyval -> cmd pyval :=
  _call Sample.repr Sample.urlencode Sample.json_dumps Sample.urlparse Sample.urlunparse E.

Definition read_timeout : exn :=
  mk_exn (LibraryError "requests.exceptions.ReadTimeout") "Read timed out.".

(** A server that accepts the connection and never answers. *)
Definition stalled : env :=
  Sample.world_of (Sample.api_server true true) (fun _ => HttpRaises read_timeout).

End Scene.

(** X1, witness: the description of [profit]. *)
Lemma help_text_has_no_return_line_witness :
  exists text,
    command_help ("profit", doc_returning "Return the profit summary." [] "json object")
    = "profit" ++ nl ++ tab ++ text ++ nl
    /\ occurs ":return:" text = false
    /\ ends_in_space text = false.
Proof.
  destruct (help_text_has_no_return_line
              "profit" (doc_returning "Return the profit summary." [] "json object") eq_refl)
    as (text & H1 & H2 & H3 & _).
  exists text. split; [exact H1|]. split; [exact H2 | exact H3].
Defined.

Example help_text_of_profit :
  command_help ("profit", doc_returning "Return the profit summary." [] "json object")
  = "profit" ++ nl ++ tab ++ "Return the profit summary." ++ nl
  /\ occurs ":return:" (doc_returning "Return the profit summary." [] "json object") = true.
Proof. split; reflexivity. Qed.

(** C1, counterexample: a cycle without data does not always go on to
    the sleep and to the next cycle. The server is down and the
    configuration holds no [run_interval]: start-up succeeds, the first
    cycle makes its two requests and publishes nothing, but
    [time.sleep(None)] raises in the [finally]: nothing sleeps, the loop
    makes no second turn though three are allowed, and the process ends
    with status 1. *)
Lemma no_data_cycle_without_sleep_counterexample :
  let r := Run.script Scene.without_interval 3 (Sample.args false "config.json")
                      (initial_world None) in
  no_data (http Scene.without_interval 0) = true
  /\ filter is_publish (events r) = []
  /\ filter is_sleep (events r) = []
  /\ List.length (filter is_request (events r)) = 2%nat
  /\ outcome r
     = Raised (mk_exn TypeError "'NoneType' object cannot be interpreted as an integer")
  /\ exit_status (outcome r) = Some 1.
Proof. cbv zeta. repeat (split; [vm_compute; reflexivity|]). vm_compute. reflexivity. Qed.

(** C2, counterexample: an error of a cycle can end the process after a
    start-up that succeeded. The configuration gives [run_interval] as the
    text ["600"]: start-up prints its two lines, the first cycle fails and
    prints its error, and then [time.sleep("600")] raises in the [finally]:
    the exception leaves the loop, nothing has slept, and the process ends
    with status 1. *)
Lemma cycle_error_ends_the_process_counterexample :
  let r := Run.script Scene.quoted_interval 3 (Sample.args false "config.json")
                      (initial_world None) in
  printed (events r)
  = [ "Database saving configured to True"; "Tweeting configured to True";
      "An error occurred: 'NoneType' object is not subscriptable, skipping run" ]
  /\ filter is_sleep (events r) = []
  /\ outcome r = Raised (mk_exn TypeError "'str' object cannot be interpreted as an integer")
  /\ exit_status (outcome r) = Some 1.
Proof. cbv zeta. repeat (split; [vm_compute; reflexivity|]). vm_compute. reflexivity. Qed.

(** X2, witness: a call that sends its one request, and a call whose verb
    is refused. *)
Lemma call_sends_at_most_one_request_witness :
  filter is_request
    (events (Scene.call Run.down Run.client "POST" "forcesell" PNone
                        (PDict [("tradeid", PInt 3)]) (initial_world None)))
  = [EvRequest "POST" "http://localhost:8080/api/v1/forcesell" hd_json "{}"]
  /\ requests_made
       (after (Scene.call Run.down Run.client "POST" "forcesell" PNone
                          (PDict [("tradeid", PInt 3)]) (initial_world None))) = 1%nat
  /\ Scene.call Run.down Run.client "PATCH" "forcesell" PNone PNone (initial_world None)
     = mk_run [] (Raised (mk_exn ValueError "invalid method <PATCH>")) (initial_world None).
Proof.
  pose proof (call_sends_at_most_one_request
                Sample.repr Sample.urlencode Sample.json_dumps Sample.urlparse
                Sample.urlunparse Run.down Run.client "POST" "forcesell" PNone
                (PDict [("tradeid", PInt 3)]) (initial_world None)) as H.
  cbv zeta in H. destruct H as (_ & _ & H & _).
  destruct (H _ _ eq_refl eq_refl) as [H1 H2].
  split; [exact H1|]. split; [unfold Scene.call; rewrite H2; reflexivity|].
  exact (proj1 (call_sends_at_most_one_request
                  Sample.repr Sample.urlencode Sample.json_dumps Sample.urlparse
                  Sample.urlunparse Run.down Run.client "PATCH" "forcesell" PNone PNone
                  (initial_world None)) _ eq_refl).
Defined.

(** X4, witness: [trades(0)] is the call with [params=None] and asks for
    [/api/v1/trades]; [trades(5)] asks for [/api/v1/trades?limit=5]. *)
Lemma trades_limit_only_when_truthy_witness :
  trades_params (PInt 0) = PInt 0
  /\ Scene.trades Run.up Run.client (PInt 0) = Scene.get Run.up Run.client "trades" PNone
  /\ filter is_request (events (Scene.trades Run.up Run.client (PInt 0) (initial_world None)))
     = [EvRequest "GET" "http://localhost:8080/api/v1/trades" hd_json "null"]
  /\ trades_params (PInt 5) = PDict [("limit", PInt 5)]
  /\ filter is_request (events (Scene.trades Run.up Run.client (PInt 5) (initial_world None)))
     = [EvRequest "GET" "http://localhost:8080/api/v1/trades?limit=5" hd_json "null"].
Proof.
  pose proof (trades_limit_only_when_truthy
                Sample.repr Sample.urlencode Sample.json_dumps Sample.urlparse
                Sample.urlunparse Run.up Run.client) as H.
  destruct (proj1 (H (PInt 0)) eq_refl) as (H1 & H2 & H3).
  destruct (proj2 (H (PInt 5)) eq_refl) as (H4 & H5 & _).
  split; [exact H1|]. split; [exact H2|].
  split; [exact (H3 (initial_world None) _ _ eq_refl eq_refl)|].
  split; [exact H4|].
  exact (H5 (initial_world None) _ _ _ eq_refl eq_refl eq_refl).
Defined.

Example trades_requests :
  events (Scene.trades Run.up Run.client PNone (initial_world None))
  = [EvRequest "GET" "http://localhost:8080/api/v1/trades" hd_json "null"]
  /\ events (Scene.trades Run.up Run.client (PInt 5) (initial_world None))
     = [EvRequest "GET" "http://localhost:8080/api/v1/trades?limit=5" hd_json "null"].
Proof. split; reflexivity. Qed.

(** X5, witness: the status posted for the worked example is its report. *)
Lemma tweet_posts_the_printed_report_witness :
  let r := Scene.tweet Run.up (Sample.api_server true true)
                       Sample.profit_summary Sample.daily_summary (PInt 1000) (PInt 50)
                       (initial_world None) in
  sample_report Sample.profit_summary Sample.daily_summary (PInt 1000) (PInt 50)
  = Ok Scene.report
  /\ events r = [EvPrint "Tweeting..."; EvPrint Scene.report; EvUpdateStatus Scene.report]
  /\ updates_made (after r) = 1%nat.
Proof.
  exact (proj1 (tweet_posts_the_printed_report
                  Sample.repr Sample.float_of_string Run.up (Sample.api_server true true)
                  Sample.profit_summary Sample.daily_summary (PInt 1000) (PInt 50)
                  (initial_world None))
               Scene.report (or_intror (or_intror (or_introl eq_refl)))).
Defined.

(** X7, witness: the save of the worked example on an empty database.
    The numeric columns hold numbers: the clock reading 1700000000.0 and
    the percentages ["1.00"], ["10.00"], ["15.00"] are stored as integers,
    ["4.55"] as a float; the text columns hold the texts. *)
Lemma db_save_appends_one_row_witness :
  let r := Scene.db_save Run.up (Sample.api_server true true)
                         Sample.profit_summary Sample.daily_summary (PInt 1000) (PInt 50)
                         (initial_world None) in
  db (after r)
  = Some {| columns := trades_schema;
            rows := [[ PInt 1700000000; PStr "2024-01-01"; PInt 1; PInt 2; PInt 10; PInt 15;
                       PFloat (PyFloat.div (PyFloat.of_Z 455) (PyFloat.of_Z 100));
                       PStr "2.00"; PStr "ETH/BTC"; PInt 10; PInt 8;
                       PStr "2024-01-01"; PStr "2:30" ]] |}
  /\ sqlite_calls (after r) = 5%nat.
Proof.
  destruct (db_save_appends_one_row
              Sample.repr Sample.float_of_string Run.up (Sample.api_server true true)
              Sample.profit_summary Sample.daily_summary (PInt 1000) (PInt 50)
              (initial_world None) eq_refl)
    as (m & row & Hm & Hrow & _ & Hdb & _ & Hcalls & _).
  vm_compute in Hm. injection Hm as <-.
  vm_compute in Hrow. injection Hrow as <-.
  cbv zeta. split; [exact Hdb | exact Hcalls].
Defined.

(** X8, witness: the profit summary lacks [avg_duration]. The table is
    created, the save raises [KeyError], and no row is there. *)
Lemma missing_field_creates_the_table_only_witness :
  let r := Scene.db_save Run.up (Sample.api_server true true)
                         Scene.profit_without_duration Sample.daily_summary
                         (PInt 1000) (PInt 50) (initial_world None) in
  outcome r = Raised (mk_exn KeyError "'avg_duration'")
  /\ db (after r) = Some {| columns := trades_schema; rows := [] |}
  /\ events r = [EvPrint "Saving to database..."; EvSqlConnect "history.db";
                 EvSqlExecute SQL_CREATE []; EvSqlCommit].
Proof.
  exact (missing_field_creates_the_table_only
           Sample.repr Sample.float_of_string Run.up (Sample.api_server true true)
           Scene.profit_without_duration Sample.daily_summary (PInt 1000) (PInt 50)
           (initial_world None) _ _ eq_refl eq_refl eq_refl eq_refl eq_refl).
Defined.

(** X10, witness: both publishers off, the server up, three turns. *)
Lemma disabled_publisher_is_never_run_witness :
  let r := Run.poll_loop Run.up 3 (Run.globals_of false false)
                         (Sample.args false "config.json") (initial_world None) in
  filter is_status_update (events r) = []
  /\ filter is_sqlite (events r) = []
  /\ db (after r) = None
  /\ requests_made (after r) = 6%nat.
Proof.
  pose proof (disabled_publisher_is_never_run
                Sample.repr Sample.float_of_string Sample.urlencode Sample.json_dumps
                Sample.urlparse Sample.urlunparse Run.up (Run.globals_of false false)
                (Sample.args false "config.json") 3 (initial_world None)) as H.
  cbv zeta in H. destruct H as [H1 H2].
  destruct (H1 eq_refl) as [H3 _]. destruct (H2 eq_refl) as (H4 & _ & _ & H5).
  cbv zeta. split; [exact H3|]. split; [exact H4|]. split; [exact H5 | reflexivity].
Defined.

(** X11, witness: three turns against a server that is down. *)
Lemma loop_sleeps_once_per_cycle_witness :
  filter is_sleep
    (events (Run.poll_loop Run.down 3 (Run.globals_of true true)
                           (Sample.args false "config.json") (initial_world None)))
  = [EvSleep (PInt 600); EvSleep (PInt 600); EvSleep (PInt 600)].
Proof.
  exact (loop_sleeps_once_per_cycle
           Sample.repr Sample.float_of_string Sample.urlencode Sample.json_dumps
           Sample.urlparse Sample.urlunparse Run.down (Run.globals_of true true)
           (Sample.args false "config.json") eq_refl eq_refl 3%nat (initial_world None)).
Defined.

(** X12, witness: an interval of -5 seconds. The first turn publishes the
    report and then ends the script. *)
Lemma bad_interval_ends_the_loop_witness :
  let g := Scene.with_interval (PInt (-5)) in
  let args := Sample.args false "config.json" in
  outcome (Run.cycle Run.up g args (initial_world None))
  = Raised (mk_exn ValueError "sleep length must be non-negative")
  /\ exit_status (outcome (Run.poll_loop Run.up 4 g args (initial_world None))) = Some 1
  /\ events (Run.poll_loop Run.up 4 g args (initial_world None))
     = events (Run.cycle Run.up g args (initial_world None)).
Proof.
  destruct (bad_interval_ends_the_loop
              Sample.repr Sample.float_of_string Sample.urlencode Sample.json_dumps
              Sample.urlparse Sample.urlunparse Run.up (Scene.with_interval (PInt (-5)))
              (Sample.args false "config.json") (initial_world None) _ eq_refl)
    as (H1 & _ & H2).
  destruct (H2 3%nat) as (_ & H3 & H4).
  cbv zeta. split; [exact H1|]. split; [exact H4 | exact H3].
Defined.

(** X13, witness: the command line [daily 7]. Two turns, no request. *)
Lemma command_arguments_fail_every_cycle_witness :
  let r := Run.poll_loop Run.up 2 (Run.globals_of true true) Scene.args_with_argument
                         (initial_world None) in
  exists e,
    exn_cls e = TypeError
    /\ events r
       = [EvPrint ("An error occurred: " ++ exn_msg e ++ ", skipping run"); EvSleep (PInt 600);
          EvPrint ("An error occurred: " ++ exn_msg e ++ ", skipping run"); EvSleep (PInt 600)]
    /\ after r = initial_world None.
Proof.
  assert (arg_command_arguments Scene.args_with_argument <> []) as Hne by discriminate.
  destruct (command_arguments_fail_every_cycle
              Sample.repr Sample.float_of_string Sample.urlencode Sample.json_dumps
              Sample.urlparse Sample.urlunparse Run.up (Run.globals_of true true)
              Scene.args_with_argument eq_refl Hne)
    as (e & H1 & _ & H2).
  cbv zeta. exists e. split; [exact H1|].
  unfold Run.poll_loop. rewrite (H2 eq_refl 2%nat (initial_world None)).
  split; reflexivity.
Defined.

(** X14, witness: the worked example, both publishers on. *)
Lemma row_is_saved_only_after_the_status_update_witness :
  exists before text rest,
    events (Scene.main Run.up (Run.globals_of true true) (Sample.args false "config.json")
                       (initial_world None))
    = (before ++ EvUpdateStatus text :: rest)%list
    /\ filter is_sqlite before = []
    /\ status_update Run.up 0 = None.
Proof.
  assert (filter is_sqlite
            (events (Scene.main Run.up (Run.globals_of true true)
                                (Sample.args false "config.json") (initial_world None)))
          <> []) as Hne by (vm_compute; discriminate).
  exact (row_is_saved_only_after_the_status_update
           Sample.repr Sample.float_of_string Sample.urlencode Sample.json_dumps
           Sample.urlparse Sample.urlunparse Run.up (Run.globals_of true true)
           (Sample.args false "config.json") (initial_world None) eq_refl Hne).
Defined.

(** The provider refuses the status: nothing is stored. *)
Example refused_status_is_not_stored :
  let r := Scene.main Run.rejected (Run.globals_of true true)
                      (Sample.args false "config.json") (initial_world None) in
  filter is_sqlite (events r) = [] /\ db (after r) = None
  /\ outcome r = Raised (mk_exn (LibraryError "tweepy.TweepError") "Rate limit exceeded").
Proof. cbv zeta. repeat (split; [vm_compute; reflexivity|]). vm_compute. reflexivity. Qed.

(** X16, witness: a configuration without [api_server], three turns
    allowed. *)
Lemma config_without_api_server_stops_the_script_witness :
  let r := Run.script Scene.bare 3 (Sample.args false "config.json") (initial_world None) in
  outcome r = Raised (mk_exn TypeError "'NoneType' object cannot be interpreted as an integer")
  /\ exit_status (outcome r) = Some 1
  /\ filter is_publish (events r) = []
  /\ filter is_sleep (events r) = [].
Proof.
  pose proof (config_without_api_server_stops_the_script
                Sample.repr Sample.float_of_string Sample.urlencode Sample.json_dumps
                Sample.urlparse Sample.urlunparse Sample.path_str Scene.bare
                (Sample.args false "config.json") _ (initial_world None) 2%nat
                eq_refl eq_refl) as H.
  cbv zeta in H. destruct H as (_ & H1 & H2 & _ & H3 & H4).
  cbv zeta. split; [exact H1|]. split; [exact H2|]. split; [exact H3 | exact H4].
Defined.

(** X17, witness: a configuration that is a list, and one whose
    [api_server] is a string. *)
Lemma config_of_the_wrong_shape_stops_start_up_witness :
  Run.script Scene.listed 3 (Sample.args false "config.json") (initial_world None)
  = mk_run [] (Raised (mk_exn AttributeError "'list' object has no attribute 'get'"))
           (initial_world None)
  /\ Run.script Scene.misplaced 3 (Sample.args false "config.json") (initial_world None)
     = mk_run [] (Raised (mk_exn AttributeError "'str' object has no attribute 'get'"))
              (initial_world None).
Proof.
  split.
  - apply (proj1 (config_of_the_wrong_shape_stops_start_up
                    Sample.repr Sample.float_of_string Sample.urlencode Sample.json_dumps
                    Sample.urlparse Sample.urlunparse Sample.path_str Scene.listed
                    (Sample.args false "config.json") _ (initial_world None) 3%nat eq_refl)).
    intros d H. discriminate H.
  - apply (proj2 (config_of_the_wrong_shape_stops_start_up
                    Sample.repr Sample.float_of_string Sample.urlencode Sample.json_dumps
                    Sample.urlparse Sample.urlunparse Sample.path_str Scene.misplaced
                    (Sample.args false "config.json") _ (initial_world None) 3%nat eq_refl)
                 _ (PStr "localhost") eq_refl eq_refl).
    intros d H. discriminate H.
Defined.

(** X18, witness: a server that never answers stops the turn at the first
    fetch; a server that is down is asked twice. *)
Lemma only_a_connection_error_reaches_the_second_fetch_witness :
  Scene.main Scene.stalled (Run.globals_of true true) (Sample.args false "config.json")
             (initial_world None)
  = mk_run [EvRequest "GET" "http://localhost:8080/api/v1/profit" hd_json "null"]
           (Raised Scene.read_timeout) (one_more_request (initial_world None))
  /\ filter is_request
       (events (Scene.main Run.down (Run.globals_of true true)
                           (Sample.args false "config.json") (initial_world None)))
     = [EvRequest "GET" "http://localhost:8080/api/v1/profit" hd_json "null";
        EvRequest "GET" "http://localhost:8080/api/v1/daily" hd_json "null"].
Proof.
  split.
  - exact (proj1 (only_a_connection_error_reaches_the_second_fetch
                    Sample.repr Sample.float_of_string Sample.urlencode Sample.json_dumps
                    Sample.urlparse Sample.urlunparse Scene.stalled (Run.globals_of true true)
                    (Sample.args false "config.json") (initial_world None)
                    Scene.read_timeout _ "http://localhost:8080/api/v1/daily" _
                    eq_refl eq_refl eq_refl eq_refl eq_refl eq_refl) eq_refl).
  - exact (proj1 (proj2 (only_a_connection_error_reaches_the_second_fetch
                           Sample.repr Sample.float_of_string Sample.urlencode
                           Sample.json_dumps Sample.urlparse Sample.urlunparse Run.down
                           (Run.globals_of true true) (Sample.args false "config.json")
                           (initial_world None) Sample.connection_refused _ _ _
                           eq_refl eq_refl eq_refl eq_refl eq_refl eq_refl) eq_refl)).
Defined.

(** X19, witness: the server is down; the turn ends with an error line
    and the sleep. *)
Lemma every_turn_reports_before_it_sleeps_witness :
  exists (tr : list event) line e,
    events (Run.cycle Run.down (Run.globals_of true true) (Sample.args false "config.json")
                      (initial_world None))
    = (tr ++ [EvPrint line; EvSleep (PInt 600)])%list
    /\ line = "An error occurred: " ++ exn_msg e ++ ", skipping run".
Proof.
  destruct (every_turn_reports_before_it_sleeps
              Sample.repr Sample.float_of_string Sample.urlencode Sample.json_dumps
              Sample.urlparse Sample.urlunparse Run.down (Run.globals_of true true)
              (Sample.args false "config.json") (initial_world None) eq_refl eq_refl)
    as (tr & line & Hev & [[Hm _]|(e & Hl & _)]).
  - vm_compute in Hm. discriminate Hm.
  - exists tr, line, e. split; [exact Hev | exact Hl].
Defined.

(** X15, witness: the worked example sends its two requests; with [--show]
    nothing is sent. *)
Lemma main_asks_for_profit_then_daily_witness :
  filter is_request
    (events (Scene.main Run.up (Run.globals_of true true) (Sample.args false "config.json")
                        (initial_world None)))
  = [EvRequest "GET" "http://localhost:8080/api/v1/profit" hd_json "null";
     EvRequest "GET" "http://localhost:8080/api/v1/daily" hd_json "null"]
  /\ filter is_request
       (events (Scene.main Run.up (Run.globals_of true true) (Sample.args true "config.json")
                           (initial_world None)))
     = [].
Proof.
  split.
  - pose proof (main_asks_for_profit_then_daily
                  Sample.repr Sample.float_of_string Sample.urlencode Sample.json_dumps
                  Sample.urlparse Sample.urlunparse Run.up (Run.globals_of true true)
                  (Sample.args false "config.json") (initial_world None)) as H.
    cbv zeta in H. destruct H as (_ & H & _).
    destruct (H eq_refl eq_refl) as (_ & _ & H3).
    destruct (H3 _ _ eq_refl eq_refl) as [_ H4].
    assert (forall e, http Run.up (requests_made (initial_world None)) = HttpRaises e ->
                      is_connection_error e = true) as Hreturns
        by (intros e He; discriminate He).
    destruct (H4 Hreturns) as [_ H5].
    exact (proj1 (H5 _ eq_refl)).
  - pose proof (main_asks_for_profit_then_daily
                  Sample.repr Sample.float_of_string Sample.urlencode Sample.json_dumps
                  Sample.urlparse Sample.urlunparse Run.up (Run.globals_of true true)
                  (Sample.args true "config.json") (initial_world None)) as H.
    cbv zeta in H. destruct H as (H & _).
    exact (proj1 (H (or_introl eq_refl))).
Defined.

(** X20, witness: the worked example, both publishers on, an empty
    database. *)
Lemma returned_turn_publishes_once_witness :
  let r := Scene.main Run.up (Run.globals_of true true) (Sample.args false "config.json")
                      (initial_world None) in
  exists text row,
    sample_report Sample.profit_summary Sample.daily_summary (PInt 1000) (PInt 50) = Ok text
    /\ filter is_publish (events r)
       = [EvUpdateStatus text; EvSqlConnect "history.db"; EvSqlExecute SQL_CREATE [];
          EvSqlCommit; EvSqlExecute SQL_INSERT row; EvSqlCommit]
    /\ db (after r)
       = Some {| columns := trades_schema;
                 rows := [stored_row Run.up trades_schema row] |}.
Proof.
  destruct (returned_turn_publishes_once
              Sample.repr Sample.float_of_string Sample.urlencode Sample.json_dumps
              Sample.urlparse Sample.urlunparse Run.up (Run.globals_of true true)
              (Sample.args false "config.json") (initial_world None)
              eq_refl eq_refl eq_refl)
    as (op & answer & odd & text & m & row & Hh1 & Hh2 & Hodd & Hr & _ & _ & Hpub & _ & _ & _
        & Hdb).
  change (Response Sample.profit_summary = Response op) in Hh1. injection Hh1 as <-.
  change (Response Sample.daily_response = Response answer) in Hh2. injection Hh2 as <-.
  change (Ok Sample.daily_summary = Ok odd) in Hodd. injection Hodd as <-.
  cbv zeta. exists text, row. split; [exact Hr|]. split; [exact Hpub | exact Hdb].
Defined.
